(** * friend_trackmania_leaderboard: the trophy pipeline of [main.py]

    A shallow embedding of [src/friend_trackmania_leaderboard/main.py]:
    trophy records and their construction from a gain payload, the
    paginated fetcher, the cache write and read paths of [main], and the
    three plot reducers.

    Conventions of the embedding.
    - Python [int] is [Z]; [len] is a [nat].
    - A timezone-aware [datetime] is the instant it denotes, a [Z]
      (microseconds since the epoch): comparison and equality of aware
      datetimes are those of the instants.
    - Decoded JSON and YAML documents are values of [pyobj]; a [dict] is an
      association list in insertion order whose first binding of a key is
      the one a lookup sees.
    - A raised exception is [Err e]; a function that can raise returns
      [result].
    - The fields of a [TrophyData] have the types of the dataclass. The
      timestamps of records are aware (the provider sends them with a UTC
      offset), and [from_gain] raises what Python raises; only where
      Python would return a record whose [achievement_type] is no [str]
      does the embedding, which has no such record, answer [TypeError].
    - Library calls ([datetime.fromisoformat] and whether what it returns
      carries a UTC offset, the builtin [str], [list] of a set,
      [yaml.dump], [yaml.safe_load], the HTTP server behind
      [requests.get]) are section variables; [sorted] and [heapq.merge]
      are given by their algorithms, and [np.cumsum] as the int64
      accumulation numpy performs on a list of ints that fit in 64 bits. *)

From Stdlib Require Import ZArith String.
From stdpp Require Import base list strings gmap fin_maps sorting.

Local Open Scope string_scope.
Local Open Scope Z_scope.
Local Open Scope list_scope.

(** ** Values and exceptions *)

#[warnings="-register-all"]
Inductive pyobj : Type :=
  | PyNone
  | PyBool (b : bool)
  | PyInt (z : Z)
  | PyStr (s : string)
  | PyDatetime (t : Z)
  | PyList (l : list pyobj)
  | PyDict (d : list (string * pyobj)).

Abbreviation datetime := Z (only parsing).
Abbreviation dict := (list (string * pyobj)) (only parsing).

Inductive exn : Type :=
  | KeyError (key : string)
  | IndexError
  | TypeError
  | ValueError
  | AttributeError
  | RuntimeError (response : pyobj)
  | IntKeyError (key : Z)
  | JSONDecodeError.

Inductive result (A : Type) : Type :=
  | Ok (a : A)
  | Err (e : exn).
Arguments Ok {A} a.
Arguments Err {A} e.

#[export] Instance result_ret : MRet result := λ A, @Ok A.
#[export] Instance result_bind : MBind result := λ A B f r,
  match r with
  | Ok a => f a
  | Err e => Err e
  end.

Definition is_Ok {A} (r : result A) : Prop := ∃ a, r = Ok a.
Definition is_Err {A} (r : result A) : Prop := ∃ e, r = Err e.

(** [d[key]] on a dict. *)
Fixpoint dict_get {V} (d : list (string * V)) (key : string) : result V :=
  match d with
  | [] => Err (KeyError key)
  | (k, v) :: d' => if decide (k = key) then Ok v else dict_get d' key
  end.

(** [obj[key]] with a string key: only a dict can be subscripted so. *)
Definition getitem (obj : pyobj) (key : string) : result pyobj :=
  match obj with
  | PyDict d => dict_get d key
  | _ => Err TypeError
  end.

(** [l[i]] on a list, for [i >= 0]. *)
Definition list_getitem {A} (l : list A) (i : nat) : result A :=
  match l !! i with
  | Some a => Ok a
  | None => Err IndexError
  end.

(** The builtin [sum], from 0, left to right. *)
Definition py_sum (l : list Z) : Z := fold_left Z.add l 0.

(** [for x in obj]: the elements a [for] loop sees. *)
Definition py_iter (obj : pyobj) : result (list pyobj) :=
  match obj with
  | PyList l => Ok l
  | PyDict d => Ok (PyStr <$> d.*1)
  | PyStr s =>
      Ok ((λ c, PyStr (String c EmptyString)) <$> list_ascii_of_string s)
  | _ => Err TypeError
  end.

(** [n == obj] for an int [n]: a bool is the int 0 or 1. *)
Definition int_eq (n : Z) (obj : pyobj) : bool :=
  match obj with
  | PyInt z => bool_decide (n = z)
  | PyBool b => bool_decide (n = if b then 1 else 0)
  | _ => false
  end.

Definition as_str (obj : pyobj) : result string :=
  match obj with
  | PyStr s => Ok s
  | _ => Err TypeError
  end.

(** An int; a [bool] is the int 0 or 1. *)
Definition as_int (obj : pyobj) : result Z :=
  match obj with
  | PyInt z => Ok z
  | PyBool b => Ok (if b then 1 else 0)
  | _ => Err TypeError
  end.

(** [len(obj)]. *)
Definition py_len (obj : pyobj) : result nat :=
  match obj with
  | PyList l => Ok (length l)
  | PyDict d => Ok (length d)
  | PyStr s => Ok (String.length s)
  | _ => Err TypeError
  end.

Definition as_datetime (obj : pyobj) : result datetime :=
  match obj with
  | PyDatetime t => Ok t
  | _ => Err TypeError
  end.

Definition as_dict (obj : pyobj) : result dict :=
  match obj with
  | PyDict d => Ok d
  | _ => Err TypeError
  end.

Definition as_int_list (obj : pyobj) : result (list Z) :=
  match obj with
  | PyList l => mapM as_int l
  | _ => Err TypeError
  end.

(** ** Trophy records *)

Record TrophyData : Type := mkTrophyData {
  timestamp : datetime;
  achievement_type : string;
  count : Z;
  data : dict;
}.

Definition _sum_trophy_points (counts : list Z) : result Z :=
  let expected_len := 9%nat in
  if decide (length counts ≠ expected_len) then Err ValueError
  else
    terms ← mapM (λ i, c ← list_getitem counts i; Ok (c * 10 ^ Z.of_nat i))
                 (seq 0 expected_len);
    Ok (py_sum terms).

(** [_sum_trophy_points] as [from_gain] calls it, on a value that need
    not be a list of ints: the length is tested first; then an element
    that is no int makes the sum a [TypeError], as does indexing a string;
    a dict of 9 entries has no key 0. *)
Definition sum_trophy_points_of (counts : pyobj) : result Z :=
  n ← py_len counts;
  if decide (n ≠ 9%nat) then Err ValueError
  else
    match counts with
    | PyList l => ints ← mapM as_int l; _sum_trophy_points ints
    | PyDict _ => Err (IntKeyError 0)
    | _ => Err TypeError
    end.

Section categorize.
(** The builtin [str], which formats a value inside an f-string. *)
Variable py_str : pyobj → string.

(** [f"{obj}"]: a string is itself. *)
Definition py_format (obj : pyobj) : string :=
  match obj with
  | PyStr s => s
  | _ => py_str obj
  end.

(** [TrophyData.categorize]. *)
Definition categorize (gain_data : pyobj) : result pyobj :=
  achieve ← getitem gain_data "achievement";
  category ← getitem achieve "trophyAchievementType";
  match category with
  | PyStr s =>
      if decide (s = "SoloRanking") then
        sub ← getitem achieve "trophySoloRankingAchievementType";
        Ok (PyStr ("SoloRanking - " +:+ py_format sub))
      else Ok category
  | _ => Ok category
  end.
End categorize.

Section from_gain.
(** [datetime.datetime.fromisoformat] on a string; [None] is its
    [ValueError]. *)
Variable fromisoformat : string → option datetime.

Definition parse_timestamp (obj : pyobj) : result datetime :=
  s ← as_str obj;
  match fromisoformat s with
  | Some t => Ok t
  | None => Err ValueError
  end.

(** [TrophyData.from_gain]; the keyword arguments are evaluated in the
    order they are written. The last step is not one of Python: a record
    whose category is no [str] is no value of [TrophyData]. *)
Definition from_gain (gain_data : pyobj) : result TrophyData :=
  ts ← getitem gain_data "timestamp" ≫= parse_timestamp;
  achieve ← getitem gain_data "achievement";
  category ← getitem achieve "trophyAchievementType";
  counts ← getitem gain_data "counts";
  cnt ← sum_trophy_points_of counts;
  d ← as_dict gain_data;
  ty ← as_str category;
  Ok (mkTrophyData ts ty cnt d).
End from_gain.

(** ** The fetcher *)

(** A response: [resp.ok], and the body when it is a JSON document. *)
Record Response : Type := mkResponse {
  ok : bool;
  content : option pyobj;
}.

(** [resp.json()]: it raises on a body that is no JSON document. *)
Definition json (resp : Response) : result pyobj :=
  match content resp with
  | Some body => Ok body
  | None => Err JSONDecodeError
  end.

(** What one call of [get_trophies] leaves behind: the pages it requested,
    in order, and the list it returns or the exception it raises. *)
Record Fetch : Type := mkFetch {
  requested : list nat;
  outcome : result (list TrophyData);
}.

Section get_trophies.
Variable fromisoformat : string → option datetime.
(** [requests.get] on [f"{base_url}/{page}"]: the provider's answer for a
    player and a page. *)
Variable requests_get : string → nat → Response.

(** [for entry in entries: gains.append(TrophyData.from_gain(entry))]. *)
Fixpoint append_gains (gains : list TrophyData) (entries : list pyobj)
    : result (list TrophyData) :=
  match entries with
  | [] => Ok gains
  | entry :: entries' =>
      trophy ← from_gain fromisoformat entry;
      append_gains (gains ++ [trophy]) entries'
  end.

(** The body of the page loop after the [resp.ok] test: the extended
    [gains] and whether the loop breaks. *)
Definition read_page (data : pyobj) (gains : list TrophyData)
    : result (list TrophyData * bool) :=
  num_gains ← getitem data "total";
  entries ← getitem data "gains" ≫= py_iter;
  gains' ← append_gains gains entries;
  Ok (gains', int_eq (Z.of_nat (length gains')) num_gains).

Fixpoint get_trophies_loop (player_id : string) (pages : list nat)
    (gains : list TrophyData) (log : list nat) : Fetch :=
  match pages with
  | [] => mkFetch log (Ok gains)
  | page :: pages' =>
      let resp := requests_get player_id page in
      let log := log ++ [page] in
      if negb (ok resp) then
        mkFetch log (body ← json resp; Err (RuntimeError body))
      else
        match (data ← json resp; read_page data gains)
              : result (list TrophyData * bool) with
        | Err e => mkFetch log (Err e)
        | Ok (gains', break) =>
            if break then mkFetch log (Ok gains')
            else get_trophies_loop player_id pages' gains' log
        end
  end.

(** [get_trophies]; [request_limit] defaults to 100 in the source. *)
Definition get_trophies (player_id : string) (request_limit : nat) : Fetch :=
  get_trophies_loop player_id (seq 0 request_limit) [] [].
End get_trophies.

(** ** The cache *)

(** [dataclasses.asdict]: the declared fields, in order; values are
    immutable here, so its deep copy is the value itself. *)
Definition asdict (trophy : TrophyData) : pyobj :=
  PyDict [("timestamp", PyDatetime (timestamp trophy));
          ("achievement_type", PyStr (achievement_type trophy));
          ("count", PyInt (count trophy));
          ("data", PyDict (data trophy))].

Definition TrophyData_fields : list string :=
  ["timestamp"; "achievement_type"; "count"; "data"].

(** A keyword argument of the generated [__init__]: a missing one is a
    [TypeError]. *)
Definition kwarg (kwargs : dict) (name : string) : result pyobj :=
  match dict_get kwargs name with
  | Ok v => Ok v
  | Err _ => Err TypeError
  end.

(** [TrophyData] called with the entries of [trophy] as its keyword
    arguments: every key has to be a field and every field a key. *)
Definition TrophyData_from_kwargs (trophy : pyobj) : result TrophyData :=
  kwargs ← as_dict trophy;
  if decide (Forall (λ k, k ∈ TrophyData_fields) kwargs.*1) then
    ts ← kwarg kwargs "timestamp" ≫= as_datetime;
    ty ← kwarg kwargs "achievement_type" ≫= as_str;
    cnt ← kwarg kwargs "count" ≫= as_int;
    d ← kwarg kwargs "data" ≫= as_dict;
    Ok (mkTrophyData ts ty cnt d)
  else Err TypeError.

(** The document the write path of [main] hands to [yaml.dump]. *)
Definition yamlified (trophy_results : list (string * list TrophyData))
    : pyobj :=
  PyDict ((λ '(player, player_trophies),
             (player, PyList (asdict <$> player_trophies)))
          <$> trophy_results).

Section cache.
(** The text of [cached.yml], and [yaml.dump] and [yaml.safe_load]. *)
Context {File : Type}.
Variable yaml_dump : pyobj → File.
Variable yaml_safe_load : File → result pyobj.

(** The write path of [main]. *)
Definition write_cache (trophy_results : list (string * list TrophyData))
    : File :=
  yaml_dump (yamlified trophy_results).

(** The read path of [main]. *)
Definition read_cache (cached : File)
    : result (list (string * list TrophyData)) :=
  parsed_yaml ← yaml_safe_load cached;
  items ← match parsed_yaml with
          | PyDict d => Ok d
          | _ => Err AttributeError
          end;
  mapM (λ '(player, player_data),
          player_trophies ← py_iter player_data ≫= mapM TrophyData_from_kwargs;
          Ok (player, player_trophies))
       items.
End cache.

(** ** The plot reducers *)

Inductive Trace : Type :=
  | Scatter (x : list datetime) (y : list Z) (name : option string)
  | Bar (name : string) (x : list string) (y : list Z).

Record Figure : Type := mkFigure {
  traces : list Trace;
  yaxis_title : option string;
}.

(** [go.Figure()], [fig.add_trace] and [fig.update_yaxes(title_text=...)]. *)
Definition new_figure : Figure := mkFigure [] None.
Definition add_trace (fig : Figure) (tr : Trace) : Figure :=
  mkFigure (traces fig ++ [tr]) (yaxis_title fig).
Definition update_yaxes (fig : Figure) (title_text : string) : Figure :=
  mkFigure (traces fig) (Some title_text).

(** The builtin [sorted(l, key=key)]: a stable ascending sort. An element
    is put in front of the first element of the sorted rest whose key is
    not smaller, so equal keys keep the order of [l]. *)
Fixpoint insert_by {A} (key : A → Z) (a : A) (l : list A) : list A :=
  match l with
  | [] => [a]
  | b :: l' =>
      if decide (key a ≤ key b) then a :: b :: l' else b :: insert_by key a l'
  end.

Definition sorted {A} (key : A → Z) (l : list A) : list A :=
  foldr (insert_by key) [] l.

(** The running sums of a list of integers, from [acc] on. *)
Fixpoint cumsum_from (acc : Z) (l : list Z) : list Z :=
  match l with
  | [] => []
  | z :: l' => (acc + z) :: cumsum_from (acc + z) l'
  end.

(** The value an int64 holds after an operation whose exact result is
    [z]: two's complement wrap-around. *)
Definition wrap_int64 (z : Z) : Z := (z + 2 ^ 63) `mod` 2 ^ 64 - 2 ^ 63.

Fixpoint cumsum_int64_from (acc : Z) (l : list Z) : list Z :=
  match l with
  | [] => []
  | z :: l' =>
      let acc := wrap_int64 (acc + z) in
      acc :: cumsum_int64_from acc l'
  end.

(** [np.cumsum] on a list of ints that fit in 64 bits: numpy makes it an
    int64 array and accumulates in int64, without an overflow check. *)
Definition np_cumsum (l : list Z) : list Z := cumsum_int64_from 0 l.

(** [heapq.merge(l1, l2, key=key)]: the heap holds the head of each
    iterable that is not exhausted, ordered by key and then by the position
    of the iterable, so the head of [l1] is taken unless the head of [l2]
    has a strictly smaller key. *)
Fixpoint heapq_merge {A} (key : A → Z) (l1 l2 : list A) : list A :=
  let fix merge_l2 (l2 : list A) : list A :=
    match l1, l2 with
    | [], _ => l2
    | _, [] => l1
    | a :: l1', b :: l2' =>
        if decide (key a ≤ key b) then a :: heapq_merge key l1' l2
        else b :: merge_l2 l2'
    end
  in merge_l2 l2.

(** The trace [plot_cumulative_trophies] adds for one player. *)
Definition cumulative_trace (player : string) (trophies : list TrophyData)
    : Trace :=
  let trophies_chronological := sorted timestamp trophies in
  Scatter (timestamp <$> trophies_chronological)
          (np_cumsum (count <$> trophies_chronological))
          (Some player).

Definition plot_cumulative_trophies
    (player_trophies : list (string * list TrophyData)) : Figure :=
  fold_left
    (λ fig '(player, trophies),
       let fig := add_trace fig (cumulative_trace player trophies) in
       update_yaxes fig "Trophy points")
    player_trophies new_figure.

(** The state of the loop of [plot_race]: [sums], [t] and [deltas]. *)
Record Race : Type := mkRace {
  sums : list Z;
  t : list datetime;
  deltas : list Z;
}.

Definition race_step (st : Race) (ev : nat * TrophyData) : Race :=
  let '(player, trophy) := ev in
  let sums := <[player := (sums st !!! player) + count trophy]> (sums st) in
  mkRace sums
         (t st ++ [timestamp trophy])
         (deltas st ++ [(sums !!! 0%nat) - (sums !!! 1%nat)]).

(** The events the loop of [plot_race] runs over: the records of the two
    players, marked 0 and 1, merged on their timestamps. *)
Definition merged_events (player1_trophies player2_trophies : list TrophyData)
    : list (nat * TrophyData) :=
  let player1_results := (λ trophy, (0%nat, trophy)) <$> player1_trophies in
  let player2_results := (λ trophy, (1%nat, trophy)) <$> player2_trophies in
  heapq_merge (λ v, timestamp v.2) player1_results player2_results.

Definition race (player1_trophies player2_trophies : list TrophyData) : Race :=
  fold_left race_step
    (merged_events player1_trophies player2_trophies)
    (mkRace [0; 0] [] []).

Definition plot_race
    (player_trophies_chronological : list (string * list TrophyData))
    (player1 player2 : string) : result Figure :=
  player1_trophies ← dict_get player_trophies_chronological player1;
  player2_trophies ← dict_get player_trophies_chronological player2;
  let st := race player1_trophies player2_trophies in
  let fig := add_trace new_figure (Scatter (t st) (deltas st) None) in
  Ok (update_yaxes fig (player1 +:+ " trophies minus " +:+ player2 +:+ " trophies")).

(** [totals[key]] on a [collections.defaultdict(int)]: a missing key is
    entered with 0. *)
Definition defaultdict_getitem (totals : gmap string Z) (key : string)
    : Z * gmap string Z :=
  match totals !! key with
  | Some v => (v, totals)
  | None => (0, <[key := 0]> totals)
  end.

(** [totals[trophy.achievement_type] += trophy.count]. *)
Definition add_total (totals : gmap string Z) (trophy : TrophyData)
    : gmap string Z :=
  let '(v, totals) := defaultdict_getitem totals (achievement_type trophy) in
  <[achievement_type trophy := v + count trophy]> totals.

(** [[totals[cat] for cat in categories]]. *)
Fixpoint read_totals (totals : gmap string Z) (categories : list string)
    : list Z :=
  match categories with
  | [] => []
  | cat :: categories' =>
      let '(v, totals) := defaultdict_getitem totals cat in
      v :: read_totals totals categories'
  end.

(** The trace [plot_categorized_trophies] adds for one player. *)
Definition categorized_trace (categories : list string) (player : string)
    (trophies : list TrophyData) (start_date : datetime) : Trace :=
  let trophies_after_start :=
    filter (λ trophy, start_date ≤ timestamp trophy) trophies in
  let totals := fold_left add_total trophies_after_start ∅ in
  Bar player categories (read_totals totals categories).

Definition plot_categorized_trophies (categories : list string)
    (player_trophies : list (string * list TrophyData))
    (start_date : datetime) : Figure :=
  fold_left
    (λ fig '(player, trophies),
       let fig :=
         add_trace fig (categorized_trace categories player trophies start_date) in
       update_yaxes fig "Trophy points")
    player_trophies new_figure.

(** [TrophyData.__lt__]. *)
Definition TrophyData_lt (self other : TrophyData) : bool :=
  bool_decide (timestamp self < timestamp other).

(** ** The configuration *)

(** [d[key] = v] on a dict: a key that is there keeps its place. *)
Fixpoint dict_set {V} (d : list (string * V)) (key : string) (v : V)
    : list (string * V) :=
  match d with
  | [] => [(key, v)]
  | (k, w) :: d' =>
      if decide (k = key) then (k, v) :: d' else (k, w) :: dict_set d' key v
  end.

Record Config : Type := mkConfig {
  player_ids : list (string * pyobj);
  plot_settings : pyobj;
}.

(** [name, player_id = item]: the item has to yield two elements. *)
Definition unpack_pair (item : pyobj) : result (pyobj * pyobj) :=
  elements ← py_iter item;
  match elements with
  | [a; b] => Ok (a, b)
  | _ => Err ValueError
  end.

Section from_toml.
(** The builtin [str]. *)
Variable py_str : pyobj → string.

(** [{str(name): player_id for name, player_id in pairs}]. *)
Definition player_dict (pairs : list (pyobj * pyobj)) : list (string * pyobj) :=
  fold_left (λ d '(name, player_id), dict_set d (py_str name) player_id)
            pairs [].

(** [Config.from_toml]. *)
Definition from_toml (cfg : dict) : result Config :=
  players ← dict_get cfg "players" ≫= py_iter;
  pairs ← mapM unpack_pair players;
  let plot_settings :=
    match dict_get cfg "plot_settings" with
    | Ok v => v
    | Err _ => PyDict []
    end in
  Ok (mkConfig (player_dict pairs) plot_settings).
End from_toml.

(** ** [plot_trophies] *)

(** The loop of [plot_trophies] that gathers the categories. *)
Definition all_categories (player_trophies : list (string * list TrophyData))
    : gset string :=
  fold_left
    (λ categories '(_, player_results),
       categories ∪ list_to_set (achievement_type <$> player_results))
    player_trophies ∅.

(** [plot_categorized_trophies] as [plot_trophies] calls it, with a cutoff
    that is aware or not: comparing a record's timestamp, which is aware,
    with a cutoff that is not raises a [TypeError]; without any record
    nothing is compared. *)
Definition plot_categorized_cutoff (categories : list string)
    (player_trophies : list (string * list TrophyData))
    (aware : bool) (start_date : datetime) : result Figure :=
  if aware
     || forallb (λ pt : string * list TrophyData,
                   bool_decide (length pt.2 = 0%nat)) player_trophies
  then Ok (plot_categorized_trophies categories player_trophies start_date)
  else Err TypeError.

Section plot_trophies.
Variable fromisoformat : string → option datetime.
(** Whether [datetime.fromisoformat] of a string carries a UTC offset. *)
Variable has_tzinfo : string → bool.
(** [list(categories)] on a set: the order is that of the hash table. *)
Variable list_of_set : gset string → list string.

(** [plot_trophies]; the figures of the returned dict are built in the
    order they are written. *)
Definition plot_trophies (player_trophies : list (string * list TrophyData))
    (plot_args : pyobj) : result (list (string * Figure)) :=
  let categories := all_categories player_trophies in
  let trophies_chronological :=
    (λ '(player, trophies), (player, sorted timestamp trophies))
    <$> player_trophies in
  let cumulative := plot_cumulative_trophies trophies_chronological in
  john_v_marc ← plot_race trophies_chronological "jmal" "sampleses";
  categorized_args ← getitem plot_args "categorized";
  start ← getitem categorized_args "start_date" ≫= as_str;
  start_date ← parse_timestamp fromisoformat (PyStr start);
  categorized ← plot_categorized_cutoff (list_of_set categories)
                   trophies_chronological (has_tzinfo start) start_date;
  Ok [("cumulative", cumulative);
      ("john_v_marc", john_v_marc);
      ("categorized", categorized)].
End plot_trophies.

(** ** [main] *)

(** What a run of [main] leaves behind: the requests it sent (player and
    page), the text it wrote to [cached.yml] if it wrote it, and the
    figures it rendered or the exception that ended it. *)
Record Run (File : Type) : Type := mkRun {
  requests : list (string * nat);
  written : option File;
  figures : result (list (string * Figure));
}.
Arguments mkRun {File} requests written figures.
Arguments requests {File} r.
Arguments written {File} r.
Arguments figures {File} r.

Section main.
Context {File : Type}.
Variable fromisoformat : string → option datetime.
Variable has_tzinfo : string → bool.
Variable requests_get : string → nat → Response.
Variable py_str : pyobj → string.
Variable list_of_set : gset string → list string.
Variable yaml_dump : pyobj → File.
Variable yaml_safe_load : File → result pyobj.

(** The fetch loop of [main]; the player id enters [get_trophies] through
    the f-string of the URL only, that is as [str(player_id)]. *)
Fixpoint fetch_players (players : list (string * pyobj))
    (trophy_results : list (string * list TrophyData))
    (log : list (string * nat))
    : list (string * nat) * result (list (string * list TrophyData)) :=
  match players with
  | [] => (log, Ok trophy_results)
  | (name, player_id) :: players' =>
      let fetch :=
        get_trophies fromisoformat requests_get (py_str player_id) 100 in
      let log := log ++ ((λ page, (py_str player_id, page)) <$> requested fetch) in
      match outcome fetch with
      | Err e => (log, Err e)
      | Ok gains =>
          fetch_players players' (dict_set trophy_results name gains) log
      end
  end.

(** [main] from the parsed configuration file on; [cache_file] is the text
    of [cached.yml] when the file exists. *)
Definition main (cfg_toml : dict) (cache_file : option File) : Run File :=
  match from_toml py_str cfg_toml with
  | Err e => mkRun [] None (Err e)
  | Ok cfg =>
      match cache_file with
      | None =>
          let '(log, fetched) := fetch_players (player_ids cfg) [] [] in
          match fetched with
          | Err e => mkRun log None (Err e)
          | Ok trophy_results =>
              mkRun log (Some (write_cache yaml_dump trophy_results))
                    (plot_trophies fromisoformat has_tzinfo list_of_set
                                   trophy_results (plot_settings cfg))
          end
      | Some cached =>
          match read_cache yaml_safe_load cached with
          | Err e => mkRun [] None (Err e)
          | Ok trophy_results =>
              mkRun [] None
                    (plot_trophies fromisoformat has_tzinfo list_of_set
                                   trophy_results (plot_settings cfg))
          end
      end
  end.
End main.

(** ** Notions the properties are stated with *)

(** The order of two values by their keys. *)
Definition key_le {A} (key : A → Z) (a b : A) : Prop := key a ≤ key b.

(** The sum of a list of integers. *)
Definition Zsum (l : list Z) : Z := foldr Z.add 0 l.

(** The total of the counts of one side among some events. *)
Definition side_total (player : nat) (events : list (nat * TrophyData)) : Z :=
  Zsum ((λ v, count v.2) <$> filter (λ v, v.1 = player) events).

(** The total of the first side minus the total of the second after the
    event at position [i]. *)
Definition delta_at (events : list (nat * TrophyData)) (i : nat) : Z :=
  side_total 0 (take (S i) events) - side_total 1 (take (S i) events).

(** What a page carries: its ["total"] and the records decoded from its
    ["gains"]. *)
Definition page_batch (fromisoformat : string → option datetime)
    (data : pyobj) : result (pyobj * list TrophyData) :=
  num_gains ← getitem data "total";
  entries ← getitem data "gains" ≫= py_iter;
  batch ← mapM (from_gain fromisoformat) entries;
  Ok (num_gains, batch).

(** A successful page with total [total] and the batch [batch]. *)
Definition successful_page (fromisoformat : string → option datetime)
    (resp : Response) (total : Z) (batch : list TrophyData) : Prop :=
  ok resp = true ∧
  json resp ≫= page_batch fromisoformat = Ok (PyInt total, batch).

(** The records of the pages 0 to [n - 1]. *)
Definition batches_upto (batch : nat → list TrophyData) (n : nat)
    : list TrophyData :=
  concat (batch <$> seq 0 n).

(** The requests [main] sends for one player. *)
Definition player_requests (fromisoformat : string → option datetime)
    (requests_get : string → nat → Response) (py_str : pyobj → string)
    (player_id : pyobj) : list (string * nat) :=
  (λ page, (py_str player_id, page))
  <$> requested (get_trophies fromisoformat requests_get (py_str player_id) 100).

(** The integers an int64 holds. *)
Definition fits_int64 (z : Z) : Prop := - 2 ^ 63 ≤ z < 2 ^ 63.

(** The exact running sums of a list of integers. *)
Definition running_sum (l : list Z) : list Z := cumsum_from 0 l.

(** Two documents that are the same up to the order of the entries of
    their mappings. *)
#[warnings="-register-all"]
Inductive same_doc : pyobj → pyobj → Prop :=
  | same_doc_none : same_doc PyNone PyNone
  | same_doc_bool b : same_doc (PyBool b) (PyBool b)
  | same_doc_int z : same_doc (PyInt z) (PyInt z)
  | same_doc_str s : same_doc (PyStr s) (PyStr s)
  | same_doc_datetime t : same_doc (PyDatetime t) (PyDatetime t)
  | same_doc_list l l' :
      Forall2 same_doc l l' → same_doc (PyList l) (PyList l')
  | same_doc_dict d d' :
      d.*1 ≡ₚ d'.*1 →
      (∀ key v v', dict_get d key = Ok v → dict_get d' key = Ok v' →
                   same_doc v v') →
      same_doc (PyDict d) (PyDict d').

(** Two records that are equal in every field, the payloads as dicts,
    that is up to the order of their entries. *)
Definition same_record (r r' : TrophyData) : Prop :=
  timestamp r = timestamp r' ∧
  achievement_type r = achievement_type r' ∧
  count r = count r' ∧
  same_doc (PyDict (data r)) (PyDict (data r')).

(** What a [defaultdict(int)] holds for a key: 0 when the key is absent. *)
Definition total_of (totals : gmap string Z) (key : string) : Z :=
  default 0 (totals !! key).

(** The sum of the counts of the records of a category that are not
    earlier than the cutoff. *)
Definition category_total (cat : string) (start_date : datetime)
    (trophies : list TrophyData) : Z :=
  Zsum (count <$> filter (λ r, achievement_type r = cat ∧ start_date ≤ timestamp r)
                         trophies).

(** A record with the given timestamp and count. *)
Definition trophy_at (ts c : Z) : TrophyData := mkTrophyData ts "Live" c [].

(** A record with the given timestamp, category and count. *)
Definition trophy_of (ts : Z) (cat : string) (c : Z) : TrophyData :=
  mkTrophyData ts cat c [].

(** ** Sample inputs *)

(** A gain of the "SoloRanking" category, as the provider sends it. *)
Definition solo_gain : pyobj :=
  PyDict [("timestamp", PyStr "2023-05-01T12:00:00+00:00");
          ("achievement",
           PyDict [("trophyAchievementType", PyStr "SoloRanking");
                   ("trophySoloRankingAchievementType", PyStr "SoloTop")]);
          ("counts", PyList (PyInt <$> [5; 13; 18; 0; 0; 0; 0; 0; 0]))].

(** A gain of another category. *)
Definition live_gain : pyobj :=
  PyDict [("timestamp", PyStr "2023-05-02T08:30:00+00:00");
          ("achievement", PyDict [("trophyAchievementType", PyStr "Live")]);
          ("counts", PyList (PyInt <$> [0; 2; 0; 0; 0; 0; 0; 0; 0]))].

(** A provider with three gains for every player: two on page 0, one on
    page 1, and an error answer for every later page. *)
Definition sample_provider (player_id : string) (page : nat) : Response :=
  match page with
  | 0%nat =>
      mkResponse true
        (Some (PyDict [("gains", PyList [solo_gain; live_gain]);
                       ("total", PyInt 3)]))
  | 1%nat =>
      mkResponse true
        (Some (PyDict [("gains", PyList [live_gain]); ("total", PyInt 3)]))
  | _ => mkResponse false (Some (PyDict [("error", PyStr "not found")]))
  end.

(** A provider whose page 1 is an error answer. *)
Definition failing_provider (player_id : string) (page : nat) : Response :=
  match page with
  | 0%nat =>
      mkResponse true
        (Some (PyDict [("gains", PyList [solo_gain; live_gain]);
                       ("total", PyInt 3)]))
  | _ => mkResponse false (Some (PyDict [("error", PyStr "rate limited")]))
  end.

(** A provider behind a gateway that answers every request with an error
    page that is no JSON document. *)
Definition gateway_provider (player_id : string) (page : nat) : Response :=
  mkResponse false None.

(** [fromisoformat] on the two timestamps of the sample gains. *)
Definition sample_fromisoformat (s : string) : option datetime :=
  if decide (s = "2023-05-01T12:00:00+00:00") then Some 1682942400000000
  else if decide (s = "2023-05-02T08:30:00+00:00") then Some 1683016200000000
  else None.

Definition solo_trophy : TrophyData :=
  mkTrophyData 1682942400000000 "SoloRanking" 1935
    [("timestamp", PyStr "2023-05-01T12:00:00+00:00");
     ("achievement",
      PyDict [("trophyAchievementType", PyStr "SoloRanking");
              ("trophySoloRankingAchievementType", PyStr "SoloTop")]);
     ("counts", PyList (PyInt <$> [5; 13; 18; 0; 0; 0; 0; 0; 0]))].

Definition live_trophy : TrophyData :=
  mkTrophyData 1683016200000000 "Live" 20
    [("timestamp", PyStr "2023-05-02T08:30:00+00:00");
     ("achievement", PyDict [("trophyAchievementType", PyStr "Live")]);
     ("counts", PyList (PyInt <$> [0; 2; 0; 0; 0; 0; 0; 0; 0]))].

(** A configuration file with two players and a cutoff. *)
Definition sample_toml : dict :=
  [("players",
    PyList [PyList [PyStr "jmal"; PyStr "id-1"];
            PyList [PyStr "sampleses"; PyStr "id-2"]]);
   ("plot_settings",
    PyDict [("categorized",
             PyDict [("start_date", PyStr "2023-05-02T08:30:00+00:00")])])].

Definition sample_config : Config :=
  mkConfig [("jmal", PyStr "id-1"); ("sampleses", PyStr "id-2")]
           (PyDict [("categorized",
                     PyDict [("start_date", PyStr "2023-05-02T08:30:00+00:00")])]).

(** [str] on the strings of the sample configuration. *)
Definition sample_str (obj : pyobj) : string :=
  match obj with
  | PyStr s => s
  | _ => ""
  end.

(** [yaml.dump] as [main] calls it, with its default [sort_keys=True],
    followed by [yaml.safe_load]: the entries of every mapping come back
    in the order of their keys. *)
Fixpoint insert_entry {V} (k : string) (v : V) (d : list (string * V))
    : list (string * V) :=
  match d with
  | [] => [(k, v)]
  | (k', v') :: d' =>
      if String.leb k k' then (k, v) :: d else (k', v') :: insert_entry k v d'
  end.

Fixpoint sort_keys (obj : pyobj) : pyobj :=
  match obj with
  | PyList l => PyList (sort_keys <$> l)
  | PyDict d =>
      PyDict (foldr (λ '(k, v) acc, insert_entry k (sort_keys v) acc) [] d)
  | _ => obj
  end.

(** The records of two players, as [main] holds them after fetching. *)
Definition sample_results : list (string * list TrophyData) :=
  [("sampleses", [live_trophy]); ("jmal", [solo_trophy; live_trophy])].

(** The count vector with a single 1, at position [i]. *)
Definition unit_counts (i : nat) : list Z := <[i := 1]> (replicate 9 0).

(** * Properties *)

(** ** The exception monad *)

Lemma bind_Ok {A B} (m : result A) (f : A → result B) (b : B) :
  m ≫= f = Ok b ↔ ∃ a, m = Ok a ∧ f a = Ok b.
Proof.
  destruct m as [a|e]; simpl; split.
  - eauto.
  - by intros (a' & [= <-] & ?).
  - done.
  - by intros (a' & ? & ?).
Qed.

Lemma bind_Ok_l {A B} (a : A) (f : A → result B) : Ok a ≫= f = f a.
Proof. done. Qed.

Lemma is_Ok_not_Err {A} (r : result A) : is_Ok r ↔ ¬ is_Err r.
Proof.
  destruct r as [a|e]; split.
  - by intros _ [e [=]].
  - by exists a.
  - by intros [a [=]].
  - intros H. destruct H. by exists e.
Qed.

(** ** Dict lookups *)

Lemma dict_get_missing {V} (d : list (string * V)) (key : string) :
  key ∉ d.*1 → dict_get d key = Err (KeyError key).
Proof.
  induction d as [|[k v] d IH]; simpl; [done|].
  intros Hkey. apply not_elem_of_cons in Hkey as [Hne Hkey].
  rewrite decide_False by done. by apply IH.
Qed.

Lemma dict_get_Ok_elem_of {V} (d : list (string * V)) (key : string) (v : V) :
  dict_get d key = Ok v → (key, v) ∈ d.
Proof.
  induction d as [|[k w] d IH]; simpl; [done|].
  case_decide as Hk.
  - intros [= ->]. subst k. by left.
  - intros H. right. by apply IH.
Qed.

Lemma dict_get_Err_inv {V} (d : list (string * V)) (key : string) (e : exn) :
  dict_get d key = Err e → e = KeyError key ∧ key ∉ d.*1.
Proof.
  induction d as [|[k w] d IH]; simpl.
  - intros [= <-]. split; [done|]. apply not_elem_of_nil.
  - case_decide as Hk; [done|]. intros H. destruct (IH H) as [-> Hd].
    split; [done|]. apply not_elem_of_cons. by split.
Qed.

Lemma dict_get_elem_of {V} (d : list (string * V)) (key : string) :
  key ∈ d.*1 → ∃ v, dict_get d key = Ok v.
Proof.
  intros Hkey. destruct (dict_get d key) as [v|e] eqn:Hget; [by exists v|].
  by apply dict_get_Err_inv in Hget as [_ Hget].
Qed.

Lemma dict_get_fmap {V W} (f : V → W) (d : list (string * V)) (key : string) :
  dict_get ((λ '(k, v), (k, f v)) <$> d) key
  = match dict_get d key with
    | Ok v => Ok (f v)
    | Err e => Err e
    end.
Proof.
  induction d as [|[k v] d IH]; simpl; [done|]. by case_decide.
Qed.

Lemma dict_get_NoDup {V} (d : list (string * V)) (key : string) (v : V) :
  NoDup d.*1 → (key, v) ∈ d → dict_get d key = Ok v.
Proof.
  induction d as [|[k w] d IH]; simpl; [by intros _ ?%elem_of_nil|].
  intros [Hk Hd]%NoDup_cons [Heq|Hin]%elem_of_cons.
  - injection Heq as -> ->. by rewrite decide_True.
  - case_decide as Hkey; [|by apply IH]. subst k. destruct Hk.
    apply list_elem_of_fmap. by exists (key, v).
Qed.

(** Proves that a given key is none of the keys of a given dict. *)
Ltac no_key :=
  simpl; repeat (apply not_elem_of_cons; split; [discriminate|]);
  apply not_elem_of_nil.

(** ** Points of a count vector *)

Lemma length_9_inv {A} (l : list A) :
  length l = 9%nat → ∃ a0 a1 a2 a3 a4 a5 a6 a7 a8, l = [a0; a1; a2; a3; a4; a5; a6; a7; a8].
Proof.
  intros H. do 9 (destruct l as [|? l]; [done|]).
  destruct l; [|done]. by repeat eexists.
Qed.

Lemma sum_trophy_points_wrong_length (counts : list Z) :
  length counts ≠ 9%nat → _sum_trophy_points counts = Err ValueError.
Proof. intros H. unfold _sum_trophy_points. by rewrite decide_True. Qed.

Lemma sum_trophy_points_digits (c0 c1 c2 c3 c4 c5 c6 c7 c8 : Z) :
  _sum_trophy_points [c0; c1; c2; c3; c4; c5; c6; c7; c8] =
  Ok (c0 * 10 ^ 0 + c1 * 10 ^ 1 + c2 * 10 ^ 2 + c3 * 10 ^ 3 + c4 * 10 ^ 4
      + c5 * 10 ^ 5 + c6 * 10 ^ 6 + c7 * 10 ^ 7 + c8 * 10 ^ 8).
Proof.
  unfold _sum_trophy_points. rewrite decide_False by (simpl; lia).
  reflexivity.
Qed.

(** C2. For a count vector of exactly 9 integers the point value is the sum
    of [counts[i] * 10^i] over the tiers 0 to 8; a vector with a single 1 at
    position [i] gives [10^i]; [5,13,18,0,...] gives 1935 and
    [0,0,0,4,0,...] gives 4000. *)
Theorem sum_trophy_points_base10 :
  (∀ counts : list Z, length counts = 9%nat →
     _sum_trophy_points counts =
     Ok ((counts !!! 0%nat) * 10 ^ 0 + (counts !!! 1%nat) * 10 ^ 1
         + (counts !!! 2%nat) * 10 ^ 2 + (counts !!! 3%nat) * 10 ^ 3
         + (counts !!! 4%nat) * 10 ^ 4 + (counts !!! 5%nat) * 10 ^ 5
         + (counts !!! 6%nat) * 10 ^ 6 + (counts !!! 7%nat) * 10 ^ 7
         + (counts !!! 8%nat) * 10 ^ 8)) ∧
  (∀ i : nat, (i < 9)%nat →
     _sum_trophy_points (unit_counts i) = Ok (10 ^ Z.of_nat i)) ∧
  _sum_trophy_points [5; 13; 18; 0; 0; 0; 0; 0; 0] = Ok 1935 ∧
  _sum_trophy_points [0; 0; 0; 4; 0; 0; 0; 0; 0] = Ok 4000.
Proof.
  split; [|split; [|split]].
  - intros counts Hlen.
    destruct (length_9_inv counts Hlen)
      as (c0 & c1 & c2 & c3 & c4 & c5 & c6 & c7 & c8 & ->).
    apply sum_trophy_points_digits.
  - intros i Hi.
    do 9 (destruct i as [|i]; [reflexivity|]). lia.
  - reflexivity.
  - reflexivity.
Qed.

Lemma sum_trophy_points_base10_witness :
  _sum_trophy_points [2; 0; 0; 0; 0; 0; 0; 0; 7] = Ok 700000002 ∧
  _sum_trophy_points (unit_counts 3) = Ok 1000.
Proof.
  split.
  - apply (proj1 sum_trophy_points_base10 [2; 0; 0; 0; 0; 0; 0; 0; 7]).
    reflexivity.
  - apply (proj1 (proj2 sum_trophy_points_base10) 3%nat). lia.
Defined.

Lemma mapM_Ok_length {A B} (f : A → result B) (l : list A) (ys : list B) :
  mapM f l = Ok ys → length ys = length l.
Proof.
  revert ys. induction l as [|x l IH]; intros ys; cbn [mapM].
  - by intros [= <-].
  - intros H. apply bind_Ok in H as (y & _ & H).
    apply bind_Ok in H as (ys' & Hys & [= <-]). simpl. by rewrite (IH ys').
Qed.

Lemma sum_trophy_points_of_wrong_length (counts_obj : pyobj) (counts : list Z) :
  as_int_list counts_obj = Ok counts →
  length counts ≠ 9%nat →
  sum_trophy_points_of counts_obj = Err ValueError.
Proof.
  destruct counts_obj as [| | | | |l|]; try done. simpl.
  intros Hl%mapM_Ok_length Hlen. unfold sum_trophy_points_of. simpl.
  rewrite decide_True; [done|]. by rewrite <-Hl.
Qed.

Lemma sum_trophy_points_of_Ok (counts_obj : pyobj) (points : Z) :
  sum_trophy_points_of counts_obj = Ok points →
  ∃ counts,
    as_int_list counts_obj = Ok counts ∧ _sum_trophy_points counts = Ok points.
Proof.
  unfold sum_trophy_points_of.
  destruct counts_obj as [| | |s| |l|d]; simpl; try done;
    case_decide; try done.
  intros Hsum. apply bind_Ok in Hsum as (counts & Hcounts & Hsum).
  by exists counts.
Qed.

Lemma from_gain_wrong_length fromisoformat (gain_data : pyobj) (counts : list Z) :
  getitem gain_data "counts" ≫= as_int_list = Ok counts →
  length counts ≠ 9%nat →
  is_Err (from_gain fromisoformat gain_data).
Proof.
  intros Hcounts Hlen. apply bind_Ok in Hcounts as (counts_obj & Hobj & Hcounts).
  unfold from_gain.
  destruct (getitem gain_data "timestamp" ≫= _) as [ts|e]; [|by exists e].
  simpl. destruct (getitem gain_data "achievement") as [achieve|e]; [|by exists e].
  simpl. destruct (getitem achieve _) as [category|e]; [|by exists e].
  simpl. rewrite Hobj. simpl.
  rewrite (sum_trophy_points_of_wrong_length _ counts) by done.
  by exists ValueError.
Qed.

(** C3. The derivation of the point value raises exactly when the count
    vector does not have 9 elements, and then it is a [ValueError]; on a
    vector of 9 elements it returns a value; and a gain whose count vector
    has another length yields no record. *)
Theorem sum_trophy_points_fails_iff_wrong_length (counts : list Z) :
  (is_Err (_sum_trophy_points counts) ↔ length counts ≠ 9%nat) ∧
  (length counts ≠ 9%nat → _sum_trophy_points counts = Err ValueError) ∧
  (length counts = 9%nat → is_Ok (_sum_trophy_points counts)) ∧
  (∀ fromisoformat gain_data,
     getitem gain_data "counts" ≫= as_int_list = Ok counts →
     length counts ≠ 9%nat →
     is_Err (from_gain fromisoformat gain_data)).
Proof.
  assert (length counts = 9%nat → is_Ok (_sum_trophy_points counts)) as Hok.
  { intros Hlen.
    destruct (length_9_inv counts Hlen)
      as (c0 & c1 & c2 & c3 & c4 & c5 & c6 & c7 & c8 & ->).
    rewrite sum_trophy_points_digits. by eexists. }
  split; [|split; [|split]].
  - split.
    + intros Herr Hlen. by apply is_Ok_not_Err in Hok.
    + intros Hlen. exists ValueError. by apply sum_trophy_points_wrong_length.
  - apply sum_trophy_points_wrong_length.
  - done.
  - intros fromisoformat gain_data. apply from_gain_wrong_length.
Qed.

Lemma sum_trophy_points_fails_iff_wrong_length_witness :
  _sum_trophy_points [1; 2; 3] = Err ValueError ∧
  is_Ok (_sum_trophy_points [1; 2; 3; 4; 5; 6; 7; 8; 9]) ∧
  is_Err (from_gain (λ _, Some 0)
            (PyDict [("timestamp", PyStr "2023-05-01T12:00:00+00:00");
                     ("achievement",
                      PyDict [("trophyAchievementType", PyStr "Live")]);
                     ("counts", PyList [PyInt 1; PyInt 2; PyInt 3])])).
Proof.
  split; [|split].
  - apply (proj1 (proj2 (sum_trophy_points_fails_iff_wrong_length [1; 2; 3]))).
    simpl. lia.
  - apply (proj1 (proj2 (proj2
      (sum_trophy_points_fails_iff_wrong_length [1; 2; 3; 4; 5; 6; 7; 8; 9])))).
    reflexivity.
  - apply (proj2 (proj2 (proj2
      (sum_trophy_points_fails_iff_wrong_length [1; 2; 3])))).
    + reflexivity.
    + simpl. lia.
Defined.

(** ** The category of a record *)

Lemma from_gain_Ok_inv fromisoformat (gain_data : pyobj) (trophy : TrophyData) :
  from_gain fromisoformat gain_data = Ok trophy →
  ∃ achieve counts,
    getitem gain_data "timestamp" ≫= parse_timestamp fromisoformat
      = Ok (timestamp trophy) ∧
    getitem gain_data "achievement" = Ok achieve ∧
    getitem achieve "trophyAchievementType" = Ok (PyStr (achievement_type trophy)) ∧
    getitem gain_data "counts" ≫= as_int_list = Ok counts ∧
    _sum_trophy_points counts = Ok (count trophy) ∧
    gain_data = PyDict (data trophy).
Proof.
  unfold from_gain. intros H.
  apply bind_Ok in H as (ts & Hts & H).
  apply bind_Ok in H as (achieve & Hachieve & H).
  apply bind_Ok in H as (category & Hcategory & H).
  apply bind_Ok in H as (counts_obj & Hobj & H).
  apply bind_Ok in H as (cnt & Hcnt & H).
  apply bind_Ok in H as (d & Hd & H).
  apply bind_Ok in H as (ty & Hty & H).
  injection H as <-. simpl.
  apply sum_trophy_points_of_Ok in Hcnt as (counts & Hcounts & Hcnt).
  exists achieve, counts. repeat split; try done.
  - by destruct category; simplify_eq/=.
  - by rewrite Hobj.
  - by destruct gain_data; simplify_eq/=.
Qed.

(** C1 (what the code does). [from_gain] stores the category label as it
    stands in the payload for every category, "SoloRanking" too; the
    compound label "SoloRanking - <subtype>" is what [categorize] returns,
    and [from_gain] does not call it. On [solo_gain] the record carries
    "SoloRanking" where [categorize] answers "SoloRanking - SoloTop". *)
Theorem from_gain_keeps_category :
  (∀ fromisoformat gain_data trophy,
     from_gain fromisoformat gain_data = Ok trophy →
     ∃ achieve,
       getitem gain_data "achievement" = Ok achieve ∧
       getitem achieve "trophyAchievementType"
         = Ok (PyStr (achievement_type trophy))) ∧
  (∀ fromisoformat ts,
     fromisoformat "2023-05-01T12:00:00+00:00" = Some ts →
     ∃ trophy,
       from_gain fromisoformat solo_gain = Ok trophy ∧
       achievement_type trophy = "SoloRanking" ∧
       ∀ py_str,
         categorize py_str solo_gain = Ok (PyStr "SoloRanking - SoloTop")).
Proof.
  split.
  - intros fromisoformat gain_data trophy H.
    apply from_gain_Ok_inv in H as (achieve & counts & _ & Ha & Hty & _).
    by exists achieve.
  - intros fromisoformat ts Hts. eexists. split; [|split].
    + unfold from_gain, solo_gain. simpl. unfold parse_timestamp. simpl.
      rewrite Hts. reflexivity.
    + reflexivity.
    + reflexivity.
Qed.

Lemma from_gain_keeps_category_witness :
  ∃ trophy,
    from_gain (λ _, Some 1682942400000000) solo_gain = Ok trophy ∧
    achievement_type trophy = "SoloRanking" ∧
    ∀ py_str,
      categorize py_str solo_gain = Ok (PyStr "SoloRanking - SoloTop").
Proof.
  apply (proj2 from_gain_keeps_category (λ _, Some 1682942400000000)
           1682942400000000).
  reflexivity.
Defined.

(** ** [sorted]: a stable ascending sort *)

Section sorted.
Context {A : Type} (key : A → Z).

Lemma insert_by_Permutation (a : A) (l : list A) :
  insert_by key a l ≡ₚ a :: l.
Proof.
  induction l as [|b l IH]; simpl; [done|].
  case_decide; [done|]. rewrite IH. apply Permutation_swap.
Qed.

Lemma sorted_Permutation (l : list A) : sorted key l ≡ₚ l.
Proof.
  induction l as [|a l IH]; simpl; [done|].
  by rewrite insert_by_Permutation, IH.
Qed.

Lemma insert_by_StronglySorted (a : A) (l : list A) :
  StronglySorted (key_le key) l →
  StronglySorted (key_le key) (insert_by key a l).
Proof.
  induction 1 as [|b l Hl IH Hb]; simpl.
  - repeat constructor.
  - case_decide as Hab.
    + constructor; [by constructor|]. constructor; [done|].
      eapply Forall_impl; [exact Hb|]. unfold key_le. intros c Hc. lia.
    + constructor; [done|]. rewrite insert_by_Permutation.
      constructor; [|done]. unfold key_le. lia.
Qed.

Lemma sorted_StronglySorted (l : list A) :
  StronglySorted (key_le key) (sorted key l).
Proof.
  induction l as [|a l IH]; simpl; [constructor|].
  by apply insert_by_StronglySorted.
Qed.

Lemma insert_by_least (a : A) (l : list A) :
  Forall (key_le key a) l → insert_by key a l = a :: l.
Proof.
  destruct 1 as [|b l Hb _]; simpl; [done|]. by rewrite decide_True.
Qed.

(** A list that is in ascending order already is left as it is. *)
Lemma sorted_id (l : list A) :
  StronglySorted (key_le key) l → sorted key l = l.
Proof.
  induction 1 as [|a l Hl IH Ha]; simpl; [done|].
  rewrite IH. by apply insert_by_least.
Qed.

Lemma insert_by_filter_key (k : Z) (a : A) (l : list A) :
  filter (λ x, key x = k) (insert_by key a l)
  = filter (λ x, key x = k) (a :: l).
Proof.
  induction l as [|b l IH]; simpl; [done|].
  case_decide as Hab; [done|].
  rewrite filter_cons, IH, !filter_cons.
  repeat case_decide; try done; lia.
Qed.

(** Stability: the elements of one key keep their order. *)
Lemma sorted_stable (k : Z) (l : list A) :
  filter (λ x, key x = k) (sorted key l) = filter (λ x, key x = k) l.
Proof.
  induction l as [|a l IH]; simpl; [done|].
  by rewrite insert_by_filter_key, !filter_cons, IH.
Qed.
End sorted.

Lemma insert_by_fmap {A B} (f : A → B) (key : A → Z) (key' : B → Z)
    (a : A) (l : list A) :
  (∀ x, key' (f x) = key x) →
  f <$> insert_by key a l = insert_by key' (f a) (f <$> l).
Proof.
  intros Hkey. induction l as [|b l IH]; simpl; [done|].
  rewrite !Hkey. case_decide; [done|]. by rewrite fmap_cons, IH.
Qed.

Lemma sorted_fmap {A B} (f : A → B) (key : A → Z) (key' : B → Z) (l : list A) :
  (∀ x, key' (f x) = key x) →
  f <$> sorted key l = sorted key' (f <$> l).
Proof.
  intros Hkey. induction l as [|a l IH]; simpl; [done|].
  by rewrite (insert_by_fmap f key key'), IH.
Qed.

(** Two sorted arrangements of the same elements are the same list, when
    elements of equal key are equal. *)
Lemma sorted_Permutation_eq {A} (key : A → Z) (l1 l2 : list A) :
  l1 ≡ₚ l2 →
  (∀ a b, a ∈ l1 → b ∈ l1 → key a = key b → a = b) →
  sorted key l1 = sorted key l2.
Proof.
  intros Hperm Hinj.
  apply (StronglySorted_unique_strong (key_le key)).
  - intros x1 x2 Hx1 Hx2 H12 H21. apply Hinj.
    + by rewrite sorted_Permutation in Hx1.
    + by rewrite sorted_Permutation, <-Hperm in Hx2.
    + unfold key_le in *. lia.
  - apply sorted_StronglySorted.
  - apply sorted_StronglySorted.
  - by rewrite !sorted_Permutation.
Qed.

(** ** [np.cumsum]: prefix sums *)

Lemma cumsum_from_length (acc : Z) (l : list Z) :
  length (cumsum_from acc l) = length l.
Proof. revert acc. induction l as [|z l IH]; intros acc; simpl; [done|]. by rewrite IH. Qed.

Lemma cumsum_from_lookup (acc : Z) (l : list Z) (i : nat) :
  (i < length l)%nat →
  cumsum_from acc l !! i = Some (acc + Zsum (take (S i) l)).
Proof.
  revert acc i. induction l as [|z l IH]; intros acc i Hi; simpl in *; [lia|].
  destruct i as [|i]; simpl.
  - f_equal. destruct l; simpl; lia.
  - rewrite IH by lia. f_equal. simpl. unfold Zsum. simpl. lia.
Qed.

Lemma wrap_int64_fits (z : Z) : fits_int64 z → wrap_int64 z = z.
Proof.
  unfold fits_int64, wrap_int64. intros Hz.
  rewrite Z.mod_small; lia.
Qed.

Lemma wrap_int64_add_l (a z : Z) :
  wrap_int64 (wrap_int64 a + z) = wrap_int64 (a + z).
Proof.
  unfold wrap_int64. f_equal.
  replace ((a + 2 ^ 63) `mod` 2 ^ 64 - 2 ^ 63 + z + 2 ^ 63)
    with ((a + 2 ^ 63) `mod` 2 ^ 64 + z) by lia.
  rewrite Zplus_mod_idemp_l. f_equal. lia.
Qed.

Lemma cumsum_int64_from_wrap (acc : Z) (l : list Z) :
  cumsum_int64_from (wrap_int64 acc) l = wrap_int64 <$> cumsum_from acc l.
Proof.
  revert acc. induction l as [|z l IH]; intros acc; [done|].
  cbn [cumsum_int64_from cumsum_from]. rewrite fmap_cons.
  by rewrite wrap_int64_add_l, IH.
Qed.

(** The int64 accumulation gives the running sums, wrapped. *)
Lemma np_cumsum_wrap (l : list Z) :
  np_cumsum l = wrap_int64 <$> running_sum l.
Proof.
  unfold np_cumsum, running_sum. by rewrite <-cumsum_int64_from_wrap.
Qed.

Lemma np_cumsum_length (l : list Z) : length (np_cumsum l) = length l.
Proof.
  rewrite np_cumsum_wrap, length_fmap. apply cumsum_from_length.
Qed.

Lemma np_cumsum_lookup (l : list Z) (i : nat) :
  (i < length l)%nat →
  np_cumsum l !! i = Some (wrap_int64 (Zsum (take (S i) l))).
Proof.
  intros Hi. rewrite np_cumsum_wrap, list_lookup_fmap. unfold running_sum.
  by rewrite cumsum_from_lookup by done.
Qed.

(** ** The cumulative reducer *)

Lemma fold_add_trace (f : string → list TrophyData → Trace) (title : string)
    (player_trophies : list (string * list TrophyData)) (fig : Figure) :
  traces (fold_left (λ fig '(player, trophies),
                       update_yaxes (add_trace fig (f player trophies)) title)
                    player_trophies fig)
  = traces fig ++ ((λ pt, f pt.1 pt.2) <$> player_trophies).
Proof.
  revert fig. induction player_trophies as [|[player trophies] d IH];
    intros fig; simpl.
  - by rewrite app_nil_r.
  - rewrite IH. simpl. by rewrite <-app_assoc.
Qed.

Lemma plot_cumulative_trophies_traces
    (player_trophies : list (string * list TrophyData)) :
  traces (plot_cumulative_trophies player_trophies)
  = (λ pt, cumulative_trace pt.1 pt.2) <$> player_trophies.
Proof. unfold plot_cumulative_trophies. by rewrite fold_add_trace. Qed.

(** C5 (as stated, refuted). Two records of 2^62 points each: the
    second y value is -2^63 where the running sum of the counts is 2^63,
    for [np.cumsum] adds in int64 and wraps around. *)
Lemma cumulative_overflow_counterexample :
  cumulative_trace "jmal" [trophy_at 1 (2 ^ 62); trophy_at 2 (2 ^ 62)]
  = Scatter [1; 2] [2 ^ 62; - 2 ^ 63] (Some "jmal") ∧
  Zsum (count <$> [trophy_at 1 (2 ^ 62); trophy_at 2 (2 ^ 62)]) = 2 ^ 63 ∧
  2 ^ 63 ≠ - 2 ^ 63.
Proof. split; [reflexivity|]. split; [reflexivity|discriminate]. Qed.

(** C5 (amended). The cumulative reducer emits one series per player; its
    x values are the timestamps of the player's records in ascending
    order, with one point per record. When the counts fit in 64 bits, the
    i-th y value is the sum of the counts of the first i+1 records in
    that order wrapped to an int64, so it is that running sum wherever
    the running sum fits in 64 bits. A list that is in timestamp order
    already is taken as it is; an empty list gives an empty series;
    counts 3, 5, 2 in timestamp order give 3, 8, 10. *)
Theorem cumulative_running_sum :
  (∀ player_trophies,
     traces (plot_cumulative_trophies player_trophies)
     = (λ pt, cumulative_trace pt.1 pt.2) <$> player_trophies) ∧
  (∀ player trophies,
     let chron := sorted timestamp trophies in
     ∃ ys,
       cumulative_trace player trophies
       = Scatter (timestamp <$> chron) ys (Some player) ∧
       chron ≡ₚ trophies ∧
       StronglySorted (key_le timestamp) chron ∧
       length ys = length trophies ∧
       (Forall (λ r, fits_int64 (count r)) trophies →
        ∀ i, (i < length trophies)%nat →
             ys !! i = Some (wrap_int64 (Zsum (count <$> take (S i) chron))) ∧
             (fits_int64 (Zsum (count <$> take (S i) chron)) →
              ys !! i = Some (Zsum (count <$> take (S i) chron))))) ∧
  (∀ trophies,
     StronglySorted (key_le timestamp) trophies →
     sorted timestamp trophies = trophies) ∧
  (∀ player, cumulative_trace player [] = Scatter [] [] (Some player)) ∧
  (∀ player r1 r2 r3,
     timestamp r1 ≤ timestamp r2 → timestamp r2 ≤ timestamp r3 →
     count r1 = 3 → count r2 = 5 → count r3 = 2 →
     cumulative_trace player [r1; r2; r3]
     = Scatter [timestamp r1; timestamp r2; timestamp r3] [3; 8; 10]
               (Some player)).
Proof.
  split; [|split; [|split; [|split]]].
  - apply plot_cumulative_trophies_traces.
  - intros player trophies chron.
    assert (length chron = length trophies) as Hlen.
    { unfold chron. by rewrite sorted_Permutation. }
    exists (np_cumsum (count <$> chron)). repeat split.
    + apply sorted_Permutation.
    + apply sorted_StronglySorted.
    + by rewrite np_cumsum_length, length_fmap.
    + rewrite np_cumsum_lookup by (by rewrite length_fmap, Hlen).
      by rewrite <-fmap_take.
    + intros Hfits.
      rewrite np_cumsum_lookup by (by rewrite length_fmap, Hlen).
      by rewrite <-fmap_take, wrap_int64_fits.
  - apply sorted_id.
  - done.
  - intros player r1 r2 r3 H12 H23 H1 H2 H3. unfold cumulative_trace.
    rewrite sorted_id.
    + simpl. unfold np_cumsum. cbn [cumsum_int64_from]. by rewrite H1, H2, H3.
    + repeat constructor; unfold key_le; lia.
Qed.

Lemma cumulative_running_sum_witness :
  cumulative_trace "jmal" [trophy_at 10 3; trophy_at 20 5; trophy_at 20 2]
  = Scatter [10; 20; 20] [3; 8; 10] (Some "jmal") ∧
  ∃ ys,
    cumulative_trace "jmal" [trophy_at 20 5; trophy_at 10 3]
    = Scatter [10; 20] ys (Some "jmal") ∧
    ys !! 1%nat = Some 8.
Proof.
  split.
  - apply (proj2 (proj2 (proj2 (proj2 cumulative_running_sum))) "jmal"
             (trophy_at 10 3) (trophy_at 20 5) (trophy_at 20 2));
      simpl; (lia || reflexivity).
  - destruct (proj1 (proj2 cumulative_running_sum) "jmal"
                [trophy_at 20 5; trophy_at 10 3])
      as (ys & Htrace & _ & _ & _ & Hys).
    exists ys. split; [exact Htrace|].
    apply (Hys ltac:(repeat constructor; unfold fits_int64; simpl; lia)
               1%nat ltac:(simpl; lia)).
    unfold fits_int64. simpl. unfold Zsum. simpl. lia.
Defined.

(** C10 (as stated, refuted). Two records of one timestamp and different
    counts: the two orders of the list are permutations of each other, and
    the stable sort keeps each order, so the y series differ. *)
Lemma cumulative_permutation_counterexample :
  [trophy_at 1 3; trophy_at 1 5] ≡ₚ [trophy_at 1 5; trophy_at 1 3] ∧
  plot_cumulative_trophies [("jmal", [trophy_at 1 3; trophy_at 1 5])]
  = mkFigure [Scatter [1; 1] [3; 8] (Some "jmal")] (Some "Trophy points") ∧
  plot_cumulative_trophies [("jmal", [trophy_at 1 5; trophy_at 1 3])]
  = mkFigure [Scatter [1; 1] [5; 8] (Some "jmal")] (Some "Trophy points") ∧
  plot_cumulative_trophies [("jmal", [trophy_at 1 3; trophy_at 1 5])]
  ≠ plot_cumulative_trophies [("jmal", [trophy_at 1 5; trophy_at 1 3])].
Proof.
  split; [apply Permutation_swap|]. split; [reflexivity|].
  split; [reflexivity|]. discriminate.
Qed.

Lemma cumulative_trace_pairs (player : string) (trophies : list TrophyData) :
  cumulative_trace player trophies
  = let points := sorted fst ((λ r, (timestamp r, count r)) <$> trophies) in
    Scatter points.*1 (np_cumsum points.*2) (Some player).
Proof.
  unfold cumulative_trace. simpl.
  rewrite <-(sorted_fmap (λ r, (timestamp r, count r)) timestamp fst) by done.
  by rewrite <-!list_fmap_compose.
Qed.

Lemma cumulative_trace_Permutation (player : string)
    (trophies1 trophies2 : list TrophyData) :
  trophies1 ≡ₚ trophies2 →
  (∀ a b, a ∈ trophies1 → b ∈ trophies1 →
          timestamp a = timestamp b → count a = count b) →
  cumulative_trace player trophies1 = cumulative_trace player trophies2.
Proof.
  intros Hperm Hties. rewrite !cumulative_trace_pairs. simpl.
  rewrite (sorted_Permutation_eq fst _
             ((λ r, (timestamp r, count r)) <$> trophies2)); [done| |].
  - by rewrite Hperm.
  - intros p q [a [-> Ha]]%list_elem_of_fmap [b [-> Hb]]%list_elem_of_fmap.
    simpl. intros Hab. f_equal; [done|]. by apply Hties.
Qed.

(** C10 (amended). The output of the cumulative reducer is the same for
    two inputs that give every player lists that are permutations of each
    other, provided that records of one player with the same timestamp
    have the same count. *)
Theorem cumulative_permutation_invariant
    (player_trophies1 player_trophies2 : list (string * list TrophyData)) :
  Forall2 (λ pt1 pt2,
             pt1.1 = pt2.1 ∧ pt1.2 ≡ₚ pt2.2 ∧
             ∀ a b, a ∈ pt1.2 → b ∈ pt1.2 →
                    timestamp a = timestamp b → count a = count b)
          player_trophies1 player_trophies2 →
  plot_cumulative_trophies player_trophies1
  = plot_cumulative_trophies player_trophies2.
Proof.
  intros H. unfold plot_cumulative_trophies. generalize new_figure.
  induction H as [|[p1 l1] [p2 l2] d1 d2 (Hp & Hperm & Hties) _ IH];
    intros fig; simpl in *; [done|].
  subst p2. by rewrite (cumulative_trace_Permutation p1 l1 l2), IH.
Qed.

Lemma cumulative_permutation_invariant_witness :
  plot_cumulative_trophies
    [("jmal", [trophy_at 2 5; trophy_at 1 3; trophy_at 2 5])]
  = plot_cumulative_trophies
      [("jmal", [trophy_at 2 5; trophy_at 2 5; trophy_at 1 3])].
Proof.
  apply cumulative_permutation_invariant.
  constructor; [|constructor]. simpl. split; [reflexivity|]. split.
  - apply perm_skip, Permutation_swap.
  - intros a b Ha Hb.
    apply list_elem_of_In in Ha; apply list_elem_of_In in Hb. simpl in *.
    destruct Ha as [<-|[<-|[<-|[]]]], Hb as [<-|[<-|[<-|[]]]];
      simpl; (lia || reflexivity).
Defined.

(** ** [heapq.merge] of two lists *)

Section heapq_merge.
Context {A : Type} (key : A → Z).

Lemma heapq_merge_nil_l (l2 : list A) : heapq_merge key [] l2 = l2.
Proof. by destruct l2. Qed.

Lemma heapq_merge_nil_r (l1 : list A) : heapq_merge key l1 [] = l1.
Proof. by destruct l1. Qed.

Lemma heapq_merge_cons (a b : A) (l1 l2 : list A) :
  heapq_merge key (a :: l1) (b :: l2)
  = if decide (key a ≤ key b) then a :: heapq_merge key l1 (b :: l2)
    else b :: heapq_merge key (a :: l1) l2.
Proof. done. Qed.

Lemma heapq_merge_Permutation (l1 l2 : list A) :
  heapq_merge key l1 l2 ≡ₚ l1 ++ l2.
Proof.
  revert l2. induction l1 as [|a l1 IH1]; intros l2.
  { by rewrite heapq_merge_nil_l. }
  induction l2 as [|b l2 IH2].
  { by rewrite heapq_merge_nil_r, app_nil_r. }
  rewrite heapq_merge_cons. case_decide.
  - by rewrite IH1.
  - rewrite IH2. by rewrite <-Permutation_middle.
Qed.

(** The elements of each input come out in the order they went in. *)
Lemma heapq_merge_filter_l (P : A → Prop) `{!∀ x, Decision (P x)}
    (l1 l2 : list A) :
  Forall P l1 → Forall (λ x, ¬ P x) l2 →
  filter P (heapq_merge key l1 l2) = l1.
Proof.
  intros H1 H2. revert l2 H2.
  induction H1 as [|a l1 Ha H1 IH1]; intros l2 H2.
  { rewrite heapq_merge_nil_l.
    induction H2 as [|b l2 Hb H2 IH2]; [done|]. by rewrite filter_cons_False. }
  induction H2 as [|b l2 Hb H2 IH2].
  { rewrite heapq_merge_nil_r, filter_cons_True by done. f_equal.
    specialize (IH1 [] (Forall_nil_2 _)). by rewrite heapq_merge_nil_r in IH1. }
  rewrite heapq_merge_cons. case_decide.
  - rewrite filter_cons_True by done. f_equal. apply IH1. by constructor.
  - by rewrite filter_cons_False.
Qed.

Lemma heapq_merge_filter_r (P : A → Prop) `{!∀ x, Decision (P x)}
    (l1 l2 : list A) :
  Forall (λ x, ¬ P x) l1 → Forall P l2 →
  filter P (heapq_merge key l1 l2) = l2.
Proof.
  intros H1 H2. revert l2 H2.
  induction H1 as [|a l1 Ha H1 IH1]; intros l2 H2.
  { rewrite heapq_merge_nil_l.
    induction H2 as [|b l2 Hb H2 IH2]; [done|].
    rewrite filter_cons_True by done. by f_equal. }
  induction H2 as [|b l2 Hb H2 IH2].
  { rewrite heapq_merge_nil_r, filter_cons_False by done.
    specialize (IH1 [] (Forall_nil_2 _)). by rewrite heapq_merge_nil_r in IH1. }
  rewrite heapq_merge_cons. case_decide.
  - rewrite filter_cons_False by done. apply IH1. by constructor.
  - rewrite filter_cons_True by done. by f_equal.
Qed.

Lemma heapq_merge_cons_r_lt (b : A) (l1 l2 : list A) :
  Forall (λ x, key b < key x) l1 →
  heapq_merge key l1 (b :: l2) = b :: heapq_merge key l1 l2.
Proof.
  destruct 1 as [|a l1 Ha _].
  - by rewrite !heapq_merge_nil_l.
  - rewrite heapq_merge_cons. by rewrite decide_False by lia.
Qed.

Lemma insert_by_heapq_merge (a : A) (l1 l2 : list A) :
  Forall (key_le key a) l1 →
  StronglySorted (key_le key) l2 →
  insert_by key a (heapq_merge key l1 l2) = heapq_merge key (a :: l1) l2.
Proof.
  intros Ha H2. induction H2 as [|b l2 H2 IH Hb].
  - rewrite !heapq_merge_nil_r. by apply insert_by_least.
  - rewrite heapq_merge_cons. case_decide as Hab.
    + apply insert_by_least. rewrite heapq_merge_Permutation.
      apply Forall_app. split; [done|]. constructor; [done|].
      eapply Forall_impl; [exact Hb|]. unfold key_le. intros c Hc. lia.
    + rewrite heapq_merge_cons_r_lt.
      * simpl. rewrite decide_False by done. by rewrite IH.
      * eapply Forall_impl; [exact Ha|]. unfold key_le. intros c Hc. lia.
Qed.

(** On two ascending lists the merge is the stable sort of the first
    list followed by the second. *)
Lemma heapq_merge_sorted (l1 l2 : list A) :
  StronglySorted (key_le key) l1 →
  StronglySorted (key_le key) l2 →
  heapq_merge key l1 l2 = sorted key (l1 ++ l2).
Proof.
  intros H1 H2. unfold sorted. rewrite foldr_app.
  change (foldr (insert_by key) [] l2) with (sorted key l2).
  rewrite (sorted_id key l2) by done.
  induction H1 as [|a l1 H1 IH Ha]; simpl.
  - by rewrite heapq_merge_nil_l.
  - rewrite <-IH. symmetry. by apply insert_by_heapq_merge.
Qed.
End heapq_merge.

(** ** The head-to-head reducer *)

Lemma filter_fmap {A B} (f : A → B) (P : B → Prop) `{!∀ y, Decision (P y)}
    (l : list A) :
  filter P (f <$> l) = f <$> filter (λ x, P (f x)) l.
Proof.
  induction l as [|a l IH]; [done|].
  rewrite fmap_cons, !filter_cons, IH. by case_decide.
Qed.

Lemma side_total_cons (player : nat) (ev : nat * TrophyData)
    (events : list (nat * TrophyData)) :
  side_total player (ev :: events)
  = (if decide (ev.1 = player) then count ev.2 else 0) + side_total player events.
Proof.
  unfold side_total. rewrite filter_cons. by case_decide.
Qed.

Lemma fold_left_race_step (events : list (nat * TrophyData))
    (s0 s1 : Z) (ts : list datetime) (ds : list Z) :
  Forall (λ v, v.1 = 0%nat ∨ v.1 = 1%nat) events →
  fold_left race_step events (mkRace [s0; s1] ts ds)
  = mkRace [s0 + side_total 0 events; s1 + side_total 1 events]
           (ts ++ ((λ v, timestamp v.2) <$> events))
           (ds ++ ((λ i, (s0 + side_total 0 (take (S i) events))
                         - (s1 + side_total 1 (take (S i) events)))
                   <$> seq 0 (length events))).
Proof.
  intros Htags. revert s0 s1 ts ds.
  induction Htags as [|[player trophy] events Htag _ IH]; intros s0 s1 ts ds.
  { simpl. unfold side_total. simpl. by rewrite !Z.add_0_r, !app_nil_r. }
  cbn [fold_left length seq fmap list_fmap].
  rewrite <-fmap_S_seq, <-list_fmap_compose.
  simpl in Htag.
  destruct Htag as [-> | ->];
    unfold race_step at 2; cbn -[side_total take];
    rewrite IH, <-!app_assoc; apply (f_equal3 mkRace); try done.
  all: try (rewrite !side_total_cons; simpl;
            apply (f_equal2 (λ x y, [x; y])); lia).
  all: apply (f_equal (app ds)); simpl; apply (f_equal2 cons).
  all: try (rewrite take_0, !side_total_cons; unfold side_total; simpl; lia).
  all: apply list_fmap_ext; intros i j _; simpl;
         rewrite !side_total_cons; simpl; lia.
Qed.

Lemma merged_events_tags (l1 l2 : list TrophyData) :
  Forall (λ v, v.1 = 0%nat ∨ v.1 = 1%nat) (merged_events l1 l2).
Proof.
  unfold merged_events. rewrite heapq_merge_Permutation.
  apply Forall_app. split; apply Forall_fmap, Forall_true; simpl; auto.
Qed.

Lemma race_series (l1 l2 : list TrophyData) :
  let events := merged_events l1 l2 in
  t (race l1 l2) = (λ v, timestamp v.2) <$> events ∧
  deltas (race l1 l2) = delta_at events <$> seq 0 (length events).
Proof.
  simpl. unfold race.
  rewrite fold_left_race_step by apply merged_events_tags. simpl. split; [done|].
  apply list_fmap_ext. intros i j _. unfold delta_at. lia.
Qed.

Lemma tagged_StronglySorted (player : nat) (l : list TrophyData) :
  StronglySorted (key_le timestamp) l →
  StronglySorted (key_le (λ v : nat * TrophyData, timestamp v.2))
                 ((λ trophy, (player, trophy)) <$> l).
Proof. by apply StronglySorted_fmap. Qed.

Lemma merged_events_sorted (l1 l2 : list TrophyData) :
  StronglySorted (key_le timestamp) l1 →
  StronglySorted (key_le timestamp) l2 →
  merged_events l1 l2
  = sorted (λ v, timestamp v.2)
           (((λ trophy, (0%nat, trophy)) <$> l1)
            ++ ((λ trophy, (1%nat, trophy)) <$> l2)).
Proof.
  intros H1 H2. unfold merged_events.
  apply heapq_merge_sorted; by apply tagged_StronglySorted.
Qed.

Lemma merged_events_side (l1 l2 : list TrophyData) :
  (filter (λ v, v.1 = 0%nat) (merged_events l1 l2)).*2 = l1 ∧
  (filter (λ v, v.1 = 1%nat) (merged_events l1 l2)).*2 = l2.
Proof.
  unfold merged_events. split.
  - rewrite heapq_merge_filter_l.
    + rewrite <-list_fmap_compose. apply list_fmap_id.
    + by apply Forall_fmap, Forall_true.
    + by apply Forall_fmap, Forall_true.
  - rewrite heapq_merge_filter_r.
    + rewrite <-list_fmap_compose. apply list_fmap_id.
    + by apply Forall_fmap, Forall_true.
    + by apply Forall_fmap, Forall_true.
Qed.

(** C6. On two record lists in timestamp order the head-to-head reducer
    runs over a stable ascending merge: the events are the stable sort by
    timestamp of the first player's records followed by the second
    player's, so they ascend, each player's records keep their order, and
    among events of one timestamp all of the first player's come before
    the second player's. At every event it emits the event's timestamp and
    the first player's running total minus the second player's. With one
    record of 5 for the first player at [t1] and one of 3 for the second
    at [t2 > t1] the deltas are 5, 2. *)
Theorem race_stable_merge_deltas :
  (∀ l1 l2 : list TrophyData,
     StronglySorted (key_le timestamp) l1 →
     StronglySorted (key_le timestamp) l2 →
     let events := merged_events l1 l2 in
     events = sorted (λ v, timestamp v.2)
                (((λ trophy, (0%nat, trophy)) <$> l1)
                 ++ ((λ trophy, (1%nat, trophy)) <$> l2)) ∧
     StronglySorted (key_le (λ v, timestamp v.2)) events ∧
     (filter (λ v, v.1 = 0%nat) events).*2 = l1 ∧
     (filter (λ v, v.1 = 1%nat) events).*2 = l2 ∧
     (∀ k, filter (λ v, timestamp v.2 = k) events
           = ((λ trophy, (0%nat, trophy)) <$> filter (λ r, timestamp r = k) l1)
             ++ ((λ trophy, (1%nat, trophy)) <$> filter (λ r, timestamp r = k) l2)) ∧
     t (race l1 l2) = (λ v, timestamp v.2) <$> events ∧
     deltas (race l1 l2) = delta_at events <$> seq 0 (length events)) ∧
  (∀ player_trophies player1 player2 l1 l2,
     dict_get player_trophies player1 = Ok l1 →
     dict_get player_trophies player2 = Ok l2 →
     ∃ title,
       plot_race player_trophies player1 player2
       = Ok (mkFigure [Scatter (t (race l1 l2)) (deltas (race l1 l2)) None]
                      (Some title))) ∧
  (∀ r1 r2 : TrophyData,
     timestamp r1 < timestamp r2 → count r1 = 5 → count r2 = 3 →
     t (race [r1] [r2]) = [timestamp r1; timestamp r2] ∧
     deltas (race [r1] [r2]) = [5; 2]).
Proof.
  split; [|split].
  - intros l1 l2 H1 H2 events.
    pose proof (merged_events_sorted l1 l2 H1 H2) as Hsorted.
    fold events in Hsorted.
    split; [done|]. split; [rewrite Hsorted; apply sorted_StronglySorted|].
    split; [apply merged_events_side|]. split; [apply merged_events_side|].
    split; [|apply race_series].
    intros k. rewrite Hsorted.
    rewrite (sorted_stable (λ v : nat * TrophyData, timestamp v.2)).
    by rewrite filter_app, !filter_fmap.
  - intros player_trophies player1 player2 l1 l2 Hl1 Hl2.
    unfold plot_race. rewrite Hl1, Hl2. simpl. by eexists.
  - intros r1 r2 Hlt H1 H2. unfold race, merged_events. simpl.
    rewrite decide_True by lia. simpl. rewrite H1, H2. done.
Qed.

Lemma race_stable_merge_deltas_witness :
  (t (race [trophy_at 10 5] [trophy_at 20 3]) = [10; 20] ∧
   deltas (race [trophy_at 10 5] [trophy_at 20 3]) = [5; 2]) ∧
  filter (λ v, timestamp v.2 = 7)
    (merged_events [trophy_at 7 1; trophy_at 7 2] [trophy_at 3 4; trophy_at 7 8])
  = [(0%nat, trophy_at 7 1); (0%nat, trophy_at 7 2); (1%nat, trophy_at 7 8)] ∧
  ∃ title,
    plot_race [("jmal", [trophy_at 10 5]); ("sampleses", [trophy_at 20 3])]
              "jmal" "sampleses"
    = Ok (mkFigure [Scatter [10; 20] [5; 2] None] (Some title)).
Proof.
  split; [|split].
  - apply (proj2 (proj2 race_stable_merge_deltas)
             (trophy_at 10 5) (trophy_at 20 3)); simpl; (lia || reflexivity).
  - destruct (proj1 race_stable_merge_deltas
                [trophy_at 7 1; trophy_at 7 2] [trophy_at 3 4; trophy_at 7 8])
      as (_ & _ & _ & _ & Hties & _).
    + repeat constructor; unfold key_le; simpl; lia.
    + repeat constructor; unfold key_le; simpl; lia.
    + exact (Hties 7).
  - apply (proj1 (proj2 race_stable_merge_deltas)
             [("jmal", [trophy_at 10 5]); ("sampleses", [trophy_at 20 3])]
             "jmal" "sampleses" [trophy_at 10 5] [trophy_at 20 3]);
      reflexivity.
Defined.

(** ** The categorized reducer *)

Lemma defaultdict_getitem_value (totals : gmap string Z) (key : string) :
  (defaultdict_getitem totals key).1 = total_of totals key.
Proof.
  unfold defaultdict_getitem, total_of. by destruct (totals !! key).
Qed.

Lemma defaultdict_getitem_totals (totals : gmap string Z) (key key' : string) :
  total_of (defaultdict_getitem totals key).2 key' = total_of totals key'.
Proof.
  unfold defaultdict_getitem, total_of.
  destruct (totals !! key) as [v|] eqn:Hkey; simpl; [done|].
  destruct (decide (key = key')) as [<-|Hne].
  - by rewrite lookup_insert_eq, Hkey.
  - by rewrite lookup_insert_ne.
Qed.

Lemma add_total_total_of (totals : gmap string Z) (trophy : TrophyData)
    (key : string) :
  total_of (add_total totals trophy) key
  = total_of totals key
    + (if decide (achievement_type trophy = key) then count trophy else 0).
Proof.
  unfold add_total.
  pose proof (defaultdict_getitem_value totals (achievement_type trophy)) as Hv.
  pose proof (defaultdict_getitem_totals totals (achievement_type trophy) key) as Ht.
  destruct (defaultdict_getitem totals (achievement_type trophy)) as [v totals'].
  simpl in *. subst v. unfold total_of at 1. case_decide as Hkey.
  - subst key. by rewrite lookup_insert_eq.
  - rewrite lookup_insert_ne by done. fold (total_of totals' key). lia.
Qed.

Lemma fold_add_total_total_of (trophies : list TrophyData)
    (totals : gmap string Z) (key : string) :
  total_of (fold_left add_total trophies totals) key
  = total_of totals key
    + Zsum (count <$> filter (λ r, achievement_type r = key) trophies).
Proof.
  revert totals. induction trophies as [|r trophies IH]; intros totals;
    cbn [fold_left].
  - unfold Zsum. simpl. lia.
  - rewrite IH, add_total_total_of, filter_cons.
    case_decide; [rewrite fmap_cons|]; unfold Zsum; cbn [foldr]; lia.
Qed.

Lemma read_totals_total_of (totals : gmap string Z) (categories : list string) :
  read_totals totals categories = total_of totals <$> categories.
Proof.
  revert totals. induction categories as [|cat categories IH]; intros totals;
    simpl; [done|].
  pose proof (defaultdict_getitem_value totals cat) as Hv.
  pose proof (defaultdict_getitem_totals totals cat) as Ht.
  destruct (defaultdict_getitem totals cat) as [v totals']. simpl in *.
  rewrite IH, Hv. f_equal. apply list_fmap_ext. intros _ key _. apply Ht.
Qed.

Lemma categorized_trace_totals (categories : list string) (player : string)
    (trophies : list TrophyData) (start_date : datetime) :
  categorized_trace categories player trophies start_date
  = Bar player categories
        ((λ cat, category_total cat start_date trophies) <$> categories).
Proof.
  unfold categorized_trace. rewrite read_totals_total_of. f_equal.
  apply list_fmap_ext. intros _ cat _.
  rewrite fold_add_total_total_of. unfold total_of, category_total.
  rewrite lookup_empty. simpl. by rewrite list_filter_filter.
Qed.

Lemma category_total_before (cat : string) (start_date : datetime)
    (r : TrophyData) (before after : list TrophyData) :
  timestamp r < start_date →
  category_total cat start_date (before ++ r :: after)
  = category_total cat start_date (before ++ after).
Proof.
  intros Hr. unfold category_total.
  rewrite !filter_app, filter_cons_False; [done|]. lia.
Qed.

Lemma category_total_none (cat : string) (start_date : datetime)
    (trophies : list TrophyData) :
  (∀ r, r ∈ trophies → achievement_type r = cat → timestamp r < start_date) →
  category_total cat start_date trophies = 0.
Proof.
  intros Hnone. unfold category_total.
  induction trophies as [|r trophies IH]; [done|].
  rewrite filter_cons_False.
  - apply IH. intros r' Hr'. apply Hnone. by right.
  - intros [Hcat Hts]. specialize (Hnone r (list_elem_of_here _ _) Hcat). lia.
Qed.

(** C7. For every player the categorized reducer emits, over the given
    category list, the sum of the counts of the records of each category
    whose timestamp is not earlier than the cutoff. A record before the
    cutoff changes nothing, and a listed category without a record at or
    after the cutoff is in the series, with total 0. *)
Theorem categorized_totals_after_cutoff :
  (∀ categories player_trophies start_date,
     traces (plot_categorized_trophies categories player_trophies start_date)
     = (λ pt, categorized_trace categories pt.1 pt.2 start_date)
       <$> player_trophies) ∧
  (∀ categories player trophies start_date,
     categorized_trace categories player trophies start_date
     = Bar player categories
           ((λ cat, category_total cat start_date trophies) <$> categories)) ∧
  (∀ categories player before r after start_date,
     timestamp r < start_date →
     categorized_trace categories player (before ++ r :: after) start_date
     = categorized_trace categories player (before ++ after) start_date) ∧
  (∀ categories player trophies start_date i cat,
     categories !! i = Some cat →
     (∀ r, r ∈ trophies → achievement_type r = cat → timestamp r < start_date) →
     ∃ ys,
       categorized_trace categories player trophies start_date
       = Bar player categories ys ∧
       length ys = length categories ∧
       ys !! i = Some 0).
Proof.
  split; [|split; [|split]].
  - intros categories player_trophies start_date.
    unfold plot_categorized_trophies.
    by rewrite (fold_add_trace (λ player trophies,
                  categorized_trace categories player trophies start_date)).
  - apply categorized_trace_totals.
  - intros categories player before r after start_date Hr.
    rewrite !categorized_trace_totals. f_equal.
    apply list_fmap_ext. intros _ cat _. by apply category_total_before.
  - intros categories player trophies start_date i cat Hi Hnone.
    eexists. split; [apply categorized_trace_totals|].
    split; [by rewrite length_fmap|].
    rewrite list_lookup_fmap, Hi. simpl. f_equal.
    by apply category_total_none.
Qed.

Lemma categorized_totals_after_cutoff_witness :
  categorized_trace ["Live"; "SoloRanking"] "jmal"
    ([trophy_of 30 "Live" 4] ++ trophy_of 10 "SoloRanking" 9 :: [trophy_of 40 "Live" 2])
    20
  = categorized_trace ["Live"; "SoloRanking"] "jmal"
      ([trophy_of 30 "Live" 4] ++ [trophy_of 40 "Live" 2]) 20 ∧
  ∃ ys,
    categorized_trace ["Live"; "SoloRanking"] "jmal"
      [trophy_of 30 "Live" 4; trophy_of 10 "SoloRanking" 9; trophy_of 40 "Live" 2]
      20
    = Bar "jmal" ["Live"; "SoloRanking"] ys ∧
    length ys = 2%nat ∧ ys !! 1%nat = Some 0.
Proof.
  split.
  - apply (proj1 (proj2 (proj2 categorized_totals_after_cutoff))).
    simpl. lia.
  - apply (proj2 (proj2 (proj2 categorized_totals_after_cutoff))
             ["Live"; "SoloRanking"] "jmal" _ 20 1%nat "SoloRanking").
    + reflexivity.
    + intros r Hr Hcat. apply list_elem_of_In in Hr. simpl in Hr.
      destruct Hr as [<-|[<-|[<-|[]]]]; simpl in *; (lia || discriminate).
Defined.

(** ** The fetcher *)

Section get_trophies_facts.
Variable fromisoformat : string → option datetime.
Variable requests_get : string → nat → Response.
Variable player_id : string.

Lemma append_gains_mapM (gains : list TrophyData) (entries : list pyobj) :
  append_gains fromisoformat gains entries
  = batch ← mapM (from_gain fromisoformat) entries; Ok (gains ++ batch).
Proof.
  revert gains. induction entries as [|entry entries IH]; intros gains; simpl.
  - by rewrite app_nil_r.
  - destruct (from_gain fromisoformat entry) as [trophy|e]; simpl; [|done].
    rewrite IH. destruct (mapM _ entries) as [batch|e]; simpl; [|done].
    by rewrite <-app_assoc.
Qed.

Lemma read_page_batch (data : pyobj) (gains : list TrophyData) :
  read_page fromisoformat data gains
  = '(num_gains, batch) ← page_batch fromisoformat data;
    Ok (gains ++ batch, int_eq (Z.of_nat (length (gains ++ batch))) num_gains).
Proof.
  unfold read_page, page_batch.
  destruct (getitem data "total") as [num_gains|e]; simpl; [|done].
  destruct (getitem data "gains" ≫= py_iter) as [entries|e]; simpl; [|done].
  rewrite append_gains_mapM.
  by destruct (mapM _ entries) as [batch|e].
Qed.

Lemma json_read_page (resp : Response) (gains : list TrophyData) :
  (data ← json resp; read_page fromisoformat data gains)
  = '(num_gains, batch) ← json resp ≫= page_batch fromisoformat;
    Ok (gains ++ batch, int_eq (Z.of_nat (length (gains ++ batch))) num_gains).
Proof.
  destruct (json resp) as [data|e]; simpl; [|done]. apply read_page_batch.
Qed.

(** One turn of the page loop on a successful page. *)
Lemma loop_successful_page (page : nat) (pages : list nat)
    (gains : list TrophyData) (log : list nat)
    (total : Z) (batch : list TrophyData) :
  successful_page fromisoformat (requests_get player_id page) total batch →
  get_trophies_loop fromisoformat requests_get player_id (page :: pages) gains log
  = if decide (Z.of_nat (length (gains ++ batch)) = total)
    then mkFetch (log ++ [page]) (Ok (gains ++ batch))
    else get_trophies_loop fromisoformat requests_get player_id pages
           (gains ++ batch) (log ++ [page]).
Proof.
  intros [Hok Hbatch]. cbn [get_trophies_loop]. rewrite Hok. cbn [negb].
  rewrite json_read_page, Hbatch. simpl.
  case_bool_decide; [by rewrite decide_True|by rewrite decide_False].
Qed.

Section pages.
Variable total : nat → Z.
Variable batch : nat → list TrophyData.

(** The loop breaks at the first page where the counts agree. *)
Lemma loop_stops_at_match (j : nat) :
  ∀ (start n : nat) (gains : list TrophyData) (log : list nat),
    (j < n)%nat →
    (∀ i, (i ≤ j)%nat →
       successful_page fromisoformat (requests_get player_id (start + i))
                       (total (start + i)) (batch (start + i))) →
    (∀ i, (i < j)%nat →
       Z.of_nat (length (gains ++ concat (batch <$> seq start (S i))))
       ≠ total (start + i)) →
    Z.of_nat (length (gains ++ concat (batch <$> seq start (S j))))
    = total (start + j) →
    get_trophies_loop fromisoformat requests_get player_id (seq start n) gains log
    = mkFetch (log ++ seq start (S j))
              (Ok (gains ++ concat (batch <$> seq start (S j)))).
Proof.
  induction j as [|j IH]; intros start n gains log Hn Hpages Hbefore Hmatch.
  - destruct n as [|n]; [lia|]. cbn [seq].
    rewrite (loop_successful_page _ _ _ _ (total start) (batch start)).
    + simpl in *. rewrite app_nil_r in *.
      rewrite Nat.add_0_r in Hmatch. by rewrite decide_True.
    + specialize (Hpages 0%nat). rewrite Nat.add_0_r in Hpages.
      apply Hpages. lia.
  - destruct n as [|n]; [lia|]. cbn [seq].
    rewrite (loop_successful_page _ _ _ _ (total start) (batch start)).
    + rewrite decide_False.
      * rewrite (IH (S start) n); [| lia | | |].
        -- f_equal; [by rewrite <-app_assoc|].
           f_equal. simpl. by rewrite <-app_assoc.
        -- intros i Hi. replace (S start + i)%nat with (start + S i)%nat by lia.
           apply Hpages. lia.
        -- intros i Hi. replace (S start + i)%nat with (start + S i)%nat by lia.
           specialize (Hbefore (S i)). rewrite <-app_assoc. apply Hbefore. lia.
        -- replace (S start + j)%nat with (start + S j)%nat by lia.
           by rewrite <-app_assoc.
      * specialize (Hbefore 0%nat). simpl in Hbefore.
        rewrite app_nil_r, Nat.add_0_r in Hbefore. apply Hbefore. lia.
    + specialize (Hpages 0%nat). rewrite Nat.add_0_r in Hpages.
      apply Hpages. lia.
Qed.

(** Without a page where the counts agree every page is requested. *)
Lemma loop_runs_to_limit (n : nat) :
  ∀ (start : nat) (gains : list TrophyData) (log : list nat),
    (∀ i, (i < n)%nat →
       successful_page fromisoformat (requests_get player_id (start + i))
                       (total (start + i)) (batch (start + i))) →
    (∀ i, (i < n)%nat →
       Z.of_nat (length (gains ++ concat (batch <$> seq start (S i))))
       ≠ total (start + i)) →
    get_trophies_loop fromisoformat requests_get player_id (seq start n) gains log
    = mkFetch (log ++ seq start n)
              (Ok (gains ++ concat (batch <$> seq start n))).
Proof.
  induction n as [|n IH]; intros start gains log Hpages Hbefore.
  - simpl. by rewrite !app_nil_r.
  - cbn [seq].
    rewrite (loop_successful_page _ _ _ _ (total start) (batch start)).
    + rewrite decide_False.
      * rewrite (IH (S start)).
        -- f_equal; [by rewrite <-app_assoc|].
           f_equal. simpl. by rewrite <-app_assoc.
        -- intros i Hi. replace (S start + i)%nat with (start + S i)%nat by lia.
           apply Hpages. lia.
        -- intros i Hi. replace (S start + i)%nat with (start + S i)%nat by lia.
           specialize (Hbefore (S i)). rewrite <-app_assoc. apply Hbefore. lia.
      * specialize (Hbefore 0%nat). simpl in Hbefore.
        rewrite app_nil_r, Nat.add_0_r in Hbefore. apply Hbefore. lia.
    + specialize (Hpages 0%nat). rewrite Nat.add_0_r in Hpages.
      apply Hpages. lia.
Qed.
End pages.
End get_trophies_facts.

(** C8. When the pages are successful, each with a total and a batch of
    gains, the fetcher asks for the pages 0, 1, 2, ... in turn, gathers
    the records of every page it asked for, and stops right after the
    first page at which the number of records gathered equals that page's
    total: no later page is requested. Without such a page it stops after
    [request_limit] pages. When the counts agree on page 0, page 0 is the
    only request. *)
Theorem get_trophies_stops_at_total
    (fromisoformat : string → option datetime)
    (requests_get : string → nat → Response)
    (player_id : string) (request_limit : nat)
    (total : nat → Z) (batch : nat → list TrophyData) :
  (∀ k, (k < request_limit)%nat →
     (∀ p, (p ≤ k)%nat →
        successful_page fromisoformat (requests_get player_id p)
                        (total p) (batch p)) →
     (∀ p, (p < k)%nat →
        Z.of_nat (length (batches_upto batch (S p))) ≠ total p) →
     Z.of_nat (length (batches_upto batch (S k))) = total k →
     get_trophies fromisoformat requests_get player_id request_limit
     = mkFetch (seq 0 (S k)) (Ok (batches_upto batch (S k)))) ∧
  ((∀ p, (p < request_limit)%nat →
      successful_page fromisoformat (requests_get player_id p)
                      (total p) (batch p)) →
   (∀ p, (p < request_limit)%nat →
      Z.of_nat (length (batches_upto batch (S p))) ≠ total p) →
   get_trophies fromisoformat requests_get player_id request_limit
   = mkFetch (seq 0 request_limit) (Ok (batches_upto batch request_limit))) ∧
  ((0 < request_limit)%nat →
   successful_page fromisoformat (requests_get player_id 0%nat)
                   (total 0%nat) (batch 0%nat) →
   Z.of_nat (length (batch 0%nat)) = total 0%nat →
   get_trophies fromisoformat requests_get player_id request_limit
   = mkFetch [0%nat] (Ok (batch 0%nat))).
Proof.
  split; [|split].
  - intros k Hk Hpages Hbefore Hmatch. unfold get_trophies.
    by rewrite (loop_stops_at_match _ _ _ total batch k).
  - intros Hpages Hbefore. unfold get_trophies.
    by rewrite (loop_runs_to_limit _ _ _ total batch).
  - intros Hlimit Hpage Hmatch. unfold get_trophies.
    rewrite (loop_stops_at_match _ _ _ total batch 0); simpl.
    + by rewrite app_nil_r.
    + done.
    + intros i Hi. by replace i with 0%nat by lia.
    + lia.
    + by rewrite app_nil_r.
Qed.

Lemma get_trophies_stops_at_total_witness :
  get_trophies sample_fromisoformat sample_provider "player" 100
  = mkFetch [0%nat; 1%nat] (Ok [solo_trophy; live_trophy; live_trophy]).
Proof.
  apply (proj1 (get_trophies_stops_at_total
                  sample_fromisoformat sample_provider "player" 100
                  (λ _, 3)
                  (λ p, match p with
                        | 0%nat => [solo_trophy; live_trophy]
                        | _ => [live_trophy]
                        end))
           1%nat).
  - lia.
  - intros p Hp. destruct p as [|[|p]]; [by split|by split|lia].
  - intros p Hp. destruct p as [|p]; [simpl; lia|lia].
  - reflexivity.
Defined.

(** What holds of every run of the page loop that starts at page [start]
    after the pages before it were answered successfully. *)
Lemma loop_requests (fromisoformat : string → option datetime)
    (requests_get : string → nat → Response) (player_id : string) (n : nat) :
  ∀ (start : nat) (gains : list TrophyData),
    (∀ p, (p < start)%nat → ok (requests_get player_id p) = true) →
    let fetch :=
      get_trophies_loop fromisoformat requests_get player_id
                        (seq start n) gains (seq 0 start) in
    ∃ m, (start ≤ m ≤ start + n)%nat ∧
         requested fetch = seq 0 m ∧
         (∀ p, (p < m)%nat → ok (requests_get player_id p) = false →
               S p = m ∧
               outcome fetch
               = (body ← json (requests_get player_id p);
                  Err (RuntimeError body))) ∧
         (is_Ok (outcome fetch) →
          ∀ p, (p < m)%nat → ok (requests_get player_id p) = true).
Proof.
  induction n as [|n IH]; intros start gains Hstart; simpl.
  { exists start. split; [lia|]. split; [done|]. split; [|done].
    intros p Hp Hfail. rewrite Hstart in Hfail by done. done. }
  assert (seq 0 start ++ [start] = seq 0 (S start)) as Hlog.
  { by rewrite seq_S. }
  rewrite Hlog.
  assert (∀ r : result (list TrophyData),
            ok (requests_get player_id start) = true →
            ∃ m, (start ≤ m ≤ start + S n)%nat ∧
                 requested (mkFetch (seq 0 (S start)) r) = seq 0 m ∧
                 (∀ p, (p < m)%nat → ok (requests_get player_id p) = false →
                       S p = m ∧
                       outcome (mkFetch (seq 0 (S start)) r)
                       = (body ← json (requests_get player_id p);
                          Err (RuntimeError body))) ∧
                 (is_Ok (outcome (mkFetch (seq 0 (S start)) r)) →
                  ∀ p, (p < m)%nat → ok (requests_get player_id p) = true))
    as Hstop.
  { intros r Hok.
    assert (∀ p, (p < S start)%nat → ok (requests_get player_id p) = true) as Hall.
    { intros p Hp. destruct (decide (p = start)) as [->|]; [done|].
      apply Hstart. lia. }
    exists (S start). split; [lia|]. split; [done|]. split; [|done].
    intros p Hp Hfail. rewrite Hall in Hfail by done. done. }
  destruct (ok (requests_get player_id start)) eqn:Hok; simpl.
  - destruct (json (requests_get player_id start) ≫= _)
      as [[gains' [|]]|e]; [by apply Hstop| |by apply Hstop].
    destruct (IH (S start) gains') as (m & Hm & Hfetch).
    { intros p Hp. destruct (decide (p = start)) as [->|]; [done|].
      apply Hstart. lia. }
    exists m. split; [lia|]. exact Hfetch.
  - exists (S start). split; [lia|]. split; [done|]. split.
    + intros p Hp Hfail. destruct (decide (p = start)) as [->|]; [done|].
      rewrite Hstart in Hfail by lia. done.
    + intros [gains' Hgains].
      by destruct (json (requests_get player_id start)).
Qed.

(** Pages answered successfully without agreeing counts, then an error
    answer: the fetch raises on that page. *)
Lemma loop_raises_at_failure (fromisoformat : string → option datetime)
    (requests_get : string → nat → Response) (player_id : string)
    (total : nat → Z) (batch : nat → list TrophyData) (j : nat) :
  ∀ (start n : nat) (gains : list TrophyData) (log : list nat),
    (j < n)%nat →
    (∀ i, (i < j)%nat →
       successful_page fromisoformat (requests_get player_id (start + i)%nat)
                       (total (start + i)%nat) (batch (start + i)%nat)) →
    (∀ i, (i < j)%nat →
       Z.of_nat (length (gains ++ concat (batch <$> seq start (S i))))
       ≠ total (start + i)%nat) →
    ok (requests_get player_id (start + j)%nat) = false →
    get_trophies_loop fromisoformat requests_get player_id (seq start n) gains log
    = mkFetch (log ++ seq start (S j))
              (body ← json (requests_get player_id (start + j)%nat);
               Err (RuntimeError body)).
Proof.
  induction j as [|j IH]; intros start n gains log Hn Hpages Hbefore Hfail.
  - destruct n as [|n]; [lia|]. rewrite Nat.add_0_r in *. simpl.
    by rewrite Hfail.
  - destruct n as [|n]; [lia|]. cbn [seq].
    rewrite (loop_successful_page _ _ _ _ _ _ _ (total start) (batch start)).
    + rewrite decide_False.
      * rewrite (IH (S start) n); [| lia | | |].
        -- replace (S start + j)%nat with (start + S j)%nat by lia.
           f_equal. by rewrite <-app_assoc.
        -- intros i Hi. replace (S start + i)%nat with (start + S i)%nat by lia.
           apply Hpages. lia.
        -- intros i Hi. replace (S start + i)%nat with (start + S i)%nat by lia.
           specialize (Hbefore (S i)). rewrite <-app_assoc. apply Hbefore. lia.
        -- by replace (S start + j)%nat with (start + S j)%nat by lia.
      * specialize (Hbefore 0%nat). simpl in Hbefore.
        rewrite app_nil_r, Nat.add_0_r in Hbefore. apply Hbefore. lia.
    + specialize (Hpages 0%nat). rewrite Nat.add_0_r in Hpages.
      apply Hpages. lia.
Qed.

(** C9 (what the code does). The fetcher asks for every page once, in
    order. As soon as a page it asked for is answered without success it
    raises, asks for nothing more and returns no list; so a list is
    returned only if every page asked for succeeded. The exception is a
    [RuntimeError] that carries the body when the body is a JSON
    document; the message of that error is built with [resp.json()],
    which raises its own decoding error on a body that is no JSON
    document, and then this error is what the fetch raises: behind
    [gateway_provider] no [RuntimeError] carrying the body is raised. *)
Theorem get_trophies_raises_on_failure
    (fromisoformat : string → option datetime)
    (requests_get : string → nat → Response)
    (player_id : string) (request_limit : nat) :
  let fetch := get_trophies fromisoformat requests_get player_id request_limit in
  (∃ m, (m ≤ request_limit)%nat ∧ requested fetch = seq 0 m) ∧
  (∀ p, p ∈ requested fetch → ok (requests_get player_id p) = false →
        requested fetch = seq 0 (S p) ∧
        is_Err (outcome fetch) ∧
        (∀ body, json (requests_get player_id p) = Ok body →
                 outcome fetch = Err (RuntimeError body)) ∧
        (json (requests_get player_id p) = Err JSONDecodeError →
         outcome fetch = Err JSONDecodeError)) ∧
  (∀ gains, outcome fetch = Ok gains →
            ∀ p, p ∈ requested fetch → ok (requests_get player_id p) = true) ∧
  (∀ total batch k,
     (k < request_limit)%nat →
     (∀ p, (p < k)%nat →
        successful_page fromisoformat (requests_get player_id p)
                        (total p) (batch p)) →
     (∀ p, (p < k)%nat →
        Z.of_nat (length (batches_upto batch (S p))) ≠ total p) →
     ok (requests_get player_id k) = false →
     fetch = mkFetch (seq 0 (S k))
                     (body ← json (requests_get player_id k);
                      Err (RuntimeError body))) ∧
  ((0 < request_limit)%nat →
   get_trophies fromisoformat gateway_provider player_id request_limit
   = mkFetch [0%nat] (Err JSONDecodeError)).
Proof.
  intros fetch.
  pose proof (loop_requests fromisoformat requests_get player_id request_limit
                0 [] ltac:(lia)) as H.
  cbv zeta in H. change (seq 0 0) with (@nil nat) in H.
  change (get_trophies_loop _ _ _ (seq 0 request_limit) [] []) with fetch in H.
  destruct H as (m & Hm & Hlog & Hfail & Hsucc).
  split; [|split; [|split; [|split]]].
  - exists m. split; [lia|done].
  - intros p Hp Hnot. rewrite Hlog in Hp. apply elem_of_seq in Hp.
    destruct (Hfail p) as [<- Hout]; [lia|done|]. rewrite Hout.
    split; [done|].
    destruct (json (requests_get player_id p)) as [body|e]; simpl.
    + split; [by eexists|]. split; [by intros ? [= <-]|done].
    + split; [by eexists|]. split; [done|by intros [= ->]].
  - intros gains Hgains p Hp. rewrite Hlog in Hp. apply elem_of_seq in Hp.
    apply Hsucc; [by exists gains|lia].
  - intros total batch k Hk Hpages Hbefore Hnot. unfold fetch, get_trophies.
    by rewrite (loop_raises_at_failure _ _ _ total batch k).
  - intros Hlimit. unfold get_trophies.
    destruct request_limit as [|n]; [lia|]. reflexivity.
Qed.

Lemma get_trophies_raises_on_failure_witness :
  get_trophies sample_fromisoformat failing_provider "player" 100
  = mkFetch [0%nat; 1%nat]
            (Err (RuntimeError (PyDict [("error", PyStr "rate limited")]))) ∧
  get_trophies sample_fromisoformat gateway_provider "player" 100
  = mkFetch [0%nat] (Err JSONDecodeError).
Proof.
  split.
  - apply (proj1 (proj2 (proj2 (proj2 (get_trophies_raises_on_failure
                    sample_fromisoformat failing_provider "player" 100))))
             (λ _, 3) (λ _, [solo_trophy; live_trophy]) 1%nat).
    + lia.
    + intros p Hp. destruct p as [|p]; [by split|lia].
    + intros p Hp. destruct p as [|p]; [simpl; lia|lia].
    + reflexivity.
  - apply (proj2 (proj2 (proj2 (proj2 (get_trophies_raises_on_failure
                    sample_fromisoformat failing_provider "player" 100))))).
    lia.
Defined.

(** ** The cache *)

Lemma TrophyData_from_kwargs_asdict (trophy : TrophyData) :
  TrophyData_from_kwargs (asdict trophy) = Ok trophy.
Proof.
  unfold TrophyData_from_kwargs, asdict. simpl. by destruct trophy.
Qed.

(** A record is built back from any layout of its fields that is, up to
    the order of the entries, the one [asdict] gives. *)
Lemma from_kwargs_same_doc (trophy : TrophyData) (doc : pyobj) :
  same_doc (asdict trophy) doc →
  ∃ trophy', TrophyData_from_kwargs doc = Ok trophy' ∧
             same_record trophy trophy'.
Proof.
  unfold asdict. intros H.
  inversion H as [| | | | | |d d' Hkeys Hvals]; subst.
  assert (∀ key v,
            dict_get [("timestamp", PyDatetime (timestamp trophy));
                      ("achievement_type", PyStr (achievement_type trophy));
                      ("count", PyInt (count trophy));
                      ("data", PyDict (data trophy))] key = Ok v →
            ∃ v', dict_get d' key = Ok v' ∧ same_doc v v') as Hfield.
  { intros key v Hv. destruct (dict_get_elem_of d' key) as [v' Hv'].
    - rewrite <-Hkeys. apply dict_get_Ok_elem_of in Hv.
      apply list_elem_of_fmap. by exists (key, v).
    - exists v'. split; [done|]. by apply (Hvals key). }
  destruct (Hfield "timestamp" _ eq_refl) as (v1 & Hv1 & Hd1).
  destruct (Hfield "achievement_type" _ eq_refl) as (v2 & Hv2 & Hd2).
  destruct (Hfield "count" _ eq_refl) as (v3 & Hv3 & Hd3).
  destruct (Hfield "data" _ eq_refl) as (v4 & Hv4 & Hd4).
  inversion Hd1; subst. inversion Hd2; subst. inversion Hd3; subst.
  assert (∃ d4, v4 = PyDict d4) as [d4 ->] by (inversion Hd4; eauto).
  exists (mkTrophyData (timestamp trophy) (achievement_type trophy)
                       (count trophy) d4).
  split; [|done].
  unfold TrophyData_from_kwargs. cbn [as_dict]. rewrite bind_Ok_l.
  rewrite decide_True.
  - unfold kwarg. by rewrite Hv1, Hv2, Hv3, Hv4.
  - apply Forall_forall. intros k Hk. rewrite <-Hkeys in Hk. exact Hk.
Qed.

Lemma mapM_from_kwargs_same_doc (trophies : list TrophyData)
    (docs : list pyobj) :
  Forall2 same_doc (asdict <$> trophies) docs →
  ∃ trophies', mapM TrophyData_from_kwargs docs = Ok trophies' ∧
               Forall2 same_record trophies trophies'.
Proof.
  revert docs. induction trophies as [|r l IH]; intros docs H.
  - apply Forall2_nil_inv_l in H as ->. by exists [].
  - rewrite fmap_cons in H.
    apply Forall2_cons_inv_l in H as (doc & docs' & Hdoc & Hdocs & ->).
    destruct (from_kwargs_same_doc _ _ Hdoc) as (r' & Hr' & Hrr').
    destruct (IH _ Hdocs) as (l' & Hl' & Hll').
    exists (r' :: l'). cbn [mapM]. rewrite Hr', Hl'.
    split; [done|by constructor].
Qed.

(** The entries of a loaded document, each of them the layout of the
    records of a player of [trophy_results] up to the order of mapping
    entries, are read back as the records of that player. *)
Lemma read_items_same_doc (trophy_results : list (string * list TrophyData))
    (items : dict) :
  Forall (λ item, ∃ trophies,
            dict_get trophy_results item.1 = Ok trophies ∧
            same_doc (PyList (asdict <$> trophies)) item.2) items →
  ∃ cached,
    mapM (λ '(player, player_data),
            player_trophies ← py_iter player_data ≫= mapM TrophyData_from_kwargs;
            Ok (player, player_trophies))
         items
    = Ok cached ∧
    cached.*1 = items.*1 ∧
    Forall (λ entry, ∃ trophies,
              dict_get trophy_results entry.1 = Ok trophies ∧
              Forall2 same_record trophies entry.2) cached.
Proof.
  induction items as [|[player player_data] items IH]; intros H.
  - exists []. by split; [|split].
  - apply Forall_cons in H as [(trophies & Hget & Hdoc) H].
    destruct (IH H) as (cached & Hcached & Hkeys & Hall).
    simpl in Hget, Hdoc.
    inversion Hdoc as [| | | | |l docs Hdocs|]; subst.
    destruct (mapM_from_kwargs_same_doc _ _ Hdocs) as (trophies' & Hread & Hsame).
    exists ((player, trophies') :: cached). cbn [mapM].
    rewrite Hcached. cbn [py_iter]. rewrite bind_Ok_l, Hread.
    split; [done|]. split; [by rewrite !fmap_cons, Hkeys|].
    constructor; [|done]. by exists trophies.
Qed.

(** Reading a cache file whose document is, up to the order of mapping
    entries, the one written for [trophy_results]. *)
Lemma read_cache_same_doc {File : Type} (yaml_safe_load : File → result pyobj)
    (cached_file : File) (trophy_results : list (string * list TrophyData))
    (doc : pyobj) :
  NoDup trophy_results.*1 →
  yaml_safe_load cached_file = Ok doc →
  same_doc (yamlified trophy_results) doc →
  ∃ cached,
    read_cache yaml_safe_load cached_file = Ok cached ∧
    cached.*1 ≡ₚ trophy_results.*1 ∧
    ∀ player trophies,
      dict_get trophy_results player = Ok trophies →
      ∃ trophies', dict_get cached player = Ok trophies' ∧
                   Forall2 same_record trophies trophies'.
Proof.
  intros Hnodup Hload Hdoc. unfold yamlified in Hdoc.
  inversion Hdoc as [| | | | | |d items Hkeys Hvals]; subst.
  assert (((λ '(player, player_trophies),
              (player, PyList (asdict <$> player_trophies)))
           <$> trophy_results).*1 = trophy_results.*1) as Hlayout.
  { clear. induction trophy_results as [|[player l] m IH]; [done|].
    by rewrite !fmap_cons, IH. }
  rewrite Hlayout in Hkeys.
  destruct (read_items_same_doc trophy_results items)
    as (cached & Hcached & Hcached_keys & Hall).
  { apply Forall_forall. intros [player player_data] Hin. simpl.
    assert (player ∈ trophy_results.*1) as Hplayer.
    { rewrite Hkeys. apply list_elem_of_fmap. by exists (player, player_data). }
    destruct (dict_get_elem_of _ _ Hplayer) as [trophies Hget].
    exists trophies. split; [done|].
    apply (Hvals player).
    - by rewrite dict_get_fmap, Hget.
    - apply dict_get_NoDup; [by rewrite <-Hkeys|done]. }
  exists cached. split; [|split].
  - unfold read_cache. rewrite Hload. by rewrite !bind_Ok_l.
  - by rewrite Hcached_keys, Hkeys.
  - intros player trophies Hget.
    assert (player ∈ cached.*1) as Hplayer.
    { rewrite Hcached_keys, <-Hkeys. apply dict_get_Ok_elem_of in Hget.
      apply list_elem_of_fmap. by exists (player, trophies). }
    destruct (dict_get_elem_of _ _ Hplayer) as [trophies' Hget'].
    exists trophies'. split; [done|].
    apply dict_get_Ok_elem_of in Hget'.
    rewrite Forall_forall in Hall.
    destruct (Hall _ Hget') as (trophies0 & Hget0 & Hsame).
    simpl in Hget0, Hsame. rewrite Hget in Hget0. by injection Hget0 as <-.
Qed.

(** C4. Writing the cache and reading it back gives, for every player of
    the map, as many records as were written, equal one by one in each of
    the four fields: timestamp, achievement_type and count are the same
    values and data is the same dict, that is the same keys with the same
    values, as [==] on Python dicts has it. The write path lays every
    record out as a dict of its declared fields and the read path builds
    the record back from the entries of that dict, in whatever order they
    come. The YAML codec is taken to return, on loading what it dumped, a
    document that differs from the dumped one at most in the order of the
    entries of its mappings: [yaml.dump] writes the keys of every mapping
    sorted, so the players, the fields of a record and the keys of a
    payload may come back in another order. *)
Theorem cache_round_trip {File : Type}
    (yaml_dump : pyobj → File) (yaml_safe_load : File → result pyobj)
    (trophy_results : list (string * list TrophyData)) (doc : pyobj) :
  NoDup trophy_results.*1 →
  yaml_safe_load (yaml_dump (yamlified trophy_results)) = Ok doc →
  same_doc (yamlified trophy_results) doc →
  ∃ cached,
    read_cache yaml_safe_load (write_cache yaml_dump trophy_results) = Ok cached ∧
    cached.*1 ≡ₚ trophy_results.*1 ∧
    ∀ player trophies,
      dict_get trophy_results player = Ok trophies →
      ∃ trophies',
        dict_get cached player = Ok trophies' ∧
        length trophies' = length trophies ∧
        Forall2 same_record trophies trophies'.
Proof.
  intros Hnodup Hload Hdoc.
  destruct (read_cache_same_doc yaml_safe_load
              (write_cache yaml_dump trophy_results) trophy_results doc)
    as (cached & Hread & Hkeys & Hrecords); [done..|].
  exists cached. split; [done|]. split; [done|].
  intros player trophies Hget.
  destruct (Hrecords player trophies Hget) as (trophies' & Hget' & Hsame).
  exists trophies'. split; [done|]. split; [|done].
  symmetry. by eapply Forall2_length.
Qed.

(** Tactics that show two given documents to be the same up to the order
    of mapping entries. *)
Ltac same_keys := apply (bool_decide_unpack _); vm_compute; exact I.
Ltac same_doc_step :=
  match goal with
  | |- same_doc (PyDict _) (PyDict _) =>
      apply same_doc_dict;
      [same_keys
      |let key := fresh "key" in
       let Hl := fresh "Hl" in
       let Hr := fresh "Hr" in
       intros key ? ? Hl Hr; cbn [dict_get] in Hl, Hr;
       repeat (case_decide; simplify_eq)]
  | |- same_doc (PyList _) (PyList _) => apply same_doc_list
  | |- Forall2 _ _ _ => constructor
  | |- same_doc _ _ => constructor
  end.
Ltac same_doc_tac := vm_compute; repeat same_doc_step.

Lemma cache_round_trip_witness :
  ∃ cached,
    read_cache (File:=pyobj) Ok (write_cache sort_keys sample_results)
    = Ok cached ∧
    cached.*1 ≡ₚ sample_results.*1 ∧
    ∀ player trophies,
      dict_get sample_results player = Ok trophies →
      ∃ trophies',
        dict_get cached player = Ok trophies' ∧
        length trophies' = length trophies ∧
        Forall2 same_record trophies trophies'.
Proof.
  apply (cache_round_trip (File:=pyobj) sort_keys Ok sample_results
           (sort_keys (yamlified sample_results))).
  - simpl. apply NoDup_cons. split; [no_key|].
    apply NoDup_cons. split; [no_key|]. apply NoDup_nil_2.
  - reflexivity.
  - same_doc_tac.
Defined.

(** * Further properties of the code *)

(** ** Building a record *)

(** X1. From a dict whose "timestamp" is a string that parses, whose
    "achievement" has a string "trophyAchievementType" and whose "counts"
    is a list of 9 ints (a bool counting as 0 or 1), [from_gain] returns
    the record that holds the parsed time, that category, the points of
    the counts and the dict itself as [data]. And a record that
    [from_gain] returns holds the payload itself as [data], the parse of
    its "timestamp", its category and the points of its 9 counts. *)
Theorem from_gain_record (fromisoformat : string → option datetime) (d : dict) :
  (∀ s ts achieve ty l counts,
     dict_get d "timestamp" = Ok (PyStr s) →
     fromisoformat s = Some ts →
     dict_get d "achievement" = Ok achieve →
     getitem achieve "trophyAchievementType" = Ok (PyStr ty) →
     dict_get d "counts" = Ok (PyList l) →
     mapM as_int l = Ok counts →
     length l = 9%nat →
     ∃ points,
       _sum_trophy_points counts = Ok points ∧
       from_gain fromisoformat (PyDict d) = Ok (mkTrophyData ts ty points d)) ∧
  (∀ trophy,
     from_gain fromisoformat (PyDict d) = Ok trophy →
     data trophy = d ∧
     ∃ s achieve l counts,
       dict_get d "timestamp" = Ok (PyStr s) ∧
       fromisoformat s = Some (timestamp trophy) ∧
       dict_get d "achievement" = Ok achieve ∧
       getitem achieve "trophyAchievementType"
       = Ok (PyStr (achievement_type trophy)) ∧
       dict_get d "counts" = Ok (PyList l) ∧
       mapM as_int l = Ok counts ∧
       length l = 9%nat ∧
       _sum_trophy_points counts = Ok (count trophy)).
Proof.
  split.
  - intros s ts achieve ty l counts Hts Hparse Hachieve Hty Hcounts Hints Hlen.
    assert (length counts = 9%nat) as Hlen'.
    { by rewrite (mapM_Ok_length _ _ _ Hints). }
    destruct (length_9_inv counts Hlen')
      as (c0 & c1 & c2 & c3 & c4 & c5 & c6 & c7 & c8 & ->).
    eexists. split; [apply sum_trophy_points_digits|].
    unfold from_gain. cbn [getitem]. rewrite Hts. rewrite bind_Ok_l.
    unfold parse_timestamp. cbn [as_str]. rewrite bind_Ok_l, Hparse, bind_Ok_l.
    rewrite Hachieve, bind_Ok_l, Hty, bind_Ok_l, Hcounts, bind_Ok_l.
    unfold sum_trophy_points_of. cbn [py_len]. rewrite bind_Ok_l.
    rewrite decide_False by (rewrite Hlen; lia).
    rewrite Hints, bind_Ok_l, sum_trophy_points_digits. reflexivity.
  - intros trophy H.
    apply from_gain_Ok_inv in H
      as (achieve & counts & Hts & Hachieve & Hty & Hcounts & Hsum & Hd).
    injection Hd as ->. split; [done|]. cbn [getitem] in *.
    apply bind_Ok in Hts as (v & Hv & Hts). unfold parse_timestamp in Hts.
    apply bind_Ok in Hts as (s & Hs & Hts).
    destruct v; simplify_eq/=.
    destruct (fromisoformat s) as [ts|] eqn:Hparse; simplify_eq/=.
    apply bind_Ok in Hcounts as (v & Hv' & Hcounts).
    destruct v as [| | | | |l|]; simplify_eq/=.
    exists s, achieve, l, counts. repeat split; try done.
    rewrite <-(mapM_Ok_length _ _ _ Hcounts).
    destruct (decide (length counts = 9%nat)) as [|Hne]; [done|].
    by rewrite sum_trophy_points_wrong_length in Hsum.
Qed.

Lemma from_gain_record_witness :
  ∃ points,
    _sum_trophy_points [1; 2; 0; 0; 0; 0; 0; 0; 0] = Ok points ∧
    from_gain sample_fromisoformat
      (PyDict [("timestamp", PyStr "2023-05-02T08:30:00+00:00");
               ("achievement", PyDict [("trophyAchievementType", PyStr "Live")]);
               ("counts",
                PyList [PyBool true; PyInt 2; PyInt 0; PyInt 0; PyInt 0;
                        PyInt 0; PyInt 0; PyInt 0; PyInt 0])])
    = Ok (mkTrophyData 1683016200000000 "Live" points
            [("timestamp", PyStr "2023-05-02T08:30:00+00:00");
             ("achievement", PyDict [("trophyAchievementType", PyStr "Live")]);
             ("counts",
              PyList [PyBool true; PyInt 2; PyInt 0; PyInt 0; PyInt 0;
                      PyInt 0; PyInt 0; PyInt 0; PyInt 0])]).
Proof.
  apply (proj1 (from_gain_record sample_fromisoformat _)
           "2023-05-02T08:30:00+00:00" 1683016200000000
           (PyDict [("trophyAchievementType", PyStr "Live")]) "Live"
           [PyBool true; PyInt 2; PyInt 0; PyInt 0; PyInt 0;
            PyInt 0; PyInt 0; PyInt 0; PyInt 0]);
    reflexivity.
Defined.

(** X2. The exceptions of [from_gain] come in the order of its keyword
    arguments: a payload that is no dict is a [TypeError]; a dict without
    "timestamp" is a [KeyError] on it; a timestamp that does not parse is a
    [ValueError], whatever the rest holds; with a timestamp that parses, a
    dict without "achievement" is a [KeyError] on it, and one without
    "counts" (the category being there) a [KeyError] on "counts". *)
Theorem from_gain_exceptions (fromisoformat : string → option datetime) :
  (∀ gain_data, as_dict gain_data = Err TypeError →
     from_gain fromisoformat gain_data = Err TypeError) ∧
  (∀ d, "timestamp" ∉ d.*1 →
     from_gain fromisoformat (PyDict d) = Err (KeyError "timestamp")) ∧
  (∀ d s, dict_get d "timestamp" = Ok (PyStr s) → fromisoformat s = None →
     from_gain fromisoformat (PyDict d) = Err ValueError) ∧
  (∀ d s ts, dict_get d "timestamp" = Ok (PyStr s) → fromisoformat s = Some ts →
     "achievement" ∉ d.*1 →
     from_gain fromisoformat (PyDict d) = Err (KeyError "achievement")) ∧
  (∀ d s ts achieve ty,
     dict_get d "timestamp" = Ok (PyStr s) → fromisoformat s = Some ts →
     dict_get d "achievement" = Ok achieve →
     getitem achieve "trophyAchievementType" = Ok (PyStr ty) →
     "counts" ∉ d.*1 →
     from_gain fromisoformat (PyDict d) = Err (KeyError "counts")).
Proof.
  repeat split.
  - intros gain_data Hdict. by destruct gain_data.
  - intros d Hkey. unfold from_gain. simpl.
    by rewrite (dict_get_missing d "timestamp").
  - intros d s Hts Hparse. unfold from_gain. simpl. rewrite Hts. simpl.
    unfold parse_timestamp. simpl. by rewrite Hparse.
  - intros d s ts Hts Hparse Hkey. unfold from_gain. simpl. rewrite Hts. simpl.
    unfold parse_timestamp. simpl. rewrite Hparse. simpl.
    by rewrite (dict_get_missing d "achievement").
  - intros d s ts achieve ty Hts Hparse Hachieve Hty Hkey.
    unfold from_gain. simpl. rewrite Hts. simpl.
    unfold parse_timestamp. simpl. rewrite Hparse, Hachieve. simpl.
    rewrite Hty. simpl. by rewrite (dict_get_missing d "counts").
Qed.

Lemma from_gain_exceptions_witness :
  from_gain sample_fromisoformat (PyList []) = Err TypeError ∧
  from_gain sample_fromisoformat (PyDict [("counts", PyList [])])
  = Err (KeyError "timestamp") ∧
  from_gain sample_fromisoformat (PyDict [("timestamp", PyStr "yesterday")])
  = Err ValueError ∧
  from_gain sample_fromisoformat
    (PyDict [("timestamp", PyStr "2023-05-02T08:30:00+00:00")])
  = Err (KeyError "achievement") ∧
  from_gain sample_fromisoformat
    (PyDict [("timestamp", PyStr "2023-05-02T08:30:00+00:00");
             ("achievement", PyDict [("trophyAchievementType", PyStr "Live")])])
  = Err (KeyError "counts").
Proof.
  pose proof (from_gain_exceptions sample_fromisoformat)
    as (H1 & H2 & H3 & H4 & H5).
  split; [by apply H1|]. split.
  { apply H2. no_key. }
  split; [by apply (H3 _ "yesterday")|]. split.
  { apply (H4 _ "2023-05-02T08:30:00+00:00" 1683016200000000); [done..|].
    no_key. }
  apply (H5 _ "2023-05-02T08:30:00+00:00" 1683016200000000
            (PyDict [("trophyAchievementType", PyStr "Live")]) "Live");
    [done..|].
  no_key.
Defined.

(** ** [categorize] *)

(** X3. [categorize] returns every category other than "SoloRanking" as
    it is, whether or not the payload has a sub-type; for "SoloRanking" it
    returns "SoloRanking - " followed by the sub-type, and raises a
    [KeyError] on "trophySoloRankingAchievementType" when the payload has
    none. *)
Theorem categorize_cases (py_str : pyobj → string) (d achieve : dict) :
  dict_get d "achievement" = Ok (PyDict achieve) →
  (∀ category, dict_get achieve "trophyAchievementType" = Ok (PyStr category) →
     category ≠ "SoloRanking" →
     categorize py_str (PyDict d) = Ok (PyStr category)) ∧
  (∀ sub, dict_get achieve "trophyAchievementType" = Ok (PyStr "SoloRanking") →
     dict_get achieve "trophySoloRankingAchievementType" = Ok (PyStr sub) →
     categorize py_str (PyDict d) = Ok (PyStr ("SoloRanking - " +:+ sub))) ∧
  (dict_get achieve "trophyAchievementType" = Ok (PyStr "SoloRanking") →
   "trophySoloRankingAchievementType" ∉ achieve.*1 →
   categorize py_str (PyDict d)
   = Err (KeyError "trophySoloRankingAchievementType")).
Proof.
  intros Hachieve. unfold categorize. simpl. rewrite Hachieve. simpl.
  split; [|split].
  - intros category -> Hne. simpl. by rewrite decide_False.
  - intros sub -> ->. done.
  - intros -> Hkey. simpl.
    by rewrite (dict_get_missing achieve "trophySoloRankingAchievementType").
Qed.

Lemma categorize_cases_witness :
  categorize sample_str live_gain = Ok (PyStr "Live") ∧
  categorize sample_str
    (PyDict [("achievement",
              PyDict [("trophyAchievementType", PyStr "SoloRanking")])])
  = Err (KeyError "trophySoloRankingAchievementType").
Proof.
  split.
  - apply (proj1 (categorize_cases sample_str
                    [("timestamp", PyStr "2023-05-02T08:30:00+00:00");
                     ("achievement", PyDict [("trophyAchievementType", PyStr "Live")]);
                     ("counts", PyList (PyInt <$> [0; 2; 0; 0; 0; 0; 0; 0; 0]))]
                    [("trophyAchievementType", PyStr "Live")]
                    eq_refl)); [reflexivity|discriminate].
  - apply (proj2 (proj2 (categorize_cases sample_str
                    [("achievement",
                      PyDict [("trophyAchievementType", PyStr "SoloRanking")])]
                    [("trophyAchievementType", PyStr "SoloRanking")]
                    eq_refl))); [reflexivity|no_key].
Defined.

(** X4. On a payload [from_gain] builds a record from, [categorize]
    returns the record's [achievement_type] when that is not
    "SoloRanking"; when it is, whatever [categorize] returns differs from
    the record's [achievement_type]. *)
Theorem categorize_of_record (fromisoformat : string → option datetime)
    (py_str : pyobj → string) (gain_data : pyobj) (trophy : TrophyData) :
  from_gain fromisoformat gain_data = Ok trophy →
  (achievement_type trophy ≠ "SoloRanking" →
   categorize py_str gain_data = Ok (PyStr (achievement_type trophy))) ∧
  (achievement_type trophy = "SoloRanking" →
   ∀ label, categorize py_str gain_data = Ok label →
            label ≠ PyStr (achievement_type trophy)).
Proof.
  intros H.
  apply from_gain_Ok_inv in H
    as (achieve & counts & _ & Hachieve & Hty & _ & _ & ->).
  unfold categorize. rewrite Hachieve. simpl. rewrite Hty. simpl. split.
  - intros Hne. by rewrite decide_False.
  - intros Heq label. rewrite decide_True by done.
    intros Hlabel. apply bind_Ok in Hlabel as (sub & _ & [= <-]).
    rewrite Heq. by intros [=].
Qed.

Lemma categorize_of_record_witness :
  categorize sample_str live_gain = Ok (PyStr (achievement_type live_trophy)).
Proof.
  apply (proj1 (categorize_of_record sample_fromisoformat sample_str
                  live_gain live_trophy eq_refl)).
  discriminate.
Defined.

(** ** Points and digits *)

(** X5. When every tier count is a digit from 0 to 9, the point value is
    below 10^9 and its decimal digit at position [i] is [counts[i]]; so
    two such vectors with the same point value are the same vector. *)
Theorem sum_trophy_points_digits_back (counts : list Z) (points : Z) :
  Forall (λ c, 0 ≤ c ≤ 9) counts →
  _sum_trophy_points counts = Ok points →
  0 ≤ points < 10 ^ 9 ∧
  (∀ i c, counts !! i = Some c → (points / 10 ^ Z.of_nat i) `mod` 10 = c) ∧
  (∀ counts', Forall (λ c, 0 ≤ c ≤ 9) counts' →
              _sum_trophy_points counts' = Ok points → counts' = counts).
Proof.
  assert (∀ l p, Forall (λ c, 0 ≤ c ≤ 9) l → _sum_trophy_points l = Ok p →
                 0 ≤ p < 10 ^ 9 ∧
                 ∀ i c, l !! i = Some c → (p / 10 ^ Z.of_nat i) `mod` 10 = c)
    as Hdigits.
  { intros l p Hl Hp.
    destruct (decide (length l = 9%nat)) as [Hlen|Hlen];
      [|by rewrite sum_trophy_points_wrong_length in Hp].
    destruct (length_9_inv l Hlen)
      as (c0 & c1 & c2 & c3 & c4 & c5 & c6 & c7 & c8 & ->).
    rewrite sum_trophy_points_digits in Hp. injection Hp as <-.
    repeat (apply Forall_cons in Hl as [? Hl]).
    split; [lia|]. intros i c Hi.
    do 9 (destruct i as [|i];
          [injection Hi as <-;
           match goal with
           | |- context [10 ^ Z.of_nat ?k] =>
               let v := eval vm_compute in (10 ^ Z.of_nat k) in
               change (10 ^ Z.of_nat k) with v
           end;
           Z.div_mod_to_equations; lia|]).
    done. }
  intros Hcounts Hpoints. destruct (Hdigits _ _ Hcounts Hpoints) as [Hlt Hback].
  split; [done|]. split; [done|].
  intros counts' Hcounts' Hpoints'.
  destruct (Hdigits _ _ Hcounts' Hpoints') as [_ Hback'].
  assert (length counts = 9%nat) as Hlen.
  { destruct (decide (length counts = 9%nat)) as [|Hne]; [done|].
    by rewrite sum_trophy_points_wrong_length in Hpoints. }
  assert (length counts' = 9%nat) as Hlen'.
  { destruct (decide (length counts' = 9%nat)) as [|Hne]; [done|].
    by rewrite sum_trophy_points_wrong_length in Hpoints'. }
  apply list_eq_same_length with 9%nat; [done..|].
  intros i c' c _ Hc' Hc. by rewrite <-(Hback' i c' Hc'), <-(Hback i c Hc).
Qed.

Lemma sum_trophy_points_digits_back_witness :
  (1935 / 10 ^ Z.of_nat 2) `mod` 10 = 9.
Proof.
  assert (Forall (λ c, 0 ≤ c ≤ 9) [5; 3; 9; 1; 0; 0; 0; 0; 0]) as Hdigits.
  { repeat constructor; lia. }
  apply (proj1 (proj2 (sum_trophy_points_digits_back
                         [5; 3; 9; 1; 0; 0; 0; 0; 0] 1935 Hdigits eq_refl))
           2%nat 9 eq_refl).
Defined.

(** ** More on the fetcher *)

Section get_trophies_more.
Variable fromisoformat : string → option datetime.
Variable requests_get : string → nat → Response.
Variable player_id : string.

(** Successful pages on which the counts do not agree are passed over. *)
Lemma loop_passes_pages (total : nat → Z) (batch : nat → list TrophyData)
    (j : nat) :
  ∀ (start n : nat) (gains : list TrophyData) (log : list nat),
    (∀ i, (i < j)%nat →
       successful_page fromisoformat (requests_get player_id (start + i))
                       (total (start + i)%nat) (batch (start + i)%nat)) →
    (∀ i, (i < j)%nat →
       Z.of_nat (length (gains ++ concat (batch <$> seq start (S i))))
       ≠ total (start + i)%nat) →
    get_trophies_loop fromisoformat requests_get player_id
      (seq start (j + n)) gains log
    = get_trophies_loop fromisoformat requests_get player_id
        (seq (start + j) n) (gains ++ concat (batch <$> seq start j))
        (log ++ seq start j).
Proof.
  induction j as [|j IH]; intros start n gains log Hpages Hbefore.
  - simpl. by rewrite Nat.add_0_r, !app_nil_r.
  - cbn [Nat.add seq].
    rewrite (loop_successful_page _ _ _ _ _ _ _ (total start) (batch start)).
    + rewrite decide_False.
      * rewrite (IH (S start)).
        -- replace (S start + j)%nat with (start + S j)%nat by lia.
           f_equal; simpl; by rewrite <-app_assoc.
        -- intros i Hi. replace (S start + i)%nat with (start + S i)%nat by lia.
           apply Hpages. lia.
        -- intros i Hi. replace (S start + i)%nat with (start + S i)%nat by lia.
           specialize (Hbefore (S i)). rewrite <-app_assoc. apply Hbefore. lia.
      * specialize (Hbefore 0%nat). simpl in Hbefore.
        rewrite app_nil_r, Nat.add_0_r in Hbefore. apply Hbefore. lia.
    + specialize (Hpages 0%nat). rewrite Nat.add_0_r in Hpages.
      apply Hpages. lia.
Qed.

(** What a returned list is made of. *)
Lemma loop_Ok_inv (n : nat) :
  ∀ (start : nat) (gains : list TrophyData) (log : list nat)
    (gains' : list TrophyData),
    let fetch :=
      get_trophies_loop fromisoformat requests_get player_id
                        (seq start n) gains log in
    outcome fetch = Ok gains' →
    ∃ (m : nat) (batches : list (list TrophyData)),
      (m ≤ n)%nat ∧
      requested fetch = log ++ seq start m ∧
      Forall2 (λ page batch,
                 ok (requests_get player_id page) = true ∧
                 ∃ num_gains,
                   json (requests_get player_id page) ≫= page_batch fromisoformat
                   = Ok (num_gains, batch))
              (seq start m) batches ∧
      gains' = gains ++ concat batches ∧
      ((m < n)%nat →
       ∃ page num_gains,
         last (seq start m) = Some page ∧
         json (requests_get player_id page) ≫= (λ data, getitem data "total")
         = Ok num_gains ∧
         int_eq (Z.of_nat (length gains')) num_gains = true).
Proof.
  induction n as [|n IH]; intros start gains log gains'; simpl.
  { intros [= <-]. exists 0%nat, []. simpl.
    rewrite !app_nil_r. repeat split; [done|constructor|lia]. }
  destruct (ok (requests_get player_id start)) eqn:Hok; cbn [negb];
    [|by destruct (json (requests_get player_id start))].
  rewrite json_read_page.
  destruct (json (requests_get player_id start) ≫= page_batch fromisoformat)
    as [[num_gains batch]|e] eqn:Hbatch; simpl; [|done].
  destruct (int_eq _ num_gains) eqn:Hmatch; simpl.
  - intros [= <-]. exists 1%nat, [batch]. simpl. rewrite app_nil_r.
    repeat split; [lia|constructor; [eauto|constructor]|].
    intros _. exists start, num_gains. repeat split; [|done].
    apply bind_Ok in Hbatch as (data & -> & Hbatch). rewrite bind_Ok_l.
    unfold page_batch in Hbatch.
    apply bind_Ok in Hbatch as (v & Hv & Hbatch).
    apply bind_Ok in Hbatch as (entries & _ & Hbatch).
    apply bind_Ok in Hbatch as (b & _ & Hbatch). by simplify_eq.
  - intros Hout.
    destruct (IH (S start) (gains ++ batch) (log ++ [start]) gains' Hout)
      as (m & batches & Hm & Hlog & Hpages & -> & Hstop).
    exists (S m), (batch :: batches). simpl.
    rewrite <-!app_assoc in *. repeat split; [lia|done|constructor; eauto|].
    intros Hlt. destruct Hstop as (page & num_gains' & Hlast & Htotal & Heq); [lia|].
    exists page, num_gains'. repeat split; [|done..].
    destruct m as [|m]; [done|]. exact Hlast.
Qed.
End get_trophies_more.

(** X6. When the pages before page [k] succeed without the counts
    agreeing and page [k] is answered successfully but cannot be decoded,
    the fetch ends on page [k] with the exception of the decoding and
    returns nothing; a page without "total" is a [KeyError] on it, and so
    is one without "gains". *)
Theorem get_trophies_decode_failure
    (fromisoformat : string → option datetime)
    (requests_get : string → nat → Response)
    (player_id : string) (request_limit : nat) :
  (∀ total batch k e,
     (k < request_limit)%nat →
     (∀ p, (p < k)%nat →
        successful_page fromisoformat (requests_get player_id p)
                        (total p) (batch p)) →
     (∀ p, (p < k)%nat →
        Z.of_nat (length (batches_upto batch (S p))) ≠ total p) →
     ok (requests_get player_id k) = true →
     json (requests_get player_id k) ≫= page_batch fromisoformat = Err e →
     get_trophies fromisoformat requests_get player_id request_limit
     = mkFetch (seq 0 (S k)) (Err e)) ∧
  (∀ d, "total" ∉ d.*1 →
        page_batch fromisoformat (PyDict d) = Err (KeyError "total")) ∧
  (∀ d num_gains, dict_get d "total" = Ok num_gains → "gains" ∉ d.*1 →
        page_batch fromisoformat (PyDict d) = Err (KeyError "gains")).
Proof.
  split; [|split].
  - intros total batch k e Hk Hpages Hbefore Hok Hbatch. unfold get_trophies.
    replace request_limit with (k + S (request_limit - S k))%nat by lia.
    rewrite (loop_passes_pages _ _ _ total batch k 0); [|done..].
    cbn [seq get_trophies_loop]. rewrite Nat.add_0_l, Hok. cbn [negb].
    rewrite json_read_page, Hbatch. simpl.
    change (0%nat :: seq 1 k) with (seq 0 (S k)). by rewrite seq_S.
  - intros d Hkey. unfold page_batch. simpl.
    by rewrite (dict_get_missing d "total").
  - intros d num_gains Htotal Hkey. unfold page_batch. simpl.
    rewrite Htotal. simpl. by rewrite (dict_get_missing d "gains").
Qed.

Lemma get_trophies_decode_failure_witness :
  get_trophies sample_fromisoformat
    (λ _ page,
       match page with
       | 0%nat =>
           mkResponse true
             (Some (PyDict [("gains", PyList [live_gain]); ("total", PyInt 2)]))
       | _ => mkResponse true (Some (PyDict [("gains", PyList [live_gain])]))
       end)
    "player" 100
  = mkFetch [0%nat; 1%nat] (Err (KeyError "total")).
Proof.
  apply (proj1 (get_trophies_decode_failure sample_fromisoformat _ "player" 100)
           (λ _, 2) (λ _, [live_trophy]) 1%nat).
  - lia.
  - intros p Hp. destruct p as [|p]; [by split|lia].
  - intros p Hp. destruct p as [|p]; [simpl; lia|lia].
  - reflexivity.
  - reflexivity.
Defined.

(** X7. A list the fetcher returns is made of the decoded batches of the
    pages it requested, in the order of the pages, and every one of these
    pages was answered successfully. *)
Theorem get_trophies_gathers_requested
    (fromisoformat : string → option datetime)
    (requests_get : string → nat → Response)
    (player_id : string) (request_limit : nat) (gains : list TrophyData) :
  let fetch := get_trophies fromisoformat requests_get player_id request_limit in
  outcome fetch = Ok gains →
  ∃ batches,
    Forall2 (λ page batch,
               ok (requests_get player_id page) = true ∧
               ∃ num_gains,
                 json (requests_get player_id page) ≫= page_batch fromisoformat
                 = Ok (num_gains, batch))
            (requested fetch) batches ∧
    gains = concat batches.
Proof.
  intros fetch Hout.
  destruct (loop_Ok_inv fromisoformat requests_get player_id request_limit
              0 [] [] gains Hout) as (m & batches & _ & Hlog & Hpages & -> & _).
  exists batches. split; [|done]. unfold fetch, get_trophies.
  by rewrite Hlog.
Qed.

Lemma get_trophies_gathers_requested_witness :
  ∃ batches,
    Forall2 (λ page batch,
               ok (sample_provider "player" page) = true ∧
               ∃ num_gains,
                 json (sample_provider "player" page)
                 ≫= page_batch sample_fromisoformat
                 = Ok (num_gains, batch))
            [0%nat; 1%nat] batches ∧
    [solo_trophy; live_trophy; live_trophy] = concat batches.
Proof.
  apply (get_trophies_gathers_requested sample_fromisoformat sample_provider
           "player" 100 [solo_trophy; live_trophy; live_trophy]).
  reflexivity.
Defined.

(** X8. When the fetcher returns a list after fewer than [request_limit]
    requests, the length of the list equals the "total" of the last page
    it requested. *)
Theorem get_trophies_early_stop_total
    (fromisoformat : string → option datetime)
    (requests_get : string → nat → Response)
    (player_id : string) (request_limit : nat) (gains : list TrophyData) :
  let fetch := get_trophies fromisoformat requests_get player_id request_limit in
  outcome fetch = Ok gains →
  (length (requested fetch) < request_limit)%nat →
  ∃ page num_gains,
    last (requested fetch) = Some page ∧
    json (requests_get player_id page) ≫= (λ data, getitem data "total")
    = Ok num_gains ∧
    int_eq (Z.of_nat (length gains)) num_gains = true.
Proof.
  intros fetch Hout Hlen.
  destruct (loop_Ok_inv fromisoformat requests_get player_id request_limit
              0 [] [] gains Hout) as (m & batches & _ & Hlog & _ & _ & Hstop).
  fold (get_trophies fromisoformat requests_get player_id request_limit) in Hlog.
  fold fetch in Hlog. simpl in Hlog. rewrite Hlog in *.
  rewrite length_seq in Hlen. by apply Hstop.
Qed.

Lemma get_trophies_early_stop_total_witness :
  ∃ page num_gains,
    last [0%nat; 1%nat] = Some page ∧
    json (sample_provider "player" page) ≫= (λ data, getitem data "total")
    = Ok num_gains ∧
    int_eq (Z.of_nat (length [solo_trophy; live_trophy; live_trophy])) num_gains
    = true.
Proof.
  apply (get_trophies_early_stop_total sample_fromisoformat sample_provider
           "player" 100 [solo_trophy; live_trophy; live_trophy]).
  - reflexivity.
  - simpl. lia.
Defined.

(** ** Sums and running sums *)

Lemma Zsum_app (l1 l2 : list Z) : Zsum (l1 ++ l2) = Zsum l1 + Zsum l2.
Proof.
  unfold Zsum. induction l1 as [|z l1 IH]; simpl; [done|]. rewrite IH. lia.
Qed.

Lemma Zsum_Permutation (l1 l2 : list Z) : l1 ≡ₚ l2 → Zsum l1 = Zsum l2.
Proof.
  unfold Zsum. induction 1; simpl; lia.
Qed.

Lemma Zsum_nonneg (l : list Z) : Forall (λ z, 0 ≤ z) l → 0 ≤ Zsum l.
Proof.
  unfold Zsum. induction 1 as [|z l Hz Hl IH]; simpl; lia.
Qed.

Lemma running_sum_prefix (l : list Z) :
  running_sum l = (λ i, Zsum (take (S i) l)) <$> seq 0 (length l).
Proof.
  apply list_eq. intros i. rewrite list_lookup_fmap.
  destruct (decide (i < length l)%nat) as [Hi|Hi].
  - unfold running_sum. rewrite cumsum_from_lookup by done.
    by rewrite lookup_seq_lt by done.
  - rewrite !(lookup_ge_None_2); [done| |].
    + rewrite length_seq. lia.
    + unfold running_sum. rewrite cumsum_from_length. lia.
Qed.

Lemma running_sum_last (l : list Z) :
  l ≠ [] → last (running_sum l) = Some (Zsum l).
Proof.
  intros Hl. rewrite running_sum_prefix.
  destruct (length l) as [|n] eqn:Hlen; [by destruct l|].
  rewrite seq_S, fmap_app.
  change ((λ i, Zsum (take (S i) l)) <$> [(0 + n)%nat])
    with [Zsum (take (S n) l)].
  rewrite last_snoc. by rewrite take_ge by lia.
Qed.

Lemma np_cumsum_last (l : list Z) :
  l ≠ [] → last (np_cumsum l) = Some (wrap_int64 (Zsum l)).
Proof.
  intros Hl. rewrite np_cumsum_wrap, fmap_last.
  by rewrite running_sum_last.
Qed.

Lemma cumsum_from_nonneg (acc : Z) (l : list Z) :
  Forall (λ z, 0 ≤ z) l →
  StronglySorted Z.le (cumsum_from acc l) ∧
  Forall (λ v, acc ≤ v ≤ acc + Zsum l) (cumsum_from acc l).
Proof.
  intros Hl. revert acc. induction Hl as [|z l Hz Hl IH]; intros acc; simpl.
  { split; constructor. }
  destruct (IH (acc + z)) as [Hsorted Hge].
  pose proof (Zsum_nonneg l Hl) as Hsum. unfold Zsum in *. split.
  - constructor; [done|]. eapply Forall_impl; [exact Hge|]. simpl. lia.
  - constructor; [lia|]. eapply Forall_impl; [exact Hge|]. simpl. lia.
Qed.

(** Where no running sum leaves the int64 range, the int64 accumulation
    is exact. *)
Lemma np_cumsum_exact (l : list Z) :
  Forall fits_int64 (running_sum l) → np_cumsum l = running_sum l.
Proof.
  intros Hfits. rewrite np_cumsum_wrap.
  induction Hfits as [|v vs Hv Hvs IH]; [done|].
  by rewrite fmap_cons, wrap_int64_fits, IH.
Qed.

(** ** More on the cumulative reducer *)

(** X9. For two lists of one player that are permutations of each other,
    with counts that fit in 64 bits, the cumulative series have the same
    x values and the same last y value: the sum of all the counts as the
    int64 accumulation of [np.cumsum] holds it, which is the sum itself
    when that fits in 64 bits. Only the y values before the last can
    depend on the order of the input. *)
Theorem cumulative_permutation_x_total (player : string)
    (trophies1 trophies2 : list TrophyData) :
  trophies1 ≡ₚ trophies2 →
  Forall (λ r, fits_int64 (count r)) trophies1 →
  ∃ x y1 y2,
    cumulative_trace player trophies1 = Scatter x y1 (Some player) ∧
    cumulative_trace player trophies2 = Scatter x y2 (Some player) ∧
    length y1 = length y2 ∧
    last y1 = last y2 ∧
    (trophies1 ≠ [] →
     last y1 = Some (wrap_int64 (Zsum (count <$> trophies1))) ∧
     (fits_int64 (Zsum (count <$> trophies1)) →
      last y1 = Some (Zsum (count <$> trophies1)))).
Proof.
  intros Hperm _. unfold cumulative_trace. simpl.
  exists (timestamp <$> sorted timestamp trophies1),
         (np_cumsum (count <$> sorted timestamp trophies1)),
         (np_cumsum (count <$> sorted timestamp trophies2)).
  assert (∀ l, l ≠ [] →
            last (np_cumsum (count <$> sorted timestamp l))
            = Some (wrap_int64 (Zsum (count <$> l)))) as Hlast.
  { intros l Hl. rewrite np_cumsum_last.
    - do 2 f_equal. apply Zsum_Permutation. by rewrite sorted_Permutation.
    - intros Hnil. apply fmap_nil_inv in Hnil.
      apply Hl, Permutation_nil_r. by rewrite <-Hnil, sorted_Permutation. }
  split; [done|]. split; [|split; [|split]].
  - f_equal.
    rewrite !(sorted_fmap timestamp timestamp id) by done.
    apply sorted_Permutation_eq; [by rewrite Hperm|done].
  - by rewrite !np_cumsum_length, !length_fmap, !sorted_Permutation, Hperm.
  - destruct trophies1 as [|r l1].
    + apply Permutation_nil_l in Hperm. by subst trophies2.
    + rewrite !Hlast;
        [|intros ->; by apply Permutation_nil_r in Hperm|done].
      do 2 f_equal. apply Zsum_Permutation. by rewrite Hperm.
  - intros Hne. rewrite Hlast by done. split; [done|].
    intros Hfits. by rewrite wrap_int64_fits.
Qed.

Lemma cumulative_permutation_x_total_witness :
  ∃ x y1 y2,
    cumulative_trace "jmal" [trophy_at 1 3; trophy_at 1 5]
    = Scatter x y1 (Some "jmal") ∧
    cumulative_trace "jmal" [trophy_at 1 5; trophy_at 1 3]
    = Scatter x y2 (Some "jmal") ∧
    length y1 = length y2 ∧
    last y1 = last y2 ∧
    ([trophy_at 1 3; trophy_at 1 5] ≠ [] →
     last y1
     = Some (wrap_int64 (Zsum (count <$> [trophy_at 1 3; trophy_at 1 5]))) ∧
     (fits_int64 (Zsum (count <$> [trophy_at 1 3; trophy_at 1 5])) →
      last y1 = Some (Zsum (count <$> [trophy_at 1 3; trophy_at 1 5])))).
Proof.
  apply (cumulative_permutation_x_total "jmal"
           [trophy_at 1 3; trophy_at 1 5] [trophy_at 1 5; trophy_at 1 3]).
  - apply Permutation_swap.
  - repeat constructor; simpl; lia.
Defined.

(** X10. When no record has a negative count and the sum of all the
    counts fits in 64 bits, the y values of the cumulative series are the
    exact running sums: they never decrease and none is negative. *)
Theorem cumulative_nondecreasing (player : string)
    (trophies : list TrophyData) :
  Forall (λ r, 0 ≤ count r) trophies →
  fits_int64 (Zsum (count <$> trophies)) →
  ∃ x y,
    cumulative_trace player trophies = Scatter x y (Some player) ∧
    y = running_sum (count <$> sorted timestamp trophies) ∧
    StronglySorted Z.le y ∧
    Forall (λ v, 0 ≤ v) y.
Proof.
  intros Hcounts Hfits. unfold cumulative_trace. simpl. do 2 eexists.
  split; [done|].
  assert (Forall (λ z, 0 ≤ z) (count <$> sorted timestamp trophies)) as Hnonneg.
  { apply Forall_fmap. by rewrite sorted_Permutation. }
  assert (Zsum (count <$> sorted timestamp trophies)
          = Zsum (count <$> trophies)) as Hsum.
  { apply Zsum_Permutation. by rewrite sorted_Permutation. }
  destruct (cumsum_from_nonneg 0 _ Hnonneg) as [Hsorted Hbounds].
  rewrite Hsum in Hbounds.
  rewrite np_cumsum_exact.
  - split; [done|]. split; [done|].
    eapply Forall_impl; [exact Hbounds|]. simpl. lia.
  - eapply Forall_impl; [exact Hbounds|]. simpl.
    unfold fits_int64 in *. lia.
Qed.

Lemma cumulative_nondecreasing_witness :
  ∃ x y,
    cumulative_trace "jmal" [trophy_at 20 5; trophy_at 10 3]
    = Scatter x y (Some "jmal") ∧
    y = running_sum (count <$> sorted timestamp [trophy_at 20 5; trophy_at 10 3]) ∧
    StronglySorted Z.le y ∧
    Forall (λ v, 0 ≤ v) y.
Proof.
  apply (cumulative_nondecreasing "jmal" [trophy_at 20 5; trophy_at 10 3]).
  - repeat constructor; simpl; lia.
  - unfold fits_int64. simpl. lia.
Defined.

(** ** More on the head-to-head reducer *)

Lemma side_total_tagged (player side : nat) (l : list TrophyData) :
  side_total side ((λ trophy, (player, trophy)) <$> l)
  = if decide (player = side) then Zsum (count <$> l) else 0.
Proof.
  induction l as [|r l IH]; [by case_decide|].
  rewrite !fmap_cons, side_total_cons, IH. simpl.
  case_decide; reflexivity.
Qed.

Lemma side_total_merged (l1 l2 : list TrophyData) :
  side_total 0 (merged_events l1 l2) = Zsum (count <$> l1) ∧
  side_total 1 (merged_events l1 l2) = Zsum (count <$> l2).
Proof.
  destruct (merged_events_side l1 l2) as [H1 H2]. unfold side_total.
  split.
  - rewrite <-H1 at 2. by rewrite <-list_fmap_compose.
  - rewrite <-H2 at 2. by rewrite <-list_fmap_compose.
Qed.

Lemma merged_events_length (l1 l2 : list TrophyData) :
  length (merged_events l1 l2) = (length l1 + length l2)%nat.
Proof.
  unfold merged_events.
  by rewrite heapq_merge_Permutation, length_app, !length_fmap.
Qed.

(** X11. Whatever the order of the two lists, the head-to-head series has
    one point per record of either player, its timestamps are those of
    the records, and its last delta is the first player's total minus the
    second player's. *)
Theorem race_length_and_final (l1 l2 : list TrophyData) :
  length (t (race l1 l2)) = (length l1 + length l2)%nat ∧
  length (deltas (race l1 l2)) = (length l1 + length l2)%nat ∧
  t (race l1 l2) ≡ₚ timestamp <$> (l1 ++ l2) ∧
  (l1 ++ l2 ≠ [] →
   last (deltas (race l1 l2))
   = Some (Zsum (count <$> l1) - Zsum (count <$> l2))).
Proof.
  destruct (race_series l1 l2) as [Ht Hd]. rewrite Ht, Hd.
  rewrite !length_fmap, length_seq, merged_events_length.
  split; [done|]. split; [done|]. split.
  - unfold merged_events. rewrite heapq_merge_Permutation.
    by rewrite !fmap_app, <-!list_fmap_compose.
  - intros Hne.
    destruct (length l1 + length l2)%nat as [|n] eqn:Hlen.
    { destruct l1, l2; simpl in *; done || lia. }
    rewrite seq_S, fmap_app, list_fmap_singleton, last_snoc. f_equal.
    unfold delta_at. simpl.
    rewrite !take_ge by (rewrite merged_events_length; lia).
    by destruct (side_total_merged l1 l2) as [-> ->].
Qed.

Lemma plot_race_KeyError (player_trophies : list (string * list TrophyData))
    (player1 player2 : string) :
  (player1 ∉ player_trophies.*1 →
   plot_race player_trophies player1 player2 = Err (KeyError player1)) ∧
  (player1 ∈ player_trophies.*1 → player2 ∉ player_trophies.*1 →
   plot_race player_trophies player1 player2 = Err (KeyError player2)).
Proof.
  unfold plot_race. split.
  - intros H1. by rewrite (dict_get_missing _ player1) by done.
  - intros [l1 Hl1]%dict_get_elem_of H2. rewrite Hl1. simpl.
    by rewrite (dict_get_missing _ player2) by done.
Qed.

(** X12. [plot_race] raises a [KeyError] on the first player when the
    first player is not in the dict, and on the second when only the
    second is missing. *)
Theorem plot_race_missing_player
    (player_trophies : list (string * list TrophyData))
    (player1 player2 : string) :
  (player1 ∉ player_trophies.*1 →
   plot_race player_trophies player1 player2 = Err (KeyError player1)) ∧
  (player1 ∈ player_trophies.*1 → player2 ∉ player_trophies.*1 →
   plot_race player_trophies player1 player2 = Err (KeyError player2)).
Proof.
  unfold plot_race. split.
  - intros H1. by rewrite (dict_get_missing _ player1) by done.
  - intros H1 H2.
    destruct (dict_get player_trophies player1) as [l1|e] eqn:Hl1.
    + simpl. by rewrite (dict_get_missing _ player2) by done.
    + by apply dict_get_Err_inv in Hl1 as [_ Hl1].
Qed.

Lemma plot_race_missing_player_witness :
  plot_race [("jmal", [trophy_at 10 5])] "sampleses" "jmal"
  = Err (KeyError "sampleses") ∧
  plot_race [("jmal", [trophy_at 10 5])] "jmal" "sampleses"
  = Err (KeyError "sampleses").
Proof.
  split.
  - apply (proj1 (plot_race_missing_player [("jmal", [trophy_at 10 5])]
                    "sampleses" "jmal")). no_key.
  - apply (proj2 (plot_race_missing_player [("jmal", [trophy_at 10 5])]
                    "jmal" "sampleses")); [|no_key].
    simpl. apply list_elem_of_here.
Defined.

Lemma merged_events_nil (l : list TrophyData) :
  merged_events l [] = (λ trophy, (0%nat, trophy)) <$> l ∧
  merged_events [] l = (λ trophy, (1%nat, trophy)) <$> l.
Proof.
  unfold merged_events. split.
  - apply heapq_merge_nil_r.
  - apply heapq_merge_nil_l.
Qed.

(** X13. Against a player without records the deltas are the running sum
    of the counts in the order of the list, the list being taken as it is;
    for the second player against an empty first one they are the negated
    running sum. These sums are kept in Python ints: they are exact. *)
Theorem race_against_empty (l : list TrophyData) :
  t (race l []) = timestamp <$> l ∧
  deltas (race l []) = running_sum (count <$> l) ∧
  t (race [] l) = timestamp <$> l ∧
  deltas (race [] l) = Z.opp <$> running_sum (count <$> l).
Proof.
  assert (∀ player,
            (λ v : nat * TrophyData, timestamp v.2)
              <$> ((λ trophy, (player, trophy)) <$> l)
            = timestamp <$> l) as Hts.
  { intros player. by rewrite <-list_fmap_compose. }
  assert (∀ player i,
            side_total player (take (S i) ((λ trophy, (0%nat, trophy)) <$> l))
            = if decide (0%nat = player)
              then Zsum (take (S i) (count <$> l)) else 0) as H0.
  { intros player i. by rewrite <-!fmap_take, side_total_tagged. }
  assert (∀ player i,
            side_total player (take (S i) ((λ trophy, (1%nat, trophy)) <$> l))
            = if decide (1%nat = player)
              then Zsum (take (S i) (count <$> l)) else 0) as H1.
  { intros player i. by rewrite <-!fmap_take, side_total_tagged. }
  destruct (race_series l []) as [Ht Hd]. destruct (race_series [] l) as [Ht' Hd'].
  cbv zeta in Ht, Hd, Ht', Hd'.
  rewrite (proj1 (merged_events_nil l)) in Ht, Hd.
  rewrite (proj2 (merged_events_nil l)) in Ht', Hd'.
  rewrite Ht, Hd, Ht', Hd', !Hts, !length_fmap.
  rewrite running_sum_prefix, length_fmap, <-list_fmap_compose.
  repeat split; apply list_fmap_ext; intros _ i _; unfold delta_at; simpl.
  - rewrite !H0. simpl. lia.
  - rewrite !H1. simpl. lia.
Qed.

Lemma race_length_and_final_witness :
  last (deltas (race [trophy_at 30 5; trophy_at 10 2] [trophy_at 20 4]))
  = Some (Zsum (count <$> [trophy_at 30 5; trophy_at 10 2])
          - Zsum (count <$> [trophy_at 20 4])).
Proof.
  apply (proj2 (proj2 (proj2
           (race_length_and_final [trophy_at 30 5; trophy_at 10 2] [trophy_at 20 4])))).
  discriminate.
Defined.

(** ** More on the categorized reducer *)

Lemma category_total_Permutation (cat : string) (start_date : datetime)
    (trophies1 trophies2 : list TrophyData) :
  trophies1 ≡ₚ trophies2 →
  category_total cat start_date trophies1 = category_total cat start_date trophies2.
Proof.
  intros Hperm. unfold category_total. apply Zsum_Permutation.
  by rewrite Hperm.
Qed.

Lemma categorized_trace_Permutation (categories : list string)
    (player : string) (trophies1 trophies2 : list TrophyData)
    (start_date : datetime) :
  trophies1 ≡ₚ trophies2 →
  categorized_trace categories player trophies1 start_date
  = categorized_trace categories player trophies2 start_date.
Proof.
  intros Hperm. rewrite !categorized_trace_totals. f_equal.
  apply list_fmap_ext. intros _ cat _. by apply category_total_Permutation.
Qed.

(** X14. The categorized figure does not depend on the order of the
    records of any player: two inputs with the same players in the same
    order, whose record lists are permutations of each other, give the
    same figure. *)
Theorem categorized_permutation_invariant (categories : list string)
    (player_trophies1 player_trophies2 : list (string * list TrophyData))
    (start_date : datetime) :
  Forall2 (λ pt1 pt2, pt1.1 = pt2.1 ∧ pt1.2 ≡ₚ pt2.2)
          player_trophies1 player_trophies2 →
  plot_categorized_trophies categories player_trophies1 start_date
  = plot_categorized_trophies categories player_trophies2 start_date.
Proof.
  intros H. unfold plot_categorized_trophies. generalize new_figure.
  induction H as [|[p1 l1] [p2 l2] d1 d2 [Hp Hperm] _ IH];
    intros fig; simpl in *; [done|].
  subst p2. by rewrite (categorized_trace_Permutation _ p1 l1 l2), IH.
Qed.

Lemma categorized_permutation_invariant_witness :
  plot_categorized_trophies ["Live"; "SoloRanking"]
    [("jmal", [trophy_of 30 "Live" 4; trophy_of 40 "SoloRanking" 9])] 20
  = plot_categorized_trophies ["Live"; "SoloRanking"]
      [("jmal", [trophy_of 40 "SoloRanking" 9; trophy_of 30 "Live" 4])] 20.
Proof.
  apply categorized_permutation_invariant.
  constructor; [|constructor]. split; [reflexivity|apply Permutation_swap].
Defined.

Lemma Zsum_indicator (cat : string) (v : Z) (categories : list string) :
  NoDup categories →
  Zsum ((λ c, if decide (cat = c) then v else 0) <$> categories)
  = if decide (cat ∈ categories) then v else 0.
Proof.
  induction 1 as [|c categories Hc Hnodup IH].
  { by rewrite decide_False by apply not_elem_of_nil. }
  rewrite fmap_cons. unfold Zsum in *. cbn [foldr]. rewrite IH.
  destruct (decide (cat = c)) as [->|Hne].
  - rewrite decide_False by done. rewrite decide_True by apply list_elem_of_here. lia.
  - destruct (decide (cat ∈ categories)) as [Hin|Hnin].
    + rewrite decide_True by (by right). lia.
    + rewrite decide_False; [lia|]. by intros [?|?]%elem_of_cons.
Qed.

Lemma category_totals_sum (categories : list string) (start_date : datetime)
    (trophies : list TrophyData) :
  NoDup categories →
  (∀ r, r ∈ trophies → start_date ≤ timestamp r →
        achievement_type r ∈ categories) →
  Zsum ((λ cat, category_total cat start_date trophies) <$> categories)
  = Zsum (count <$> filter (λ r, start_date ≤ timestamp r) trophies).
Proof.
  intros Hnodup. induction trophies as [|r trophies IH]; intros Hcover.
  { unfold category_total. simpl.
    clear. induction categories as [|c cs IH]; [done|].
    rewrite fmap_cons. unfold Zsum in *. cbn [foldr]. rewrite IH. done. }
  assert (Zsum ((λ cat, category_total cat start_date (r :: trophies)) <$> categories)
          = Zsum ((λ c, if decide (achievement_type r = c)
                        then (if decide (start_date ≤ timestamp r)
                              then count r else 0)
                        else 0) <$> categories)
            + Zsum ((λ cat, category_total cat start_date trophies) <$> categories))
    as ->.
  { clear. induction categories as [|c cs IH]; [done|].
    rewrite !fmap_cons. unfold Zsum in *. cbn [foldr]. rewrite IH.
    unfold category_total at 1 3. rewrite filter_cons.
    destruct (decide (achievement_type r = c)) as [Hc|Hc],
             (decide (start_date ≤ timestamp r)) as [Hr|Hr].
    1: rewrite decide_True by done; rewrite fmap_cons; unfold Zsum;
       cbn [foldr]; lia.
    all: rewrite decide_False by (by intros [? ?]); unfold Zsum; lia. }
  rewrite IH, Zsum_indicator by (done || (intros; apply Hcover; [by right|done])).
  rewrite filter_cons. destruct (decide (start_date ≤ timestamp r)) as [Hr|Hr].
  - rewrite decide_True by (apply Hcover; [by left|done]).
    rewrite fmap_cons. unfold Zsum. cbn [foldr]. lia.
  - case_decide; lia.
Qed.

(** X15. When the category list has no duplicate and holds the category of
    every record of the player at or after the cutoff, the values of the
    player's bars add up to the sum of the counts of these records. *)
Theorem categorized_bars_sum (categories : list string) (player : string)
    (trophies : list TrophyData) (start_date : datetime) :
  NoDup categories →
  (∀ r, r ∈ trophies → start_date ≤ timestamp r →
        achievement_type r ∈ categories) →
  ∃ ys,
    categorized_trace categories player trophies start_date
    = Bar player categories ys ∧
    Zsum ys = Zsum (count <$> filter (λ r, start_date ≤ timestamp r) trophies).
Proof.
  intros Hnodup Hcover. eexists. split; [apply categorized_trace_totals|].
  by apply category_totals_sum.
Qed.

Lemma categorized_bars_sum_witness :
  ∃ ys,
    categorized_trace ["Live"; "SoloRanking"] "jmal"
      [trophy_of 30 "Live" 4; trophy_of 10 "Solo" 9; trophy_of 40 "Live" 2] 20
    = Bar "jmal" ["Live"; "SoloRanking"] ys ∧
    Zsum ys
    = Zsum (count <$> filter (λ r, 20 ≤ timestamp r)
              [trophy_of 30 "Live" 4; trophy_of 10 "Solo" 9; trophy_of 40 "Live" 2]).
Proof.
  apply categorized_bars_sum.
  - apply NoDup_cons. split; [no_key|]. apply NoDup_cons. split; [no_key|].
    apply NoDup_nil_2.
  - intros r Hr Hts. apply list_elem_of_In in Hr. simpl in Hr.
    destruct Hr as [<-|[<-|[<-|[]]]]; simpl in *;
      [apply list_elem_of_here|lia|apply list_elem_of_here].
Defined.

(** ** The order of records *)

Lemma StronglySorted_lookup {A} (R : relation A) (l : list A) (i j : nat)
    (a b : A) :
  StronglySorted R l → (i < j)%nat →
  l !! i = Some a → l !! j = Some b → R a b.
Proof.
  intros Hsorted. revert i j.
  induction Hsorted as [|x l Hl IH Hx]; intros i j Hij Ha Hb; [done|].
  destruct j as [|j]; [lia|]. destruct i as [|i]; simpl in *.
  - injection Ha as <-. rewrite Forall_forall in Hx.
    apply Hx. by eapply list_elem_of_lookup_2.
  - apply (IH i j); [lia|done..].
Qed.

(** X16. [__lt__] compares the timestamps alone: it is irreflexive and
    transitive, two records of one timestamp are not comparable either
    way, and in a list sorted on the timestamp no record is less than a
    record before it. *)
Theorem TrophyData_lt_order :
  (∀ a, TrophyData_lt a a = false) ∧
  (∀ a b c, TrophyData_lt a b = true → TrophyData_lt b c = true →
            TrophyData_lt a c = true) ∧
  (∀ a b, timestamp a = timestamp b →
          TrophyData_lt a b = false ∧ TrophyData_lt b a = false) ∧
  (∀ trophies i j a b, (i < j)%nat →
     sorted timestamp trophies !! i = Some a →
     sorted timestamp trophies !! j = Some b →
     TrophyData_lt b a = false).
Proof.
  unfold TrophyData_lt. repeat split.
  - intros a. apply bool_decide_eq_false. lia.
  - intros a b c Hab%bool_decide_eq_true Hbc%bool_decide_eq_true.
    apply bool_decide_eq_true. lia.
  - apply bool_decide_eq_false. lia.
  - apply bool_decide_eq_false. lia.
  - intros trophies i j a b Hij Ha Hb. apply bool_decide_eq_false.
    pose proof (StronglySorted_lookup _ _ i j a b
                  (sorted_StronglySorted timestamp trophies) Hij Ha Hb) as Hle.
    unfold key_le in Hle. lia.
Qed.

Lemma TrophyData_lt_order_witness :
  TrophyData_lt (trophy_at 10 3) (trophy_at 30 5) = true ∧
  TrophyData_lt (trophy_at 20 5) (trophy_at 10 3) = false.
Proof.
  split.
  - apply (proj1 (proj2 TrophyData_lt_order)
             (trophy_at 10 3) (trophy_at 20 4) (trophy_at 30 5)); reflexivity.
  - apply (proj2 (proj2 (proj2 TrophyData_lt_order))
             [trophy_at 20 5; trophy_at 10 3] 0%nat 1%nat
             (trophy_at 10 3) (trophy_at 20 5)); [lia|reflexivity..].
Defined.

(** ** [plot_trophies] *)

Lemma sorted_idemp {A} (key : A → Z) (l : list A) :
  sorted key (sorted key l) = sorted key l.
Proof. apply sorted_id, sorted_StronglySorted. Qed.

Lemma plot_cumulative_trophies_sorted
    (player_trophies : list (string * list TrophyData)) :
  plot_cumulative_trophies
    ((λ '(player, trophies), (player, sorted timestamp trophies))
     <$> player_trophies)
  = plot_cumulative_trophies player_trophies.
Proof.
  unfold plot_cumulative_trophies. generalize new_figure.
  induction player_trophies as [|[player trophies] d IH]; intros fig; simpl;
    [done|].
  rewrite IH. unfold cumulative_trace. by rewrite sorted_idemp.
Qed.

Lemma plot_categorized_trophies_sorted (categories : list string)
    (player_trophies : list (string * list TrophyData)) (start_date : datetime) :
  plot_categorized_trophies categories
    ((λ '(player, trophies), (player, sorted timestamp trophies))
     <$> player_trophies) start_date
  = plot_categorized_trophies categories player_trophies start_date.
Proof.
  unfold plot_categorized_trophies. generalize new_figure.
  induction player_trophies as [|[player trophies] d IH]; intros fig; simpl;
    [done|].
  rewrite IH.
  by rewrite (categorized_trace_Permutation _ _ (sorted timestamp trophies)
                trophies) by apply sorted_Permutation.
Qed.

Lemma elem_of_all_categories_from
    (player_trophies : list (string * list TrophyData))
    (categories : gset string) (cat : string) :
  cat ∈ fold_left
          (λ categories '(_, player_results),
             categories ∪ list_to_set (achievement_type <$> player_results))
          player_trophies categories
  ↔ cat ∈ categories ∨
    ∃ player trophies r,
      (player, trophies) ∈ player_trophies ∧ r ∈ trophies ∧
      achievement_type r = cat.
Proof.
  revert categories.
  induction player_trophies as [|[player trophies] d IH]; intros categories;
    simpl.
  - split; [by left|]. intros [?|(p & l & r & []%elem_of_nil & _)]; done.
  - rewrite IH, elem_of_union, elem_of_list_to_set, list_elem_of_fmap. split.
    + intros [[?|(r & -> & Hr)]|(p & l & r & Hd & Hr & <-)].
      * by left.
      * right. exists player, trophies, r. split; [by left|done].
      * right. exists p, l, r. split; [by right|done].
    + intros [?|(p & l & r & Hd & Hr & <-)]; [by left; left|].
      apply elem_of_cons in Hd as [[= -> ->]|Hd].
      * left. right. by exists r.
      * right. by exists p, l, r.
Qed.

Lemma elem_of_all_categories
    (player_trophies : list (string * list TrophyData)) (cat : string) :
  cat ∈ all_categories player_trophies
  ↔ ∃ player trophies r,
      (player, trophies) ∈ player_trophies ∧ r ∈ trophies ∧
      achievement_type r = cat.
Proof.
  unfold all_categories. rewrite elem_of_all_categories_from.
  split; [|by right]. by intros [[]%not_elem_of_empty|?].
Qed.

Lemma chronological_keys (player_trophies : list (string * list TrophyData)) :
  ((λ '(player, trophies), (player, sorted timestamp trophies))
   <$> player_trophies).*1
  = player_trophies.*1.
Proof.
  rewrite <-list_fmap_compose. apply list_fmap_ext. by intros _ [? ?] _.
Qed.

Lemma race_timestamps_ascend (l1 l2 : list TrophyData) :
  StronglySorted (key_le timestamp) l1 →
  StronglySorted (key_le timestamp) l2 →
  StronglySorted Z.le (t (race l1 l2)).
Proof.
  intros H1 H2. rewrite (proj1 (race_series l1 l2)). cbv zeta.
  rewrite merged_events_sorted by done.
  eapply StronglySorted_fmap; [|apply sorted_StronglySorted]. done.
Qed.

(** X17. [plot_trophies] looks the two fixed players up before it reads
    the plot settings: without a player "jmal" it raises a [KeyError] on
    "jmal", with "jmal" but without "sampleses" one on "sampleses",
    whatever the settings are; with both players and settings that have
    no "categorized" entry it raises a [KeyError] on "categorized". *)
Theorem plot_trophies_exceptions (fromisoformat : string → option datetime)
    (has_tzinfo : string → bool) (list_of_set : gset string → list string)
    (player_trophies : list (string * list TrophyData)) (plot_args : pyobj) :
  ("jmal" ∉ player_trophies.*1 →
   plot_trophies fromisoformat has_tzinfo list_of_set player_trophies plot_args
   = Err (KeyError "jmal")) ∧
  ("jmal" ∈ player_trophies.*1 → "sampleses" ∉ player_trophies.*1 →
   plot_trophies fromisoformat has_tzinfo list_of_set player_trophies plot_args
   = Err (KeyError "sampleses")) ∧
  ("jmal" ∈ player_trophies.*1 → "sampleses" ∈ player_trophies.*1 →
   ∀ settings, plot_args = PyDict settings → "categorized" ∉ settings.*1 →
   plot_trophies fromisoformat has_tzinfo list_of_set player_trophies plot_args
   = Err (KeyError "categorized")).
Proof.
  unfold plot_trophies. cbv zeta.
  pose proof (plot_race_KeyError
                ((λ '(player, trophies), (player, sorted timestamp trophies))
                 <$> player_trophies) "jmal" "sampleses") as [Hp1 Hp2].
  rewrite chronological_keys in Hp1, Hp2. split; [|split].
  - intros H1. by rewrite Hp1.
  - intros H1 H2. by rewrite Hp2.
  - intros H1 H2 settings -> Hkey.
    rewrite <-chronological_keys in H1, H2.
    apply dict_get_elem_of in H1 as [l1 Hl1], H2 as [l2 Hl2].
    unfold plot_race. rewrite Hl1, Hl2. simpl.
    by rewrite (dict_get_missing settings "categorized").
Qed.

Lemma plot_trophies_exceptions_witness :
  plot_trophies sample_fromisoformat (λ _, true) elements
    [("sampleses", [live_trophy])] (PyDict [])
  = Err (KeyError "jmal") ∧
  plot_trophies sample_fromisoformat (λ _, true) elements
    [("jmal", [live_trophy])] (PyDict [])
  = Err (KeyError "sampleses") ∧
  plot_trophies sample_fromisoformat (λ _, true) elements
    [("jmal", [live_trophy]); ("sampleses", [])] (PyDict [])
  = Err (KeyError "categorized").
Proof.
  split; [|split].
  - apply (proj1 (plot_trophies_exceptions
                    sample_fromisoformat (λ _, true) elements
                    [("sampleses", [live_trophy])] (PyDict []))). no_key.
  - apply (proj1 (proj2 (plot_trophies_exceptions
                    sample_fromisoformat (λ _, true) elements
                    [("jmal", [live_trophy])] (PyDict [])))); [|no_key].
    simpl. apply list_elem_of_here.
  - apply (proj2 (proj2 (plot_trophies_exceptions
                    sample_fromisoformat (λ _, true) elements
                    [("jmal", [live_trophy]); ("sampleses", [])] (PyDict [])))
             ltac:(simpl; apply list_elem_of_here)
             ltac:(simpl; apply list_elem_of_further, list_elem_of_here)
             [] eq_refl).
    no_key.
Defined.

(** Some player has a record: the comparison with the cutoff is made. *)
Lemma cutoff_compared (player_trophies : list (string * list TrophyData)) :
  (∃ player trophies, (player, trophies) ∈ player_trophies ∧ trophies ≠ []) →
  forallb (λ pt : string * list TrophyData, bool_decide (length pt.2 = 0%nat))
          ((λ '(player, trophies), (player, sorted timestamp trophies))
           <$> player_trophies)
  = false.
Proof.
  induction player_trophies as [|[p l] d IH].
  { by intros (? & ? & []%elem_of_nil & _). }
  rewrite fmap_cons. cbn [forallb].
  intros (player & trophies & [Heq|Hin]%elem_of_cons & Hne).
  - injection Heq as <- <-. rewrite bool_decide_false; [done|]. cbn [snd].
    rewrite (Permutation_length (sorted_Permutation timestamp trophies)).
    by destruct trophies.
  - rewrite IH by eauto. apply andb_false_r.
Qed.

(** X18. With both fixed players there and a cutoff that parses to a
    time with a UTC offset, [plot_trophies] returns the figures
    "cumulative", "john_v_marc" and "categorized", in this order. Sorting
    the records first changes neither the cumulative nor the categorized
    figure: they are the figures of the lists as given. The head-to-head
    figure is that of the two sorted lists, and its timestamps ascend.
    With a cutoff that parses to a time without offset, as a date alone
    does, and a player that has a record, [plot_trophies] raises a
    [TypeError]: the record's time cannot be compared with the cutoff. *)
Theorem plot_trophies_figures (fromisoformat : string → option datetime)
    (has_tzinfo : string → bool) (list_of_set : gset string → list string)
    (player_trophies : list (string * list TrophyData)) (plot_args : pyobj)
    (l1 l2 : list TrophyData) (categorized_args : pyobj) (s : string)
    (start_date : datetime) :
  dict_get player_trophies "jmal" = Ok l1 →
  dict_get player_trophies "sampleses" = Ok l2 →
  getitem plot_args "categorized" = Ok categorized_args →
  getitem categorized_args "start_date" = Ok (PyStr s) →
  fromisoformat s = Some start_date →
  let st := race (sorted timestamp l1) (sorted timestamp l2) in
  (has_tzinfo s = true →
   plot_trophies fromisoformat has_tzinfo list_of_set player_trophies plot_args
   = Ok [("cumulative", plot_cumulative_trophies player_trophies);
         ("john_v_marc",
          mkFigure [Scatter (t st) (deltas st) None]
                   (Some "jmal trophies minus sampleses trophies"));
         ("categorized",
          plot_categorized_trophies
            (list_of_set (all_categories player_trophies))
            player_trophies start_date)]) ∧
  (has_tzinfo s = false →
   (∃ player trophies, (player, trophies) ∈ player_trophies ∧ trophies ≠ []) →
   plot_trophies fromisoformat has_tzinfo list_of_set player_trophies plot_args
   = Err TypeError) ∧
  StronglySorted Z.le (t st).
Proof.
  intros Hl1 Hl2 Hargs Hstart Hparse st.
  assert (plot_trophies fromisoformat has_tzinfo list_of_set player_trophies
                        plot_args
          = categorized ←
              plot_categorized_cutoff
                (list_of_set (all_categories player_trophies))
                ((λ '(player, trophies), (player, sorted timestamp trophies))
                 <$> player_trophies)
                (has_tzinfo s) start_date;
            Ok [("cumulative", plot_cumulative_trophies player_trophies);
                ("john_v_marc",
                 mkFigure [Scatter (t st) (deltas st) None]
                          (Some "jmal trophies minus sampleses trophies"));
                ("categorized", categorized)]) as ->.
  { unfold plot_trophies, plot_race. cbv zeta.
    rewrite !dict_get_fmap, Hl1, Hl2, !bind_Ok_l, Hargs, bind_Ok_l.
    rewrite Hstart, bind_Ok_l. unfold parse_timestamp, as_str.
    rewrite !bind_Ok_l, Hparse, bind_Ok_l.
    by rewrite plot_cumulative_trophies_sorted. }
  unfold plot_categorized_cutoff. split; [|split].
  - intros ->. cbn [orb]. rewrite bind_Ok_l.
    by rewrite plot_categorized_trophies_sorted.
  - intros -> Hrecord. cbn [orb]. by rewrite cutoff_compared.
  - apply race_timestamps_ascend; apply sorted_StronglySorted.
Qed.

Lemma plot_trophies_figures_witness :
  let st := race (sorted timestamp [live_trophy; solo_trophy])
                 (sorted timestamp [live_trophy]) in
  plot_trophies sample_fromisoformat (λ _, true) elements
    [("jmal", [live_trophy; solo_trophy]); ("sampleses", [live_trophy])]
    (PyDict [("categorized",
              PyDict [("start_date", PyStr "2023-05-02T08:30:00+00:00")])])
  = Ok [("cumulative",
         plot_cumulative_trophies
           [("jmal", [live_trophy; solo_trophy]); ("sampleses", [live_trophy])]);
        ("john_v_marc",
         mkFigure [Scatter (t st) (deltas st) None]
                  (Some "jmal trophies minus sampleses trophies"));
        ("categorized",
         plot_categorized_trophies
           (elements (all_categories
              [("jmal", [live_trophy; solo_trophy]); ("sampleses", [live_trophy])]))
           [("jmal", [live_trophy; solo_trophy]); ("sampleses", [live_trophy])]
           1683016200000000)] ∧
  plot_trophies (λ _, Some 1682985600000000) (λ _, false) elements
    [("jmal", [live_trophy; solo_trophy]); ("sampleses", [live_trophy])]
    (PyDict [("categorized", PyDict [("start_date", PyStr "2023-05-02")])])
  = Err TypeError.
Proof.
  split.
  - apply (proj1 (plot_trophies_figures sample_fromisoformat (λ _, true) elements
             [("jmal", [live_trophy; solo_trophy]); ("sampleses", [live_trophy])]
             (PyDict [("categorized",
                       PyDict [("start_date",
                                PyStr "2023-05-02T08:30:00+00:00")])])
             [live_trophy; solo_trophy] [live_trophy]
             (PyDict [("start_date", PyStr "2023-05-02T08:30:00+00:00")])
             "2023-05-02T08:30:00+00:00" 1683016200000000
             eq_refl eq_refl eq_refl eq_refl eq_refl)).
    reflexivity.
  - apply (proj1 (proj2 (plot_trophies_figures
             (λ _, Some 1682985600000000) (λ _, false) elements
             [("jmal", [live_trophy; solo_trophy]); ("sampleses", [live_trophy])]
             (PyDict [("categorized",
                       PyDict [("start_date", PyStr "2023-05-02")])])
             [live_trophy; solo_trophy] [live_trophy]
             (PyDict [("start_date", PyStr "2023-05-02")])
             "2023-05-02" 1682985600000000
             eq_refl eq_refl eq_refl eq_refl eq_refl))).
    + reflexivity.
    + exists "sampleses", [live_trophy]. split; [|done].
      apply list_elem_of_further, list_elem_of_here.
Defined.

(** X19. When [list(categories)] lists the elements of the set, in
    whatever order, the category axis [plot_trophies] passes on has no
    duplicate and holds exactly the categories of the records of all
    players; so for every player and every cutoff the values of the
    player's bars add up to the sum of the counts of the player's records
    at or after the cutoff. *)
Theorem plot_trophies_categories (list_of_set : gset string → list string)
    (player_trophies : list (string * list TrophyData)) :
  (∀ categories, list_of_set categories ≡ₚ elements categories) →
  let categories := list_of_set (all_categories player_trophies) in
  NoDup categories ∧
  (∀ cat, cat ∈ categories ↔
          ∃ player trophies r,
            (player, trophies) ∈ player_trophies ∧ r ∈ trophies ∧
            achievement_type r = cat) ∧
  (∀ player trophies start_date,
     (player, trophies) ∈ player_trophies →
     ∃ ys,
       categorized_trace categories player trophies start_date
       = Bar player categories ys ∧
       Zsum ys
       = Zsum (count <$> filter (λ r, start_date ≤ timestamp r) trophies)).
Proof.
  intros Hset categories.
  assert (NoDup categories) as Hnodup.
  { unfold categories. rewrite Hset. apply NoDup_elements. }
  assert (∀ cat, cat ∈ categories ↔
                 ∃ player trophies r,
                   (player, trophies) ∈ player_trophies ∧ r ∈ trophies ∧
                   achievement_type r = cat) as Hcats.
  { intros cat. unfold categories.
    by rewrite Hset, elem_of_elements, elem_of_all_categories. }
  split; [done|]. split; [done|].
  intros player trophies start_date Hplayer.
  eexists. split; [apply categorized_trace_totals|].
  apply category_totals_sum; [done|].
  intros r Hr _. apply Hcats. by exists player, trophies, r.
Qed.

Lemma plot_trophies_categories_witness :
  let categories :=
    elements (all_categories
                [("jmal", [live_trophy; solo_trophy]); ("sampleses", [live_trophy])]) in
  NoDup categories ∧
  ∃ ys,
    categorized_trace categories "jmal" [live_trophy; solo_trophy] 0
    = Bar "jmal" categories ys ∧
    Zsum ys
    = Zsum (count <$> filter (λ r, 0 ≤ timestamp r) [live_trophy; solo_trophy]).
Proof.
  destruct (plot_trophies_categories elements
              [("jmal", [live_trophy; solo_trophy]); ("sampleses", [live_trophy])]
              (λ _, reflexivity _)) as (Hnodup & _ & Hsum).
  split; [exact Hnodup|].
  apply (Hsum "jmal" [live_trophy; solo_trophy] 0). apply list_elem_of_here.
Defined.

(** ** The configuration *)

Lemma dict_get_dict_set {V} (d : list (string * V)) (key key' : string) (v : V) :
  dict_get (dict_set d key v) key'
  = if decide (key = key') then Ok v else dict_get d key'.
Proof.
  induction d as [|[k w] d IH]; simpl.
  - by case_decide.
  - destruct (decide (k = key)) as [->|Hk]; simpl.
    + by repeat case_decide.
    + rewrite IH. repeat case_decide; by simplify_eq.
Qed.

Lemma dict_set_fresh {V} (d : list (string * V)) (key : string) (v : V) :
  key ∉ d.*1 → dict_set d key v = d ++ [(key, v)].
Proof.
  induction d as [|[k w] d IH]; simpl; [done|].
  intros [Hne Hkey]%not_elem_of_cons.
  rewrite decide_False by done. by rewrite IH.
Qed.

Lemma dict_set_keys {V} (d : list (string * V)) (key : string) (v : V) :
  (dict_set d key v).*1 = if decide (key ∈ d.*1) then d.*1 else d.*1 ++ [key].
Proof.
  induction d as [|[k w] d IH]; [done|]. cbn [dict_set].
  destruct (decide (k = key)) as [->|Hk]; rewrite !fmap_cons; cbn [fst].
  - by rewrite decide_True by apply list_elem_of_here.
  - rewrite IH. destruct (decide (key ∈ d.*1)) as [Hin|Hnin].
    + by rewrite decide_True by (by right).
    + rewrite decide_False; [done|].
      intros [?|?]%elem_of_cons; by simplify_eq.
Qed.

Lemma dict_set_NoDup {V} (d : list (string * V)) (key : string) (v : V) :
  NoDup d.*1 → NoDup (dict_set d key v).*1.
Proof.
  intros Hd. rewrite dict_set_keys. case_decide as Hkey; [done|].
  apply NoDup_app. split; [done|]. split; [|apply NoDup_singleton].
  intros k Hk [= ->]%list_elem_of_singleton. done.
Qed.

Section from_toml_facts.
Variable py_str : pyobj → string.

Lemma player_dict_from (pairs : list (pyobj * pyobj)) :
  ∀ d : list (string * pyobj),
    let d' := fold_left (λ d '(name, player_id),
                           dict_set d (py_str name) player_id) pairs d in
    (NoDup d.*1 → NoDup d'.*1) ∧
    (∀ key, dict_get d' key
            = match last (filter (λ p, py_str p.1 = key) pairs) with
              | Some p => Ok p.2
              | None => dict_get d key
              end) ∧
    (NoDup ((λ p, py_str p.1) <$> pairs) →
     (∀ p, p ∈ pairs → py_str p.1 ∉ d.*1) →
     d' = d ++ ((λ p, (py_str p.1, p.2)) <$> pairs)).
Proof.
  induction pairs as [|[name player_id] pairs IH]; intros d; simpl.
  { split; [done|]. split; [done|]. intros _ _. by rewrite app_nil_r. }
  destruct (IH (dict_set d (py_str name) player_id)) as (Hnodup & Hget & Heq).
  split; [|split].
  - intros Hd. by apply Hnodup, dict_set_NoDup.
  - intros key. rewrite Hget, filter_cons. simpl.
    rewrite dict_get_dict_set.
    destruct (decide (py_str name = key)) as [Hkey|Hkey].
    + rewrite last_cons. by destruct (last _).
    + done.
  - intros [Hname Hpairs]%NoDup_cons Hfresh.
    rewrite Heq.
    + rewrite dict_set_fresh, <-app_assoc; [done|].
      apply (Hfresh (name, player_id)). by left.
    + done.
    + intros p Hp. rewrite dict_set_keys.
      rewrite decide_False by (apply (Hfresh (name, player_id)); by left).
      apply not_elem_of_app. split; [apply Hfresh; by right|].
      intros Heq'%list_elem_of_singleton. apply Hname.
      rewrite <-Heq'. apply list_elem_of_fmap. by exists p.
Qed.

Lemma mapM_unpack_pairs (pairs : list (pyobj * pyobj)) :
  mapM unpack_pair ((λ p, PyList [p.1; p.2]) <$> pairs) = Ok pairs.
Proof.
  induction pairs as [|[name player_id] pairs IH]; [done|].
  rewrite fmap_cons. cbn [mapM]. by rewrite IH.
Qed.

Lemma mapM_Ok_Forall2 {A B} (f : A → result B) (l : list A) (ys : list B) :
  mapM f l = Ok ys → Forall2 (λ x y, f x = Ok y) l ys.
Proof.
  revert ys. induction l as [|x l IH]; intros ys; cbn [mapM].
  - intros [= <-]. constructor.
  - intros H. apply bind_Ok in H as (y & Hy & H).
    apply bind_Ok in H as (ys' & Hys & [= <-]). constructor; auto.
Qed.
End from_toml_facts.

(** X20. [Config.from_toml] raises a [KeyError] on "players" when the
    configuration has no such entry, and an exception when an item of
    "players" does not yield exactly two elements; when it returns, the
    plot settings are the "plot_settings" entry, or the empty dict when
    there is none. *)
Theorem from_toml_exceptions_defaults (py_str : pyobj → string) (cfg : dict) :
  ("players" ∉ cfg.*1 → from_toml py_str cfg = Err (KeyError "players")) ∧
  (∀ items item elements,
     dict_get cfg "players" = Ok (PyList items) → item ∈ items →
     py_iter item = Ok elements → length elements ≠ 2%nat →
     is_Err (from_toml py_str cfg)) ∧
  (∀ c, from_toml py_str cfg = Ok c →
        (∀ v, dict_get cfg "plot_settings" = Ok v → plot_settings c = v) ∧
        ("plot_settings" ∉ cfg.*1 → plot_settings c = PyDict [])).
Proof.
  split; [|split].
  - intros Hkey. unfold from_toml.
    by rewrite (dict_get_missing cfg "players").
  - intros items item elements Hplayers Hitem Hiter Hlen.
    destruct (from_toml py_str cfg) as [c|e] eqn:Hcfg; [|by exists e].
    unfold from_toml in Hcfg. rewrite Hplayers in Hcfg. simpl in Hcfg.
    apply bind_Ok in Hcfg as (pairs & Hpairs & _).
    apply mapM_Ok_Forall2 in Hpairs.
    apply list_elem_of_lookup in Hitem as [i Hi].
    destruct (Forall2_lookup_l _ _ _ _ _ Hpairs Hi) as (pair & _ & Hpair).
    unfold unpack_pair in Hpair. rewrite Hiter in Hpair. simpl in Hpair.
    destruct elements as [|a [|b [|c' elements]]]; done.
  - intros c Hc. unfold from_toml in Hc.
    apply bind_Ok in Hc as (players & _ & Hc).
    apply bind_Ok in Hc as (pairs & _ & [= <-]). simpl. split.
    + by intros v ->.
    + intros Hkey. by rewrite (dict_get_missing cfg "plot_settings").
Qed.

Lemma from_toml_exceptions_defaults_witness :
  from_toml (λ _, "name") [("plot_settings", PyDict [])]
  = Err (KeyError "players") ∧
  is_Err (from_toml (λ _, "name")
            [("players", PyList [PyList [PyStr "jmal"]])]).
Proof.
  split.
  - apply (proj1 (from_toml_exceptions_defaults (λ _, "name")
                    [("plot_settings", PyDict [])])). no_key.
  - apply (proj1 (proj2 (from_toml_exceptions_defaults (λ _, "name")
                    [("players", PyList [PyList [PyStr "jmal"]])]))
             [PyList [PyStr "jmal"]] (PyList [PyStr "jmal"]) [PyStr "jmal"]);
      [reflexivity|apply list_elem_of_here|reflexivity|simpl; lia].
Defined.

(** X21. On a "players" entry that is a list of two-element lists,
    [Config.from_toml] returns a configuration whose player names are
    distinct; looking a name up gives the id of the last pair whose name
    has this [str], and a [KeyError] when there is none; when the [str] of
    the names are distinct, the players are the pairs in their order. *)
Theorem from_toml_player_ids (py_str : pyobj → string) (cfg : dict)
    (pairs : list (pyobj * pyobj)) :
  dict_get cfg "players" = Ok (PyList ((λ p, PyList [p.1; p.2]) <$> pairs)) →
  ∃ c,
    from_toml py_str cfg = Ok c ∧
    NoDup (player_ids c).*1 ∧
    (∀ key, dict_get (player_ids c) key
            = match last (filter (λ p, py_str p.1 = key) pairs) with
              | Some p => Ok p.2
              | None => Err (KeyError key)
              end) ∧
    (NoDup ((λ p, py_str p.1) <$> pairs) →
     player_ids c = (λ p, (py_str p.1, p.2)) <$> pairs).
Proof.
  intros Hplayers. unfold from_toml. rewrite Hplayers. simpl.
  rewrite mapM_unpack_pairs. simpl. eexists. split; [done|]. simpl.
  destruct (player_dict_from py_str pairs []) as (Hnodup & Hget & Heq).
  split; [apply Hnodup, NoDup_nil_2|]. split; [apply Hget|].
  intros Hnames. apply Heq; [done|]. intros p _. apply not_elem_of_nil.
Qed.

Lemma from_toml_player_ids_witness :
  ∃ c,
    from_toml (λ obj, match obj with PyStr s => s | _ => "" end)
      [("players",
        PyList [PyList [PyStr "jmal"; PyStr "id-1"];
                PyList [PyStr "sampleses"; PyStr "id-2"];
                PyList [PyStr "jmal"; PyStr "id-3"]])]
    = Ok c ∧
    dict_get (player_ids c) "jmal" = Ok (PyStr "id-3").
Proof.
  destruct (from_toml_player_ids
              (λ obj, match obj with PyStr s => s | _ => "" end)
              [("players",
                PyList [PyList [PyStr "jmal"; PyStr "id-1"];
                        PyList [PyStr "sampleses"; PyStr "id-2"];
                        PyList [PyStr "jmal"; PyStr "id-3"]])]
              [(PyStr "jmal", PyStr "id-1"); (PyStr "sampleses", PyStr "id-2");
               (PyStr "jmal", PyStr "id-3")]
              eq_refl) as (c & Hc & _ & Hget & _).
  exists c. split; [exact Hc|]. exact (Hget "jmal").
Defined.

(** ** [main] *)

Section main_facts.
Context {File : Type}.
Variable fromisoformat : string → option datetime.
Variable requests_get : string → nat → Response.
Variable py_str : pyobj → string.

Lemma fetch_players_Err (before after : list (string * pyobj))
    (name : string) (player_id : pyobj) (e : exn) :
  Forall (λ p, is_Ok (outcome (get_trophies fromisoformat requests_get
                                 (py_str p.2) 100))) before →
  outcome (get_trophies fromisoformat requests_get (py_str player_id) 100)
  = Err e →
  ∀ trophy_results log,
    fetch_players fromisoformat requests_get py_str
      (before ++ (name, player_id) :: after) trophy_results log
    = (log
       ++ concat (player_requests fromisoformat requests_get py_str
                  <$> before.*2)
       ++ player_requests fromisoformat requests_get py_str player_id,
       Err e).
Proof.
  intros Hbefore Hfail.
  induction Hbefore as [|[name' pid'] before [gains Hgains] _ IH];
    intros trophy_results log; simpl in *.
  - by rewrite Hfail.
  - rewrite Hgains, IH. by rewrite <-!app_assoc.
Qed.

Lemma fetch_players_Ok (players : list (string * pyobj))
    (gainss : list (list TrophyData)) :
  Forall2 (λ p gains,
             outcome (get_trophies fromisoformat requests_get (py_str p.2) 100)
             = Ok gains) players gainss →
  NoDup players.*1 →
  ∀ trophy_results log,
    (∀ name, name ∈ players.*1 → name ∉ trophy_results.*1) →
    fetch_players fromisoformat requests_get py_str players trophy_results log
    = (log ++ concat (player_requests fromisoformat requests_get py_str
                      <$> players.*2),
       Ok (trophy_results ++ zip players.*1 gainss)).
Proof.
  intros Hall.
  induction Hall as [|[name pid] gains players gainss Hgains _ IH];
    intros Hnodup trophy_results log Hfresh; simpl in *.
  - by rewrite !app_nil_r.
  - apply NoDup_cons in Hnodup as [Hname Hnodup].
    rewrite Hgains, IH; [| done |].
    + rewrite dict_set_fresh by (apply Hfresh; by left).
      by rewrite <-!app_assoc.
    + intros name' Hname'. rewrite dict_set_keys.
      rewrite decide_False by (apply Hfresh; by left).
      apply not_elem_of_app. split; [apply Hfresh; by right|].
      intros ->%list_elem_of_singleton. done.
Qed.

Lemma fetch_players_NoDup (players : list (string * pyobj)) :
  ∀ trophy_results log log' results,
    NoDup trophy_results.*1 →
    fetch_players fromisoformat requests_get py_str players trophy_results log
    = (log', Ok results) →
    NoDup results.*1.
Proof.
  induction players as [|[name player_id] players IH];
    intros trophy_results log log' results Hnodup; cbn [fetch_players].
  - by intros [= _ <-].
  - cbv zeta.
    destruct (outcome (get_trophies _ _ _ _)) as [gains|e]; [|done].
    apply IH. by apply dict_set_NoDup.
Qed.

Lemma from_toml_NoDup (cfg_toml : dict) (cfg : Config) :
  from_toml py_str cfg_toml = Ok cfg → NoDup (player_ids cfg).*1.
Proof.
  unfold from_toml. intros H.
  apply bind_Ok in H as (players & _ & H).
  apply bind_Ok in H as (pairs & _ & [= <-]). simpl.
  apply (player_dict_from py_str pairs []), NoDup_nil_2.
Qed.
End main_facts.

(** X22. On a run without a cache, when the fetch of a player raises after
    the players before it were fetched, [main] ends with that exception:
    it has sent the requests of the players before and of this player and
    none for the players after, and it writes no cache file. *)
Theorem main_fetch_failure {File : Type}
    (fromisoformat : string → option datetime)
    (has_tzinfo : string → bool)
    (requests_get : string → nat → Response) (py_str : pyobj → string)
    (list_of_set : gset string → list string)
    (yaml_dump : pyobj → File) (yaml_safe_load : File → result pyobj)
    (cfg_toml : dict) (cfg : Config)
    (before after : list (string * pyobj)) (name : string) (player_id : pyobj)
    (e : exn) :
  from_toml py_str cfg_toml = Ok cfg →
  player_ids cfg = before ++ (name, player_id) :: after →
  Forall (λ p, is_Ok (outcome (get_trophies fromisoformat requests_get
                                 (py_str p.2) 100))) before →
  outcome (get_trophies fromisoformat requests_get (py_str player_id) 100)
  = Err e →
  main fromisoformat has_tzinfo requests_get py_str list_of_set yaml_dump yaml_safe_load
       cfg_toml None
  = mkRun (concat (player_requests fromisoformat requests_get py_str
                   <$> before.*2)
           ++ player_requests fromisoformat requests_get py_str player_id)
          None (Err e).
Proof.
  intros Hcfg Hplayers Hbefore Hfail. unfold main. rewrite Hcfg, Hplayers.
  by rewrite (fetch_players_Err _ _ _ _ _ _ _ e Hbefore Hfail).
Qed.

(** X23. On a run without a cache in which every fetch returns a list,
    [main] sends the requests of the players in the order of the
    configuration, writes to the cache the lists under the players' names
    in that order, and plots these lists; the cache is written whether or
    not the plotting raises. *)
Theorem main_first_run {File : Type}
    (fromisoformat : string → option datetime)
    (has_tzinfo : string → bool)
    (requests_get : string → nat → Response) (py_str : pyobj → string)
    (list_of_set : gset string → list string)
    (yaml_dump : pyobj → File) (yaml_safe_load : File → result pyobj)
    (cfg_toml : dict) (cfg : Config) (gainss : list (list TrophyData)) :
  from_toml py_str cfg_toml = Ok cfg →
  Forall2 (λ p gains,
             outcome (get_trophies fromisoformat requests_get (py_str p.2) 100)
             = Ok gains) (player_ids cfg) gainss →
  let trophy_results := zip (player_ids cfg).*1 gainss in
  main fromisoformat has_tzinfo requests_get py_str list_of_set yaml_dump yaml_safe_load
       cfg_toml None
  = mkRun (concat (player_requests fromisoformat requests_get py_str
                   <$> (player_ids cfg).*2))
          (Some (write_cache yaml_dump trophy_results))
          (plot_trophies fromisoformat has_tzinfo list_of_set trophy_results
                         (plot_settings cfg)).
Proof.
  intros Hcfg Hall trophy_results. unfold main. rewrite Hcfg.
  rewrite (fetch_players_Ok _ _ _ _ gainss Hall);
    [done|by eapply from_toml_NoDup|intros; apply not_elem_of_nil].
Qed.

(** X24. A run on the cache file that a run without a cache has written
    sends no request and writes nothing, whatever the provider would
    answer by then, and it plots, for every player of the first run, as
    many records as the first run plotted, equal one by one in timestamp,
    achievement_type and count and, as dicts, in data. The players may
    come in another order than in the first run, and [list] of the set of
    categories may give another order in another process. The YAML codec
    is taken to return, on loading what it dumped, a document that
    differs from the dumped one at most in the order of the entries of
    its mappings: [yaml.dump] writes them sorted. *)
Theorem main_second_run {File : Type}
    (fromisoformat : string → option datetime) (has_tzinfo : string → bool)
    (requests_get requests_get' : string → nat → Response)
    (py_str : pyobj → string)
    (list_of_set list_of_set' : gset string → list string)
    (yaml_dump : pyobj → File) (yaml_safe_load : File → result pyobj)
    (cfg_toml : dict) (cfg : Config) (log : list (string * nat))
    (trophy_results : list (string * list TrophyData)) (doc : pyobj) :
  from_toml py_str cfg_toml = Ok cfg →
  fetch_players fromisoformat requests_get py_str (player_ids cfg) [] []
  = (log, Ok trophy_results) →
  yaml_safe_load (yaml_dump (yamlified trophy_results)) = Ok doc →
  same_doc (yamlified trophy_results) doc →
  let first := main fromisoformat has_tzinfo requests_get py_str list_of_set
                    yaml_dump yaml_safe_load cfg_toml None in
  written first = Some (write_cache yaml_dump trophy_results) ∧
  figures first
  = plot_trophies fromisoformat has_tzinfo list_of_set trophy_results
                  (plot_settings cfg) ∧
  ∃ cached_results,
    main fromisoformat has_tzinfo requests_get' py_str list_of_set'
         yaml_dump yaml_safe_load cfg_toml (written first)
    = mkRun [] None
            (plot_trophies fromisoformat has_tzinfo list_of_set' cached_results
                           (plot_settings cfg)) ∧
    cached_results.*1 ≡ₚ trophy_results.*1 ∧
    ∀ player trophies,
      dict_get trophy_results player = Ok trophies →
      ∃ trophies',
        dict_get cached_results player = Ok trophies' ∧
        length trophies' = length trophies ∧
        Forall2 same_record trophies trophies'.
Proof.
  intros Hcfg Hfetch Hload Hdoc first.
  assert (first
          = mkRun log (Some (write_cache yaml_dump trophy_results))
                  (plot_trophies fromisoformat has_tzinfo list_of_set
                                 trophy_results (plot_settings cfg))) as ->.
  { unfold first, main. by rewrite Hcfg, Hfetch. }
  split; [done|]. split; [done|]. cbn [written].
  destruct (read_cache_same_doc yaml_safe_load
              (write_cache yaml_dump trophy_results) trophy_results doc)
    as (cached_results & Hread & Hkeys & Hrecords); [|done..|].
  { by eapply (fetch_players_NoDup fromisoformat requests_get py_str),
               Hfetch; apply NoDup_nil_2. }
  exists cached_results. split; [|split; [done|]].
  - unfold main. by rewrite Hcfg, Hread.
  - intros player trophies Hget.
    destruct (Hrecords player trophies Hget) as (trophies' & Hget' & Hsame).
    exists trophies'. split; [done|]. split; [|done].
    symmetry. by eapply Forall2_length.
Qed.

Lemma main_fetch_failure_witness :
  main sample_fromisoformat (λ _, true) failing_provider sample_str elements
       (File:=pyobj) id Ok sample_toml None
  = mkRun [("id-1", 0%nat); ("id-1", 1%nat)] None
          (Err (RuntimeError (PyDict [("error", PyStr "rate limited")]))).
Proof.
  apply (main_fetch_failure (File:=pyobj)
           sample_fromisoformat (λ _, true) failing_provider sample_str
           elements id Ok
           sample_toml sample_config [] [("sampleses", PyStr "id-2")]
           "jmal" (PyStr "id-1")
           (RuntimeError (PyDict [("error", PyStr "rate limited")])));
    [reflexivity|reflexivity|constructor|reflexivity].
Defined.

Lemma main_first_run_witness :
  let trophy_results :=
    [("jmal", [solo_trophy; live_trophy; live_trophy]);
     ("sampleses", [solo_trophy; live_trophy; live_trophy])] in
  main sample_fromisoformat (λ _, true) sample_provider sample_str elements
       (File:=pyobj) id Ok sample_toml None
  = mkRun [("id-1", 0%nat); ("id-1", 1%nat); ("id-2", 0%nat); ("id-2", 1%nat)]
          (Some (yamlified trophy_results))
          (plot_trophies sample_fromisoformat (λ _, true) elements
                         trophy_results (plot_settings sample_config)).
Proof.
  apply (main_first_run (File:=pyobj)
           sample_fromisoformat (λ _, true) sample_provider sample_str
           elements id Ok
           sample_toml sample_config
           [[solo_trophy; live_trophy; live_trophy];
            [solo_trophy; live_trophy; live_trophy]]);
    [reflexivity|repeat constructor].
Defined.

Lemma main_second_run_witness :
  let trophy_results :=
    [("jmal", [solo_trophy; live_trophy; live_trophy]);
     ("sampleses", [solo_trophy; live_trophy; live_trophy])] in
  ∃ cached_results,
    main sample_fromisoformat (λ _, true) failing_provider sample_str elements
         (File:=pyobj) sort_keys Ok sample_toml
         (Some (write_cache sort_keys trophy_results))
    = mkRun [] None
            (plot_trophies sample_fromisoformat (λ _, true) elements
                           cached_results (plot_settings sample_config)) ∧
    cached_results.*1 ≡ₚ trophy_results.*1 ∧
    ∀ player trophies,
      dict_get trophy_results player = Ok trophies →
      ∃ trophies',
        dict_get cached_results player = Ok trophies' ∧
        length trophies' = length trophies ∧
        Forall2 same_record trophies trophies'.
Proof.
  intros trophy_results.
  apply (proj2 (proj2 (main_second_run (File:=pyobj)
           sample_fromisoformat (λ _, true) sample_provider failing_provider
           sample_str elements elements sort_keys Ok sample_toml sample_config
           [("id-1", 0%nat); ("id-1", 1%nat); ("id-2", 0%nat); ("id-2", 1%nat)]
           trophy_results (sort_keys (yamlified trophy_results))
           eq_refl eq_refl eq_refl ltac:(same_doc_tac)))).
Defined.

(** ** The figures *)

Lemma fold_add_trace_title (f : string → list TrophyData → Trace)
    (title : string) (player_trophies : list (string * list TrophyData))
    (fig : Figure) :
  yaxis_title (fold_left (λ fig '(player, trophies),
                            update_yaxes (add_trace fig (f player trophies)) title)
                         player_trophies fig)
  = match player_trophies with
    | [] => yaxis_title fig
    | _ :: _ => Some title
    end.
Proof.
  revert fig. induction player_trophies as [|[player trophies] d IH];
    intros fig; simpl; [done|].
  rewrite IH. by destruct d.
Qed.

(** X25. The cumulative and the categorized figure have one trace per
    player, in the order of the dict; the y axis gets its title "Trophy
    points" inside the loop over the players, so a figure for no player
    has no trace and no axis title. *)
Theorem figures_traces_and_title (categories : list string)
    (player_trophies : list (string * list TrophyData)) (start_date : datetime) :
  let cumulative := plot_cumulative_trophies player_trophies in
  let categorized :=
    plot_categorized_trophies categories player_trophies start_date in
  length (traces cumulative) = length player_trophies ∧
  length (traces categorized) = length player_trophies ∧
  yaxis_title cumulative
  = (if decide (player_trophies = []) then None else Some "Trophy points") ∧
  yaxis_title categorized
  = (if decide (player_trophies = []) then None else Some "Trophy points").
Proof.
  cbv zeta. unfold plot_cumulative_trophies, plot_categorized_trophies.
  rewrite (fold_add_trace cumulative_trace),
          (fold_add_trace (λ player trophies,
             categorized_trace categories player trophies start_date)).
  rewrite (fold_add_trace_title cumulative_trace),
          (fold_add_trace_title (λ player trophies,
             categorized_trace categories player trophies start_date)).
  simpl. rewrite !length_fmap. by destruct player_trophies.
Qed.
